(** * Task analysis and hook plumbing of re-claude: a shallow embedding

  The development follows the optimized hooks of the repository
  ([src/hooks/optimized/pre-command.js], which carries the pre-command,
  post-task and pre-task hooks, and [src/hooks/optimized/index.js]) and
  the compiled tool-mapping module [mcp_tool_mappings_enhanced].

  Conventions.
  - A JavaScript string is a [string]; the model covers ASCII text, on
    which [String.prototype.toLowerCase] only moves [A-Z] to [a-z] and the
    class [\s] is tab, line feed, vertical tab, form feed, carriage return
    and space.
  - An [async] method that cannot observe its environment is a pure
    function; a thrown exception (a rejected promise) is the [Throw] case of
    [Completion].
  - A property read on an object literal consults the object's own
    properties and then [Object.prototype]; [js_get] writes that out. *)

From Stdlib Require Import Ascii ZArith Lia.
From Stdlib Require String.
From stdpp Require Import base list strings pretty gmap sorting.

Local Open Scope stdpp_scope.

(* ===================================================================== *)
(** ** JavaScript values, completions and strings                        *)
(* ===================================================================== *)

Module JS.

(** Values a hook option can carry (what JSON and the CLI can deliver). *)
Inductive Value : Type :=
| Undefined
| Null
| Bool (b : bool)
| Number (n : Z)
| Str (s : string).

(** Outcome of evaluating a call: a value, or a thrown [Error] of which
    only the message is kept. *)
Inductive Completion (A : Type) : Type :=
| Normal (a : A)
| Throw (message : string).
Arguments Normal {A} a.
Arguments Throw {A} message.

Definition bind {A B} (c : Completion A) (k : A -> Completion B) : Completion B :=
  match c with
  | Normal a => k a
  | Throw m => Throw m
  end.

(** [Promise.all(promises)]: the results, or the rejection of the first
    promise of the list that is rejected. *)
Fixpoint settleAll {A} (promises : list (Completion A)) : Completion (list A) :=
  match promises with
  | [] => Normal []
  | Normal a :: rest => bind (settleAll rest) (fun l => Normal (a :: l))
  | Throw m :: _ => Throw m
  end.

Definition is_string (v : Value) : bool :=
  match v with Str _ => true | _ => false end.

(** [c.toLowerCase()] on one ASCII code unit. *)
Definition lower_ascii (c : ascii) : ascii :=
  let n := nat_of_ascii c in
  if (65 <=? n)%nat && (n <=? 90)%nat then ascii_of_nat (n + 32) else c.

(** [s.toLowerCase()]. *)
Fixpoint toLowerCase (s : string) : string :=
  match s with
  | EmptyString => EmptyString
  | String c s' => String (lower_ascii c) (toLowerCase s')
  end.

(** [s.startsWith(p)]. *)
Fixpoint startsWith (s p : string) {struct p} : bool :=
  match p, s with
  | EmptyString, _ => true
  | String _ _, EmptyString => false
  | String a p', String b s' => bool_decide (a = b) && startsWith s' p'
  end.

(** [s.includes(sub)]: [sub] occurs at some position of [s]. *)
Fixpoint includes (s sub : string) : bool :=
  startsWith s sub ||
  match s with
  | EmptyString => false
  | String _ s' => includes s' sub
  end.

(** The relation [includes] decides. *)
Definition substring_of (sub s : string) : Prop :=
  exists pre post, s = pre +:+ sub +:+ post.

(** Case-insensitive occurrence of the word [w] in [s]. *)
Definition ci_substring_of (w s : string) : Prop :=
  substring_of (toLowerCase w) (toLowerCase s).

(** [s.replace(/x/g, by)] for a one-character pattern and a replacement
    text without [$]. *)
Fixpoint replaceAll (x : ascii) (by_ : string) (s : string) : string :=
  match s with
  | EmptyString => EmptyString
  | String c s' =>
      if bool_decide (c = x) then by_ +:+ replaceAll x by_ s'
      else String c (replaceAll x by_ s')
  end.

(** The regular expressions of the hooks: literals, [\s], [\s*],
    sequence and alternation. *)
Inductive Regex : Type :=
| Lit (l : string)
| Space
| SpaceStar
| Seq (r1 r2 : Regex)
| Alt (r1 r2 : Regex).

Fixpoint strip_prefix (p s : string) {struct p} : option string :=
  match p, s with
  | EmptyString, _ => Some s
  | String _ _, EmptyString => None
  | String a p', String b s' =>
      if bool_decide (a = b) then strip_prefix p' s' else None
  end.

Fixpoint skip_spaces_then (k : string -> bool) (s : string) : bool :=
  k s ||
  match s with
  | EmptyString => false
  | String c s' => Ascii.is_space c && skip_spaces_then k s'
  end.

(** [match_here r k s]: [r] matches a prefix of [s] and the rest
    satisfies the continuation [k]. *)
Fixpoint match_here (r : Regex) (k : string -> bool) (s : string) : bool :=
  match r with
  | Lit l => match strip_prefix l s with Some rest => k rest | None => false end
  | Space =>
      match s with
      | EmptyString => false
      | String c s' => Ascii.is_space c && k s'
      end
  | SpaceStar => skip_spaces_then k s
  | Seq r1 r2 => match_here r1 (match_here r2 k) s
  | Alt r1 r2 => match_here r1 k s || match_here r2 k s
  end.

(** [s.match(r)] is truthy: [r] matches at some position. *)
Fixpoint regex_test (r : Regex) (s : string) : bool :=
  match_here r (fun _ => true) s ||
  match s with
  | EmptyString => false
  | String _ s' => regex_test r s'
  end.

Fixpoint alternatives (ls : list string) : Regex :=
  match ls with
  | [] => Lit "" (* unused: every alternation below is non-empty *)
  | [l] => Lit l
  | l :: ls' => Alt (Lit l) (alternatives ls')
  end.

(** Property names every object literal inherits from
    [Object.prototype]; each holds a function (or, for [__proto__], the
    prototype object), so each is truthy and none is an array. *)
Definition object_prototype_keys : list string :=
  [ "constructor"; "__defineGetter__"; "__defineSetter__"; "hasOwnProperty";
    "__lookupGetter__"; "__lookupSetter__"; "isPrototypeOf";
    "propertyIsEnumerable"; "toString"; "valueOf"; "__proto__";
    "toLocaleString" ].

Inductive Lookup (A : Type) : Type :=
| Own (a : A)          (* an own property of the literal *)
| Inherited            (* found on Object.prototype *)
| Missing.             (* undefined *)
Arguments Own {A} a.
Arguments Inherited {A}.
Arguments Missing {A}.

Fixpoint assoc {A} (k : string) (l : list (string * A)) : option A :=
  match l with
  | [] => None
  | (k', a) :: l' => if bool_decide (k' = k) then Some a else assoc k l'
  end.

(** [obj[k]] for an object literal with own properties [own]. *)
Definition js_get {A} (own : list (string * A)) (k : string) : Lookup A :=
  match assoc k own with
  | Some a => Own a
  | None => if bool_decide (k ∈ object_prototype_keys) then Inherited else Missing
  end.

End JS.

(* ===================================================================== *)
(** ** More string operations of the hooks                               *)
(* ===================================================================== *)

Module Text.
Import JS.

(** [s.trimStart()] *)
Fixpoint trimStart (s : string) : string :=
  match s with
  | EmptyString => EmptyString
  | String c s' => if Ascii.is_space c then trimStart s' else s
  end.

(** [s.trim()] *)
Definition trim (s : string) : string :=
  String.rev (trimStart (String.rev (trimStart s))).

(** The longest prefix without white space: what [[^\s]+] takes, and
    [s.split(/\s+/)[0]]. *)
Fixpoint takeToken (s : string) : string :=
  match s with
  | EmptyString => EmptyString
  | String c s' => if Ascii.is_space c then EmptyString else String c (takeToken s')
  end.

(** [s.split(sep)] for a non-empty separator: [cur] holds the current
    piece in reverse, [skip] the separator characters still to pass. *)
Fixpoint split_go (sep : string) (skip : nat) (cur : string) (s : string) : list string :=
  match s with
  | EmptyString => [String.rev cur]
  | String c s' =>
      match skip with
      | S k => split_go sep k cur s'
      | O =>
          if startsWith s sep
          then String.rev cur :: split_go sep (String.length sep - 1) EmptyString s'
          else split_go sep 0 (String c cur) s'
      end
  end.

Definition split (sep s : string) : list string := split_go sep 0 EmptyString s.

(** A line terminator, which [.] does not match. *)
Definition is_line_terminator (c : ascii) : bool :=
  bool_decide (c = "010"%char) || bool_decide (c = "013"%char).

(** [.*] followed by the continuation [k]. *)
Fixpoint any_then (k : string -> bool) (s : string) : bool :=
  k s ||
  match s with
  | EmptyString => false
  | String c s' => negb (is_line_terminator c) && any_then k s'
  end.

End Text.

(* ===================================================================== *)
(** ** PreTaskHook (pre-task part of pre-command.js)                     *)
(* ===================================================================== *)

Module PreTask.
Import JS.

(** Fields of a hook instance, set by the constructor from the working
    directory, [Date.now()] and [Math.random()]. *)
Record Hook : Type := {
  swarmPath : string;
  memoryDb : string;
  sessionId : string
}.

(** The object returned by [estimateTaskComplexity]. *)
Record Complexity : Type := {
  level : string;
  estimatedMinutes : nat;
  patterns : list string;
  components : list string;
  requiresCoordination : bool
}.

(** [complexityIndicators], in the order [Object.entries] walks it. *)
Definition complexityIndicators : list (string * list string) :=
  [ ("simple",   ["fix"; "update"; "change"; "modify"; "add"]);
    ("medium",   ["implement"; "create"; "build"; "develop"; "integrate"]);
    ("complex",  ["refactor"; "optimize"; "architect"; "redesign"; "migrate"]);
    ("critical", ["security"; "performance"; "scale"; "distributed"; "real-time"]) ].

(** [components]. *)
Definition componentVocabulary : list string :=
  ["frontend"; "backend"; "database"; "api"; "auth"; "testing"].

(** The mutable locals of the indicator loop. *)
Record Scan : Type := {
  scan_level : string;
  scan_minutes : nat;
  scan_patterns : list string
}.

(** [keywords.some(keyword => description.toLowerCase().includes(keyword))] *)
Definition qualifies (description : string) (keywords : list string) : bool :=
  existsb (fun keyword => includes (toLowerCase description) keyword) keywords.

(** [keywords.filter(k => description.toLowerCase().includes(k))] *)
Definition matchedKeywords (description : string) (keywords : list string) : list string :=
  List.filter (fun k => includes (toLowerCase description) k) keywords.

(** The [switch (complexity)]; it has no default case. *)
Definition minutesFor (complexity : string) (current : nat) : nat :=
  if bool_decide (complexity = "simple") then 15
  else if bool_decide (complexity = "medium") then 45
  else if bool_decide (complexity = "complex") then 120
  else if bool_decide (complexity = "critical") then 240
  else current.

(** One iteration of [for (const [complexity, keywords] of ...)]. *)
Definition scanEntry (description : string) (st : Scan)
    (entry : string * list string) : Scan :=
  let '(complexity, keywords) := entry in
  if qualifies description keywords then
    {| scan_level := complexity;
       scan_minutes := minutesFor complexity (scan_minutes st);
       scan_patterns := scan_patterns st ++ matchedKeywords description keywords |}
  else st.

Definition scanIndicators (catalog : list (string * list string))
    (description : string) : Scan :=
  fold_left (scanEntry description) catalog
    {| scan_level := "simple"; scan_minutes := 15; scan_patterns := [] |}.

(** [estimateTaskComplexity] on a string, for a given indicator catalog. *)
Definition estimateWith (catalog : list (string * list string))
    (description : string) : Complexity :=
  let st := scanIndicators catalog description in
  let detectedComponents :=
    List.filter (fun c => includes (toLowerCase description) c) componentVocabulary in
  let multi := (2 <? length detectedComponents)%nat in
  {| level := if multi then "complex" else scan_level st;
     estimatedMinutes :=
       if multi then Nat.max (scan_minutes st) 90 else scan_minutes st;
     patterns := scan_patterns st;
     components := detectedComponents;
     requiresCoordination := (1 <? length detectedComponents)%nat |}.

Definition estimate (description : string) : Complexity :=
  estimateWith complexityIndicators description.

(** The message of the [TypeError] that [v.toLowerCase()] raises when
    [v] is not a string. *)
Definition toLowerCase_error (v : Value) : string :=
  match v with
  | Undefined => "Cannot read properties of undefined (reading 'toLowerCase')"
  | Null => "Cannot read properties of null (reading 'toLowerCase')"
  | _ => "description.toLowerCase is not a function"
  end.

(** [estimateTaskComplexity(description)] on any value. Every path
    through the body evaluates [description.toLowerCase()] before it
    returns (at the first keyword the indicator loop tests, and at the
    latest in the component filter); on a value without that method the
    call throws, and the promise of the [async] method is rejected. *)
Definition estimateTaskComplexityWith (catalog : list (string * list string))
    (description : Value) : Completion Complexity :=
  match description with
  | Str s => Normal (estimateWith catalog s)
  | v => Throw (toLowerCase_error v)
  end.

Definition estimateTaskComplexity (description : Value) : Completion Complexity :=
  estimateTaskComplexityWith complexityIndicators description.

(** *** Topology selection *)

Record TopologyConfig : Type := {
  suitable : list string;
  maxAgents : nat;
  coordination : string
}.

Record Topology : Type := {
  type : string;
  config : option TopologyConfig;
  confidence : string
}.

Definition topologies : list (string * TopologyConfig) :=
  [ ("mesh", {| suitable := ["collaborative"; "research"; "exploration"; "brainstorm"];
                maxAgents := 6; coordination := "distributed" |});
    ("hierarchical", {| suitable := ["complex"; "multi-layer"; "structured"; "organized"];
                maxAgents := 10; coordination := "centralized" |});
    ("ring", {| suitable := ["sequential"; "pipeline"; "workflow"; "process"];
                maxAgents := 8; coordination := "circular" |});
    ("star", {| suitable := ["centralized"; "focused"; "single-goal"; "simple"];
                maxAgents := 5; coordination := "hub-spoke" |}) ].

(** [config.suitable.reduce((acc, keyword) => acc + (... ? 1 : 0), 0)] *)
Definition suitabilityScore (description : string) (cfg : TopologyConfig) : nat :=
  fold_left
    (fun acc keyword =>
       acc + (if includes (toLowerCase description) keyword then 1 else 0))
    (suitable cfg) 0.

(** The scoring loop: [(selectedTopology, maxScore)]. *)
Definition scoreTopologies (description : string) : string * nat :=
  fold_left
    (fun (st : string * nat) (entry : string * TopologyConfig) =>
       let score := suitabilityScore description (snd entry) in
       if (snd st <? score)%nat then (fst entry, score) else st)
    topologies ("mesh", 0).

Definition selectTopology (description : string) : Topology :=
  let '(scored, maxScore) := scoreTopologies description in
  let d := toLowerCase description in
  let selectedTopology :=
    if includes d "api" || includes d "service" then "hierarchical"
    else if includes d "test" || includes d "validate" then "ring"
    else scored in
  {| type := selectedTopology;
     config := assoc selectedTopology topologies;
     confidence := if (0 <? maxScore)%nat then "high" else "medium" |}.

(** [selectOptimalTopology(description)] on any value. *)
Definition selectOptimalTopology (description : Value) : Completion Topology :=
  match description with
  | Str s => Normal (selectTopology s)
  | v => Throw (toLowerCase_error v)
  end.

(** *** Agent spawning *)

Record Agent : Type := { agent_type : string; agent_name : string }.

Definition agentConfigs : list (string * list Agent) :=
  [ ("simple",
      [ {| agent_type := "coder"; agent_name := "Implementation" |};
        {| agent_type := "tester"; agent_name := "Validation" |} ]);
    ("medium",
      [ {| agent_type := "architect"; agent_name := "Design" |};
        {| agent_type := "coder"; agent_name := "Backend" |};
        {| agent_type := "coder"; agent_name := "Frontend" |};
        {| agent_type := "tester"; agent_name := "QA" |} ]);
    ("complex",
      [ {| agent_type := "coordinator"; agent_name := "Lead" |};
        {| agent_type := "architect"; agent_name := "System Design" |};
        {| agent_type := "coder"; agent_name := "Core Implementation" |};
        {| agent_type := "coder"; agent_name := "Integration" |};
        {| agent_type := "analyst"; agent_name := "Performance" |};
        {| agent_type := "tester"; agent_name := "Testing" |};
        {| agent_type := "reviewer"; agent_name := "Code Review" |} ]);
    ("critical",
      [ {| agent_type := "coordinator"; agent_name := "Project Manager" |};
        {| agent_type := "architect"; agent_name := "Chief Architect" |};
        {| agent_type := "researcher"; agent_name := "Tech Research" |};
        {| agent_type := "coder"; agent_name := "Senior Dev 1" |};
        {| agent_type := "coder"; agent_name := "Senior Dev 2" |};
        {| agent_type := "analyst"; agent_name := "Security Analyst" |};
        {| agent_type := "optimizer"; agent_name := "Performance Expert" |};
        {| agent_type := "tester"; agent_name := "QA Lead" |};
        {| agent_type := "documenter"; agent_name := "Tech Writer" |};
        {| agent_type := "monitor"; agent_name := "DevOps" |} ]) ].

(** [agentConfigs.simple] *)
Definition simpleAgents : list Agent :=
  default [] (assoc "simple" agentConfigs).

(** [agentConfigs[level] || agentConfigs.simple], then the [agents.map]
    that follows: an inherited property is truthy but has no [map]. *)
Definition selectAgents (level : string) : Completion (list Agent) :=
  match js_get agentConfigs level with
  | Own agents => Normal agents
  | Missing => Normal simpleAgents
  | Inherited => Throw "agents.map is not a function"
  end.

(** The double quote character. *)
Definition dquote : ascii := ascii_of_nat 34.

Definition spawnCommand (a : Agent) : string :=
  "npx claude-flow@alpha agent spawn --type " +:+ agent_type a
    +:+ " --name " +:+ String dquote (agent_name a +:+ String dquote "").

(** [autoSpawnAgents(complexity, topology)] reads [complexity.level]
    only; it returns [agents.length] after issuing one spawn command per
    agent. *)
Definition autoSpawnAgents (level : string) : Completion (nat * list string) :=
  bind (selectAgents level)
    (fun agents => Normal (length agents, map spawnCommand agents)).

(** The four levels of the tables, in increasing order. *)
Inductive Level : Type := Simple | Medium | Complex | Critical.

Definition level_name (l : Level) : string :=
  match l with
  | Simple => "simple" | Medium => "medium"
  | Complex => "complex" | Critical => "critical"
  end.

Definition level_rank (l : Level) : nat :=
  match l with Simple => 0 | Medium => 1 | Complex => 2 | Critical => 3 end.

(** Rank of a level name; names outside the scale have none. *)
Definition rank_of_name (name : string) : option nat :=
  if bool_decide (name = "simple") then Some 0
  else if bool_decide (name = "medium") then Some 1
  else if bool_decide (name = "complex") then Some 2
  else if bool_decide (name = "critical") then Some 3
  else None.

(** *** The hook's entry point *)

(** What [executeCommand] resolves to, as far as the hook reads it: whether
    the exit status was 0, and what the command wrote to its standard
    output. *)
Record CommandResult : Type := {
  success : bool;
  output : string
}.

(** The object [initializeGithubContext] returns. [owner] and [repo] are
    the first two pieces, cut at [/], of the text the pattern captures from
    the remote URL; the URL is kept in their place. *)
Record GithubContext : Type := {
  remote : string;
  hasChanges : bool;
  branch : string
}.

(** The objects the operations of [execute] resolve to; the memory object
    is [{ entries, totalFound }]. *)
Inductive Object : Type :=
| OComplexity (c : Complexity)
| OMemory (totalFound : nat)
| OTopology (t : Topology)
| OGithub (g : GithubContext).

(** A settled operation: an object, or [null]. A variable of the
    destructuring is an [option Settled], [None] for [undefined]. *)
Inductive Settled : Type :=
| Obj (o : Object)
| NullValue.

(** The argument of [storeTaskContext]. *)
Record TaskContext : Type := {
  ctx_sessionId : string;
  ctx_description : Value;
  ctx_complexity : option Settled;
  ctx_topology : option Settled;
  ctx_agentsSpawned : nat;
  ctx_githubContext : option Settled;
  ctx_memoryLoaded : bool;
  ctx_timestamp : string
}.

(** A command handed to [executeCommand]: the command line, except for
    the two lines that embed [JSON.stringify] of their argument, which are
    kept as that argument. *)
Inductive Command : Type :=
| Shell (line : string)
| StoreTaskContext (context : TaskContext)
| NeuralTrain (patterns : list string).

(** Answers of the world to what [execute] asks of it. [executeCommand]
    resolves to a result, or it rejects: [spawn] throws inside the promise
    when it refuses the command line (one that is too long, or holds a NUL
    character). *)
Record Env : Type := {
  mkdir_error : option string;   (* [fs.mkdir] failing with this message *)
  executeCommand : Command -> Completion CommandResult;
  now : string                   (* [new Date().toISOString()] *)
}.

(** The options of [execute], after the defaults of its destructuring;
    [autoSpawn] is the option [autoSpawnAgents]. *)
Record Options : Type := {
  description : Value;
  autoSpawn : bool;
  loadMemory : bool;
  optimizeTopology : bool;
  estimateComplexity : bool;
  useGithubIntegration : bool;
  parallelExecution : bool
}.

(** What [execute] returns: the summary with [continue: true], or
    [{ continue: false, error }]. In the summary [topology], [complexity]
    and [estimatedMinutes] are properties read from whatever object the
    destructuring put in their variable; [None] is [undefined]. *)
Inductive ExecuteResult : Type :=
| Continue (session : string) (topology : option string) (agentsSpawned : nat)
    (complexity : option string) (minutes : option nat)
    (memoryLoaded githubEnabled parallelMode swarmInitialized : bool)
| Failed (error : string).

Definition continues (r : ExecuteResult) : bool :=
  match r with Continue _ _ _ _ _ _ _ _ _ => true | Failed _ => false end.

(** Default of the destructuring [description = 'Unnamed task']: it
    replaces [undefined] only. *)
Definition defaultDescription (v : Value) : Value :=
  match v with Undefined => Str "Unnamed task" | _ => v end.

(** **** loadRelevantMemory *)

(** [description.split(' ').filter(word => word.length > 3).slice(0, 5)] *)
Definition searchPatterns (description : string) : list string :=
  take 5 (List.filter (fun word => (3 <? String.length word)%nat)
            (Text.split " " description)).

Definition searchCommand (pattern : string) : string :=
  "npx claude-flow@alpha memory search --pattern "
    +:+ String dquote (pattern +:+ String dquote " --limit 5").

(** The loop [for (const pattern of searchPatterns)]: one awaited command
    after the other. The result of a command has no [entries], so nothing
    is collected. *)
Fixpoint searchAll (env : Env) (patterns : list string) : Completion unit :=
  match patterns with
  | [] => Normal tt
  | pattern :: rest =>
      bind (executeCommand env (Shell (searchCommand pattern)))
           (fun _ => searchAll env rest)
  end.

(** [loadRelevantMemory(description)]: its body is one [try]. It returns
    [{ entries: [], totalFound: 0 }], given here by [totalFound]; when
    [description.split] throws (no string) or a search command is rejected,
    the [catch] returns [null], here [None]. *)
Definition loadRelevantMemory (env : Env) (description : Value) : option nat :=
  match description with
  | Str s =>
      match searchAll env (searchPatterns s) with
      | Normal _ => Some 0
      | Throw _ => None
      end
  | _ => None
  end.

(** **** initializeGithubContext *)

(** [/github\.com[:/](.+)\.git/] matches here. *)
Definition githubRemote_here (s : string) : bool :=
  match strip_prefix "github.com" s with
  | Some (String c (String d rest)) =>
      (bool_decide (c = ":"%char) || bool_decide (c = "/"%char))
      && negb (Text.is_line_terminator d)
      && Text.any_then (fun r => startsWith r ".git") rest
  | _ => false
  end.

(** [output.match(/github\.com[:/](.+)\.git/)] is truthy. *)
Fixpoint githubRemote_test (s : string) : bool :=
  githubRemote_here s ||
  match s with
  | EmptyString => false
  | String _ s' => githubRemote_test s'
  end.

(** [getCurrentBranch()] *)
Definition getCurrentBranch (env : Env) : Completion string :=
  bind (executeCommand env (Shell "git branch --show-current"))
       (fun result =>
          Normal (if success result then Text.trim (output result) else "main")).

(** [initializeGithubContext()]: the context, or [null] (here [None]),
    also when a command of the [try] block is rejected. *)
Definition initializeGithubContext (env : Env) : option GithubContext :=
  match
    bind (executeCommand env (Shell "git status --porcelain")) (fun gitStatus =>
    bind (executeCommand env (Shell "git remote get-url origin")) (fun gitRemote =>
    if success gitRemote && negb (bool_decide (output gitRemote = ""))
       && githubRemote_test (output gitRemote)
    then
      bind (getCurrentBranch env) (fun current =>
      Normal (Some {| remote := output gitRemote;
                      hasChanges := negb (bool_decide (output gitStatus = ""));
                      branch := current |}))
    else Normal None))
  with
  | Normal context => context
  | Throw _ => None
  end.

(** **** The operations and their slots *)

Definition asObject {A} (make : A -> Object) (c : Completion A) : Completion Settled :=
  bind c (fun a => Normal (Obj (make a))).

Definition orNull {A} (make : A -> Object) (x : option A) : Settled :=
  match x with Some a => Obj (make a) | None => NullValue end.

(** [operations], in the order of the four [push] calls. *)
Definition operations (env : Env) (opts : Options) (description : Value)
  : list (Completion Settled) :=
  (if estimateComplexity opts
   then [asObject OComplexity (estimateTaskComplexity description)] else [])
  ++ (if loadMemory opts
      then [Normal (orNull OMemory (loadRelevantMemory env description))] else [])
  ++ (if optimizeTopology opts
      then [asObject OTopology (selectOptimalTopology description)] else [])
  ++ (if useGithubIntegration opts
      then [Normal (orNull OGithub (initializeGithubContext env))] else []).

(** Truthiness of a variable of the destructuring. *)
Definition truthy (v : option Settled) : bool :=
  match v with Some (Obj _) => true | _ => false end.

(** [v.name], where [get] reads the property off an object. *)
Definition read {A} (v : option Settled) (name : string) (get : Object -> A)
  : Completion A :=
  match v with
  | Some (Obj o) => Normal (get o)
  | Some NullValue =>
      Throw ("Cannot read properties of null (reading '" +:+ name +:+ "')")
  | None =>
      Throw ("Cannot read properties of undefined (reading '" +:+ name +:+ "')")
  end.

(** The properties [execute] and its helpers read; [None] is [undefined]. *)
Definition prop_level (o : Object) : option string :=
  match o with OComplexity c => Some (level c) | _ => None end.

Definition prop_estimatedMinutes (o : Object) : option nat :=
  match o with OComplexity c => Some (estimatedMinutes c) | _ => None end.

Definition prop_patterns (o : Object) : option (list string) :=
  match o with OComplexity c => Some (patterns c) | _ => None end.

Definition prop_type (o : Object) : option string :=
  match o with OTopology t => Some (type t) | _ => None end.

Definition prop_config (o : Object) : option TopologyConfig :=
  match o with OTopology t => config t | _ => None end.

(** **** The steps after the operations *)

(** [await Promise.all(spawnPromises)]: every command is issued; the
    first rejected one rejects the whole. *)
Definition spawnAll (env : Env) (commands : list string) : Completion unit :=
  bind (settleAll (map (fun line => executeCommand env (Shell line)) commands))
       (fun _ => Normal tt).

(** [this.autoSpawnAgents(complexity, topology)] on the object in the
    variable [complexity]; a missing [level] is the key [undefined]. *)
Definition spawnAgents (env : Env) (complexity : Object) : Completion nat :=
  bind (autoSpawnAgents (default "undefined" (prop_level complexity)))
       (fun spawned => bind (spawnAll env (snd spawned))
                            (fun _ => Normal (fst spawned))).

Definition swarmInitCommand (topologyType maxAgents : string) : string :=
  "npx claude-flow@alpha swarm init --topology " +:+ topologyType
    +:+ " --max-agents " +:+ maxAgents +:+ " --strategy adaptive".

(** [initializeSwarmCoordination(topology, agentCount)]; the template
    reads [topology.type], and [topology.config.maxAgents] when
    [agentCount] is 0. *)
Definition initializeSwarmCoordination (env : Env) (topology : option Settled)
    (agentCount : nat) : Completion CommandResult :=
  bind (read topology "type" prop_type) (fun topologyType =>
  bind (if (0 <? agentCount)%nat then Normal agentCount
        else bind (read topology "config" prop_config) (fun cfg =>
             match cfg with
             | Some c => Normal (maxAgents c)
             | None =>
                 Throw "Cannot read properties of undefined (reading 'maxAgents')"
             end)) (fun count =>
  executeCommand env
    (Shell (swarmInitCommand (default "undefined" topologyType) (pretty count))))).

(** The [try] block of [execute]. *)
Definition executeBody (env : Env) (this : Hook) (opts : Options)
    : Completion ExecuteResult :=
  let description := defaultDescription (description opts) in
  match mkdir_error env with
  | Some m => Throw m
  | None =>
      bind (settleAll (operations env opts description)) (fun settled =>
      (* the positional destructuring *)
      let complexity := settled !! 0%nat in
      let memory := settled !! 1%nat in
      let topology := settled !! 2%nat in
      let githubContext := settled !! 3%nat in
      bind (match complexity with
            | Some (Obj o) => if autoSpawn opts then spawnAgents env o else Normal 0
            | _ => Normal 0
            end) (fun agentsSpawned =>
      bind (initializeSwarmCoordination env topology agentsSpawned) (fun swarmInit =>
      bind (executeCommand env
              (StoreTaskContext
                 {| ctx_sessionId := sessionId this;
                    ctx_description := description;
                    ctx_complexity := complexity;
                    ctx_topology := topology;
                    ctx_agentsSpawned := agentsSpawned;
                    ctx_githubContext := githubContext;
                    ctx_memoryLoaded := truthy memory;
                    ctx_timestamp := now env |})) (fun _ =>
      bind (match complexity with
            | Some (Obj o) =>
                match prop_patterns o with
                | Some ps => bind (executeCommand env (NeuralTrain ps))
                                  (fun _ => Normal tt)
                | None => Normal tt
                end
            | _ => Normal tt
            end) (fun _ =>
      bind (read topology "type" prop_type) (fun topologyType =>
      bind (read complexity "level" prop_level) (fun complexityLevel =>
      bind (read complexity "estimatedMinutes" prop_estimatedMinutes) (fun minutes =>
      Normal (Continue (sessionId this) topologyType agentsSpawned
                complexityLevel minutes
                (truthy memory) (truthy githubContext)
                (parallelExecution opts) (success swarmInit))))))))))
  end.

(** [execute(options)]: the [catch] turns every exception of the body
    into [{ continue: false, error: error.message }]. *)
Definition execute (env : Env) (this : Hook) (opts : Options) : ExecuteResult :=
  match executeBody env this opts with
  | Normal r => r
  | Throw m => Failed m
  end.

End PreTask.

(* ===================================================================== *)
(** ** PreCommandHook (pre-command.js)                                   *)
(* ===================================================================== *)

Module PreCommand.
Import JS.

(** [this.dangerousCommands] *)
Definition dangerousCommands : list string :=
  [ "rm -rf"; "dd if="; "mkfs"; "format"; ":(){ :|:& };:"; "chmod -R 777";
    "chown -R"; "> /dev/sda"; "mv /* "; "wget -O - | sh"; "curl | bash" ].

(** The object built by [validateCommandSafety]. *)
Record Safety : Type := {
  safe : bool;
  warnings : list string;
  riskLevel : string
}.

(** [/rm\s|del\s|rmdir|mv\s|cp\s/] *)
Definition fileSystemRegex : Regex :=
  Alt (Seq (Lit "rm") Space)
    (Alt (Seq (Lit "del") Space)
      (Alt (Lit "rmdir")
        (Alt (Seq (Lit "mv") Space) (Seq (Lit "cp") Space)))).

(** [/wget|curl|nc|telnet|ssh|scp/] *)
Definition networkRegex : Regex :=
  alternatives ["wget"; "curl"; "nc"; "telnet"; "ssh"; "scp"].

(** [/\|\s*(bash|sh|python|node|ruby)/] *)
Definition scriptRegex : Regex :=
  Seq (Lit "|") (Seq SpaceStar (alternatives ["bash"; "sh"; "python"; "node"; "ruby"])).

(** The text one match is replaced by in [s.replace(/x/g, template)],
for a pattern without groups: in the template [$$] is [$], [$&] the match,
[$`] the text before the match and [$'] the text after it; every other
[$] stands for itself. *)
Fixpoint substitution (template matched before after : string) : string :=
  match template with
  | EmptyString => EmptyString
  | String c rest =>
      if bool_decide (c = "$"%char) then
        match rest with
        | String d rest' =>
            if bool_decide (d = "$"%char)
            then String "$"%char (substitution rest' matched before after)
            else if bool_decide (d = "&"%char)
            then matched +:+ substitution rest' matched before after
            else if bool_decide (d = "`"%char)
            then before +:+ substitution rest' matched before after
            else if bool_decide (d = "'"%char)
            then after +:+ substitution rest' matched before after
            else String c (substitution rest matched before after)
        | EmptyString => String c EmptyString
        end
      else String c (substitution rest matched before after)
  end.

(** [s.replace(/x/g, template)] for a one-character pattern; [before] is
the part of the text already passed. *)
Fixpoint replaceMatches (x : ascii) (template before s : string) : string :=
  match s with
  | EmptyString => EmptyString
  | String c s' =>
      if bool_decide (c = x)
      then substitution template (String x EmptyString) before s'
             +:+ replaceMatches x template (before +:+ String x EmptyString) s'
      else String c (replaceMatches x template (before +:+ String c EmptyString) s')
  end.

(** [expandPaths]: [~] is replaced with [process.env.HOME || process.env.USERPROFILE]
as replacement text; when neither is set that is the text of [undefined]. *)
Definition expandPaths (home : option string) (command : string) : string :=
  if includes command "~"
  then replaceMatches "~"%char (default "undefined" home) EmptyString command
  else command.

(** One iteration of the loop over [this.dangerousCommands]. *)
Definition checkDangerous (command : string) (r : Safety) (dangerous : string) : Safety :=
  if includes command dangerous then
    {| safe := false;
       warnings := warnings r ++ ["Dangerous command pattern detected: " +:+ dangerous];
       riskLevel := "critical" |}
  else r.

(** [result.warnings.push(w); result.riskLevel = l] *)
Definition warn (w l : string) (r : Safety) : Safety :=
  {| safe := safe r; warnings := warnings r ++ [w]; riskLevel := l |}.

(** [result.warnings.push(w); if (!result.riskLevel || result.riskLevel === 'low') result.riskLevel = 'medium'] *)
Definition warnMedium (w : string) (r : Safety) : Safety :=
  warn w
    (if bool_decide (riskLevel r = "") || bool_decide (riskLevel r = "low")
     then "medium" else riskLevel r) r.

Definition when (b : bool) (f : Safety -> Safety) (r : Safety) : Safety :=
  if b then f r else r.

(** [validateCommandSafety(command)] *)
Definition validateCommandSafety (home : option string) (command : string) : Safety :=
  let r0 := {| safe := true; warnings := []; riskLevel := "low" |} in
  let r1 := fold_left (checkDangerous command) dangerousCommands r0 in
  let r2 := when (startsWith command "sudo" || includes command "| sudo")
                 (warn "Command requires elevated privileges" "high") r1 in
  let r3 := when (regex_test fileSystemRegex command)
                 (warnMedium "Command performs file system operations") r2 in
  let r4 := when (regex_test networkRegex command)
                 (warnMedium "Command performs network operations") r3 in
  let r5 := when (regex_test scriptRegex command)
                 (warn "Command pipes to script interpreter" "high") r4 in
  let expandedCommand := expandPaths home command in
  when ((includes command ".." || includes command "~") &&
        (includes expandedCommand "/etc/" || includes expandedCommand "/sys/"
         || includes expandedCommand "/proc/"))
       (warn "Command accesses system directories" "high") r5.

(** The object built by [checkCommandDependencies], as far as [execute]
reads it. *)
Record Dependencies : Type := {
  available : bool;
  missing : list string;
  requirements : list string
}.

(** What [execute] does besides computing its result. *)
Inductive Event : Type :=
| PrepareResources
| SuggestOptimizations
| LogIntent
| DisplaySummary.

Section Execute.

(** The operations [execute] delegates to, and what they produce. The
    dependency check, the resource preparation and the intent log run
    commands and can be rejected; the safety validation, the performance
    prediction and the optimization suggestions only inspect the command
    text. *)
Variables Performance Resources Optimization : Type.
Variable checkCommandDependencies : string -> Completion Dependencies.
Variable predictCommandPerformance : string -> Performance.
Variable prepareCommandResources : string -> list string -> Completion Resources.
Variable suggestCommandOptimizations : string -> option Performance -> list Optimization.
Variable home : option string.

Record Options : Type := {
  command : string;               (* the empty string stands for a missing command *)
  validateSafety : bool;
  prepareResources : bool;
  checkDependencies : bool;
  suggestOptimizations : bool;
  predictPerformance : bool
}.

(** The [results] object, with the [error] the [catch] adds. *)
Record Results : Type := {
  res_command : string;
  continue : bool;
  res_safe : bool;
  optimizations : list Optimization;
  res_warnings : list string;
  resources : option Resources;
  performance : option Performance;
  error : option string
}.

(** [logCommandIntent(command, results)] *)
Variable logCommandIntent : string -> Results -> Completion unit.

(** A settled element of [operations]. *)
Inductive Operation : Type :=
| OpSafety (s : Safety)
| OpDependencies (d : Dependencies)
| OpPerformance (p : Performance).

(** [operations], in the order of the three [push] calls. *)
Definition operations (o : Options) : list (Completion Operation) :=
  (if validateSafety o
   then [Normal (OpSafety (validateCommandSafety home (command o)))] else [])
  ++ (if checkDependencies o
      then [bind (checkCommandDependencies (command o))
                 (fun d => Normal (OpDependencies d))] else [])
  ++ (if predictPerformance o
      then [Normal (OpPerformance (predictCommandPerformance (command o)))] else []).

(** [x.safe], [x.warnings], [x.requirements] on whatever object sits in a
slot of the destructuring; [None] is [undefined]. *)
Definition field_safe (x : Operation) : option bool :=
  match x with OpSafety s => Some (safe s) | _ => None end.

Definition field_warnings (x : Operation) : option (list string) :=
  match x with OpSafety s => Some (warnings s) | _ => None end.

Definition field_requirements (x : Operation) : option (list string) :=
  match x with OpDependencies d => Some (requirements d) | _ => None end.

(** The third slot holds a performance prediction whenever it is filled. *)
Definition as_performance (x : option Operation) : option Performance :=
  match x with Some (OpPerformance p) => Some p | _ => None end.

Definition initialResults (c : string) : Results :=
  {| res_command := c; continue := true; res_safe := true; optimizations := [];
     res_warnings := []; resources := None; performance := None; error := None |}.

(** [{ ...results, continue: false, error: error.message }] *)
Definition caught (r : Results) (message : string) : Results :=
  {| res_command := res_command r; continue := false; res_safe := res_safe r;
     optimizations := optimizations r; res_warnings := res_warnings r;
     resources := resources r; performance := performance r;
     error := Some message |}.

Definition blocked (r : Results) (ws : list string) : Results :=
  {| res_command := res_command r; continue := false; res_safe := false;
     optimizations := optimizations r; res_warnings := res_warnings r ++ ws;
     resources := resources r; performance := performance r; error := error r |}.

(** What [execute] returns: [{ continue: false, error: 'Command is required' }]
for a missing command, the [results] object otherwise. *)
Inductive Outcome : Type :=
| CommandRequired
| Checked (r : Results).

(** The message of the [TypeError] that [results.warnings.push(...safety.warnings)]
raises when [safety.warnings] is [undefined]. *)
Definition spread_error : string :=
  "safety.warnings is not iterable (cannot read property undefined)".

(** [execute(options)], with the operations it calls after validation. *)
Definition execute (o : Options) : Outcome * list Event :=
  if bool_decide (command o = "") then (CommandRequired, [])
  else
    let results := initialResults (command o) in
    match settleAll (operations o) with
    | Throw m => (Checked (caught results m), [])
    | Normal ops =>
    let safety := ops !! 0 in
    let dependencies := ops !! 1 in
    let performance_ := ops !! 2 in
    let unsafe :=
      match safety with
      | Some x => negb (default false (field_safe x))
      | None => false
      end in
    if unsafe then
      match safety ≫= field_warnings with
      | Some ws => (Checked (blocked results ws), [])
      | None =>
          (* spreading [undefined] throws after the two flags are cleared *)
          (Checked (caught (blocked results []) spread_error), [])
      end
    else
      let results1 :=
        {| res_command := res_command results; continue := true; res_safe := true;
           optimizations := [];
           res_warnings := default [] (safety ≫= field_warnings);
           resources := None; performance := as_performance performance_;
           error := None |} in
      let prepared :=
        match dependencies ≫= field_requirements with
        | Some reqs =>
            if prepareResources o
            then Some (prepareCommandResources (command o) reqs)
            else None
        | None => None
        end in
      match prepared with
      | Some (Throw m) => (Checked (caught results1 m), [PrepareResources])
      | _ =>
          let results2 :=
            {| res_command := res_command results1; continue := true; res_safe := true;
               optimizations := [];
               res_warnings := res_warnings results1;
               resources :=
                 match prepared with Some (Normal p) => Some p | _ => None end;
               performance := performance results1; error := None |} in
          let results3 :=
            {| res_command := res_command results2; continue := true; res_safe := true;
               optimizations :=
                 if suggestOptimizations o
                 then suggestCommandOptimizations (command o) (performance results2)
                 else [];
               res_warnings := res_warnings results2;
               resources := resources results2;
               performance := performance results2; error := None |} in
          let before :=
            (if bool_decide (is_Some prepared) then [PrepareResources] else [])
            ++ (if suggestOptimizations o then [SuggestOptimizations] else []) in
          match logCommandIntent (command o) results3 with
          | Normal _ => (Checked results3, before ++ [LogIntent; DisplaySummary])
          | Throw m => (Checked (caught results3 m), before ++ [LogIntent])
          end
      end
    end.

End Execute.

End PreCommand.

(* ===================================================================== *)
(** ** HookManager (index.js)                                            *)
(* ===================================================================== *)

Module HookManager.
Import JS.

Section Manager.

(** The options object handed to a hook, and the object a hook returns. *)
Variables Options Result : Type.

(** A hook class: [new HookClass()] followed by [hook.execute(options)].
The call resolves to an object ([Some]) or to [undefined] ([None]), or it
throws. *)
Definition HookClass : Type := Options -> Completion (option Result).

(** [this.hooks]: an object literal; [registerHook] adds own properties. *)
Definition Hooks : Type := list (string * HookClass).

(** What [executeHook] resolves to: the hook's own result, or
[{ success: false, error }]. *)
Inductive Outcome : Type :=
| Passed (r : Result)
| Failure (error : string).

(** Commands sent to the memory store on the way. *)
Inductive Event : Type :=
| TrackPerformance (hook : string)
| LogError (hook : string) (message : string).

(** The exception raised inside the [try] when the looked-up value comes
from [Object.prototype]: [constructor] is [Object], whose instances have
no [execute]; the other inherited values are not constructors. *)
Definition inherited_error (name : string) : string :=
  if bool_decide (name = "constructor") then "hook.execute is not a function"
  else "HookClass is not a constructor".

(** The table the constructor builds; [pre-bash] is an alias. *)
Definition initialHooks
    (PreTaskHook PostTaskHook PreCommandHook PostEditHook SessionEndHook : HookClass)
    : Hooks :=
  [ ("pre-task", PreTaskHook);
    ("post-task", PostTaskHook);
    ("pre-command", PreCommandHook);
    ("pre-bash", PreCommandHook);
    ("post-edit", PostEditHook);
    ("session-end", SessionEndHook) ].

(** [executeHook(hookName, options)] *)
Definition executeHook (hooks : Hooks) (hookName : string) (options : Options)
    : Outcome * list Event :=
  match js_get hooks hookName with
  | Missing => (Failure ("Unknown hook: " +:+ hookName), [])
  | Own cls =>
      match cls options with
      | Normal (Some result) => (Passed result, [TrackPerformance hookName])
      | Normal None =>
          let m := "Cannot read properties of undefined (reading 'success')" in
          (Failure m, [LogError hookName m])
      | Throw m => (Failure m, [LogError hookName m])
      end
  | Inherited =>
      let m := inherited_error hookName in
      (Failure m, [LogError hookName m])
  end.

End Manager.

Arguments Passed {Result} r.
Arguments Failure {Result} error.
Arguments executeHook {Options Result} hooks hookName options.
Arguments initialHooks {Options Result}.

End HookManager.

(* ===================================================================== *)
(** ** Required tools (compiled module mcp_tool_mappings_enhanced)        *)
(* ===================================================================== *)

(** The repository carries this module in compiled form only (CPython
    bytecode, stored after the text of [MIGRATION_GUIDE.md]). The function
    below follows the code object of [get_enhanced_required_tools]
    instruction by instruction; the tool ids, pattern names and the
    attribute test are the entries of its constant and name tables. *)

Module ToolMappings.

(** An entry of the pattern table: [{'required': [...], 'recommended': [...]}]. *)
Record PatternTools : Type := {
  required : list string;
  recommended : list string
}.

(** An element of [patterns]: an object with a [name] attribute, or the
name itself. *)
Inductive Pattern : Type :=
| Named (name : string)
| Plain (name : string).

(** [pattern.name if hasattr(pattern, 'name') else pattern] *)
Definition pattern_name (p : Pattern) : string :=
  match p with Named n => n | Plain n => n end.

(** The tool added before any lookup. *)
Definition alwaysOnTools : list string := ["mcp__exa__web_search_exa"].

(** [code_patterns] *)
Definition code_patterns : list string :=
  [ "api_development"; "frontend_development"; "backend_development";
    "debugging"; "refactoring"; "testing_automation" ].

(** The two tools added when a code pattern is present. *)
Definition codeTools : list string :=
  [ "mcp__context7__resolve-library-id"; "mcp__context7__get-library-docs" ].

Section Resolver.

(** The module's three tables. The module builds them from the tables of
[mcp_tool_mappings], which the repository does not carry; the resolver is
stated for arbitrary tables. An entry of the complexity and of the role
table is the tool list itself. *)
Variable ENHANCED_PATTERN_TOOLS : gmap string PatternTools.
Variable ENHANCED_COMPLEXITY_TOOLS : gmap Z (list string).
Variable ENHANCED_AGENT_TOOLS : gmap string (list string).

(** [tools.update(l)] *)
Definition update (tools : gset string) (l : list string) : gset string :=
  tools ∪ list_to_set l.

(** Body of [for pattern in patterns]. *)
Definition addPattern (tools : gset string) (p : Pattern) : gset string :=
  match ENHANCED_PATTERN_TOOLS !! pattern_name p with
  | Some entry => update tools (required entry)
  | None => tools
  end.

(** [if complexity in ENHANCED_COMPLEXITY_TOOLS: tools.update(...)] *)
Definition addComplexity (tools : gset string) (complexity : Z) : gset string :=
  match ENHANCED_COMPLEXITY_TOOLS !! complexity with
  | Some l => update tools l
  | None => tools
  end.

(** Body of [for role in agent_roles]. *)
Definition addRole (tools : gset string) (role : string) : gset string :=
  match ENHANCED_AGENT_TOOLS !! role with
  | Some l => update tools l
  | None => tools
  end.

(** [any((p.name if hasattr(p, 'name') else p) in code_patterns for p in patterns)] *)
Definition hasCodePattern (patterns : list Pattern) : bool :=
  existsb (fun p => bool_decide (pattern_name p ∈ code_patterns)) patterns.

(** The set [tools] when the function reaches its [return]. *)
Definition requiredSet (patterns : list Pattern) (complexity : Z)
    (agent_roles : list string) : gset string :=
  let t0 := update ∅ alwaysOnTools in
  let t1 := fold_left addPattern patterns t0 in
  let t2 := addComplexity t1 complexity in
  let t3 := fold_left addRole agent_roles t2 in
  if hasCodePattern patterns then update t3 codeTools else t3.

(** [get_enhanced_required_tools(patterns, complexity, agent_roles)]:
[sorted(list(tools))]. *)
Definition get_enhanced_required_tools (patterns : list Pattern)
    (complexity : Z) (agent_roles : list string) : list string :=
  merge_sort String.le (elements (requiredSet patterns complexity agent_roles)).

End Resolver.

End ToolMappings.

(* ===================================================================== *)
(** ** PreCommandHook: prediction, dependencies, optimizations           *)
(* ===================================================================== *)

Module CommandAnalysis.
Import JS Text.

(** The warnings [validateCommandSafety] adds after the dangerous-command
    loop. *)
Definition laterWarnings : list string :=
  [ "Command requires elevated privileges";
    "Command performs file system operations";
    "Command performs network operations";
    "Command pipes to script interpreter";
    "Command accesses system directories" ].

(** *** predictCommandPerformance *)

(** [this.resourceIntensive] *)
Definition resourceIntensive : list string :=
  [ "find /"; "grep -r /"; "npm install"; "yarn install"; "docker build";
    "make -j"; "cargo build"; "go build" ].

(** The [prediction] object. *)
Record Prediction : Type := {
  estimatedDuration : string;
  cpuIntensive : bool;
  memoryIntensive : bool;
  diskIntensive : bool;
  networkIntensive : bool;
  recommendations : list string
}.

(** One iteration of the loop over [this.resourceIntensive]. *)
Definition checkIntensive (command : string) (p : Prediction) (intensive : string)
  : Prediction :=
  if includes command intensive then
    let scan := includes intensive "find" || includes intensive "grep" in
    let fetch := includes intensive "install" || includes intensive "build" in
    {| estimatedDuration := "slow";
       cpuIntensive := cpuIntensive p || scan;
       memoryIntensive := memoryIntensive p;
       diskIntensive := diskIntensive p || scan || fetch;
       networkIntensive := networkIntensive p || fetch;
       recommendations := recommendations p |}
  else p.

(** [/find .* -name/] *)
Fixpoint findNameRegex_test (s : string) : bool :=
  match strip_prefix "find " s with
  | Some rest => any_then (fun r => startsWith r " -name") rest
  | None => false
  end ||
  match s with
  | EmptyString => false
  | String _ s' => findNameRegex_test s'
  end.

(** [[cpu, memory, disk, network].filter(Boolean).length] *)
Definition intensiveCount (p : Prediction) : nat :=
  length (List.filter (fun b : bool => b)
            [cpuIntensive p; memoryIntensive p; diskIntensive p; networkIntensive p]).

(** [if (b) { ...assignments f... }] on the prediction. *)
Definition whenP (b : bool) (f : Prediction -> Prediction) (p : Prediction) : Prediction :=
  if b then f p else p.

(** Body of [if (command.includes('npm install') || command.includes('yarn install'))]. *)
Definition markInstall (p : Prediction) : Prediction :=
  {| estimatedDuration := "slow"; cpuIntensive := cpuIntensive p;
     memoryIntensive := memoryIntensive p; diskIntensive := diskIntensive p;
     networkIntensive := true;
     recommendations := recommendations p
       ++ [ "Consider using npm ci for faster installs";
            "Enable npm cache for improved performance" ] |}.

(** Body of [if (command.includes('docker build'))]. *)
Definition markDockerBuild (p : Prediction) : Prediction :=
  {| estimatedDuration := "slow"; cpuIntensive := true;
     memoryIntensive := memoryIntensive p; diskIntensive := true;
     networkIntensive := networkIntensive p;
     recommendations := recommendations p
       ++ [ "Use docker build cache effectively";
            "Consider multi-stage builds for smaller images" ] |}.

(** Body of [if (command.match(/find .* -name/))]. *)
Definition markFindName (p : Prediction) : Prediction :=
  {| estimatedDuration := estimatedDuration p; cpuIntensive := cpuIntensive p;
     memoryIntensive := memoryIntensive p; diskIntensive := true;
     networkIntensive := networkIntensive p;
     recommendations := recommendations p
       ++ [ "Consider using fd or locate for faster file searches";
            "Limit search scope to specific directories" ] |}.

(** Body of [if (command.includes('grep -r'))]. *)
Definition markGrep (p : Prediction) : Prediction :=
  {| estimatedDuration := estimatedDuration p; cpuIntensive := true;
     memoryIntensive := memoryIntensive p; diskIntensive := true;
     networkIntensive := networkIntensive p;
     recommendations := recommendations p
       ++ [ "Use ripgrep (rg) for faster recursive searches";
            "Consider using --include patterns to limit file types" ] |}.

(** The final estimate of the duration from the number of flags. *)
Definition estimateDuration (p : Prediction) : Prediction :=
  let n := intensiveCount p in
  {| estimatedDuration :=
       if (3 <=? n)%nat then "very slow"
       else if (2 <=? n)%nat then "slow"
       else if (1 <=? n)%nat then "moderate"
       else estimatedDuration p;
     cpuIntensive := cpuIntensive p; memoryIntensive := memoryIntensive p;
     diskIntensive := diskIntensive p; networkIntensive := networkIntensive p;
     recommendations := recommendations p |}.

(** [predictCommandPerformance(command)] *)
Definition predictCommandPerformance (command : string) : Prediction :=
  let p0 := {| estimatedDuration := "fast"; cpuIntensive := false;
               memoryIntensive := false; diskIntensive := false;
               networkIntensive := false; recommendations := [] |} in
  let p1 := fold_left (checkIntensive command) resourceIntensive p0 in
  let p2 := whenP (includes command "npm install" || includes command "yarn install")
                  markInstall p1 in
  let p3 := whenP (includes command "docker build") markDockerBuild p2 in
  let p4 := whenP (findNameRegex_test command) markFindName p3 in
  let p5 := whenP (includes command "grep -r") markGrep p4 in
  estimateDuration p5.

(** *** checkCommandDependencies *)

(** Answers of the shell and the file system. *)
Record Shell : Type := {
  which_found : string -> bool;   (* [which cmd] exits with 0 and prints a path *)
  file_exists : string -> bool;   (* [fs.access(path)] succeeds *)
  docker_info_ok : bool           (* [docker info] exits with 0 *)
}.

(** [t.replace(/^sudo\s+/, '')] *)
Definition stripSudo (t : string) : string :=
  match strip_prefix "sudo" t with
  | Some rest => if bool_decide (trimStart rest = rest) then t else trimStart rest
  | None => t
  end.

(** [command.split(/\s+/)[0].replace(/^sudo\s+/, '')] *)
Definition primaryCommand (command : string) : string :=
  stripSudo (takeToken command).

(** [checkCommandDependencies(command)] *)
Definition checkCommandDependencies (sh : Shell) (command : string)
  : PreCommand.Dependencies :=
  let found := which_found sh (primaryCommand command) in
  let npm := includes command "npm " in
  let python := includes command "pip " || includes command "python " in
  let docker := includes command "docker " in
  let git := includes command "git " in
  {| PreCommand.available := found;
     PreCommand.missing :=
       (if found then [] else [primaryCommand command])
       ++ (if docker && negb (docker_info_ok sh) then ["docker-daemon"] else [])
       ++ (if git && negb (file_exists sh ".git") then ["git-repository"] else []);
     PreCommand.requirements :=
       (if npm then ["node"; "npm"]
                    ++ (if file_exists sh "package.json" then ["package.json"] else [])
        else [])
       ++ (if python then ["python"]
                          ++ (if file_exists sh "requirements.txt"
                              then ["requirements.txt"] else [])
           else [])
       ++ (if docker then ["docker"] else [])
       ++ (if git then ["git"] else []) |}.

(** *** suggestCommandOptimizations *)

(** [/>\s*([^\s]+)/]: the text captured at the first [>] that is followed,
    after white space, by something. *)
Fixpoint outputTarget (s : string) : option string :=
  match s with
  | EmptyString => None
  | String c s' =>
      if bool_decide (c = ">"%char) then
        match takeToken (trimStart s') with
        | EmptyString => outputTarget s'
        | t => Some t
        end
      else outputTarget s'
  end.

(** The loop of [identifyParallelizable]; [dependencies] holds the output
    targets seen so far. *)
Fixpoint identifyFrom (dependencies : list string) (commands : list string)
  : list string :=
  match commands with
  | [] => []
  | cmd :: rest =>
      let isIndependent :=
        negb (includes cmd ">") || negb (existsb (includes cmd) dependencies) in
      let dependencies' :=
        match outputTarget cmd with
        | Some t => dependencies ++ [t]
        | None => dependencies
        end in
      (if isIndependent then [cmd] else []) ++ identifyFrom dependencies' rest
  end.

(** [identifyParallelizable(commands)] *)
Definition identifyParallelizable (commands : list string) : list string :=
  identifyFrom [] commands.

(** [alternatives], in the order [Object.entries] walks it. *)
Definition alternatives : list (string * string) :=
  [ ("rm -rf", "Consider using trash-cli for safer deletions");
    ("find .", "Use fd for faster file finding");
    ("grep -r", "Use ripgrep (rg) for faster searching");
    ("cat * | grep", "Use grep directly on files");
    ("ps aux | grep", "Use pgrep or pidof");
    ("npm install", "Use npm ci for reproducible installs");
    ("yarn install", "Use yarn install --frozen-lockfile") ].

(** An element of [optimizations]. *)
Inductive Optimization : Type :=
| Parallel (commands : list string)          (* type 'parallel' *)
| Alternative (pattern suggestion : string)  (* type 'alternative' *)
| Resource (suggestion impact : string)      (* type 'resource' *)
| Hint (suggestion : string).                (* type 'performance' *)

(** [suggestCommandOptimizations(command, performance)] *)
Definition suggestCommandOptimizations (command : string)
    (performance : option Prediction) : list Optimization :=
  let parallel :=
    if includes command "&&" then
      let parallelizable := identifyParallelizable (map trim (split "&&" command)) in
      if (1 <? length parallelizable)%nat then [Parallel parallelizable] else []
    else [] in
  let alternative :=
    map (fun e => Alternative (fst e) (snd e))
      (List.filter (fun e => includes command (fst e)) alternatives) in
  let resource :=
    match performance with
    | Some p =>
        (if cpuIntensive p
         then [Resource "Consider limiting CPU usage with nice or cpulimit"
                        "Prevents system slowdown during execution"]
         else [])
        ++ (if memoryIntensive p
            then [Resource "Monitor memory usage and consider using ulimit"
                           "Prevents out-of-memory errors"]
            else [])
        ++ map Hint (recommendations p)
    | None => []
    end in
  parallel ++ alternative ++ resource.

End CommandAnalysis.


(* ===================================================================== *)
(** ** Command lines of the hooks                                        *)
(* ===================================================================== *)

Module CommandLine.
Import JS.

(** *** pre-command.js *)

(** The [options] object the argument loop fills; [None] is a property
    that is absent or [undefined]. *)
Record CommandArgs : Type := {
  arg_command : option string;
  arg_validateSafety : option bool;
  arg_prepareResources : option bool;
  arg_checkDependencies : option bool;
  arg_suggestOptimizations : option bool;
  arg_predictPerformance : option bool
}.

Definition noCommandArgs : CommandArgs :=
  {| arg_command := None; arg_validateSafety := None; arg_prepareResources := None;
     arg_checkDependencies := None; arg_suggestOptimizations := None;
     arg_predictPerformance := None |}.

(** [v !== 'false'] *)
Definition notFalse (v : string) : bool := negb (bool_decide (v = "false")).

(** One [case] of the [switch]: the option an argument names. *)
Inductive CommandFlag : Type :=
| FCommand | FValidateSafety | FPrepareResources | FCheckDependencies
| FSuggestOptimizations | FPredictPerformance.

Definition commandFlag (a : string) : option CommandFlag :=
  if bool_decide (a = "--command") || bool_decide (a = "-c") then Some FCommand
  else if bool_decide (a = "--validate-safety") then Some FValidateSafety
  else if bool_decide (a = "--prepare-resources") then Some FPrepareResources
  else if bool_decide (a = "--check-dependencies") then Some FCheckDependencies
  else if bool_decide (a = "--suggest-optimizations") then Some FSuggestOptimizations
  else if bool_decide (a = "--predict-performance") then Some FPredictPerformance
  else None.

(** The assignment of a [case]; [v] is [args[++i]], [None] when the
    arguments are exhausted. *)
Definition assignCommandFlag (f : CommandFlag) (v : option string) (o : CommandArgs)
  : CommandArgs :=
  let b := Some (from_option notFalse true v) in
  match f with
  | FCommand =>
      {| arg_command := v; arg_validateSafety := arg_validateSafety o;
         arg_prepareResources := arg_prepareResources o;
         arg_checkDependencies := arg_checkDependencies o;
         arg_suggestOptimizations := arg_suggestOptimizations o;
         arg_predictPerformance := arg_predictPerformance o |}
  | FValidateSafety =>
      {| arg_command := arg_command o; arg_validateSafety := b;
         arg_prepareResources := arg_prepareResources o;
         arg_checkDependencies := arg_checkDependencies o;
         arg_suggestOptimizations := arg_suggestOptimizations o;
         arg_predictPerformance := arg_predictPerformance o |}
  | FPrepareResources =>
      {| arg_command := arg_command o; arg_validateSafety := arg_validateSafety o;
         arg_prepareResources := b;
         arg_checkDependencies := arg_checkDependencies o;
         arg_suggestOptimizations := arg_suggestOptimizations o;
         arg_predictPerformance := arg_predictPerformance o |}
  | FCheckDependencies =>
      {| arg_command := arg_command o; arg_validateSafety := arg_validateSafety o;
         arg_prepareResources := arg_prepareResources o;
         arg_checkDependencies := b;
         arg_suggestOptimizations := arg_suggestOptimizations o;
         arg_predictPerformance := arg_predictPerformance o |}
  | FSuggestOptimizations =>
      {| arg_command := arg_command o; arg_validateSafety := arg_validateSafety o;
         arg_prepareResources := arg_prepareResources o;
         arg_checkDependencies := arg_checkDependencies o;
         arg_suggestOptimizations := b;
         arg_predictPerformance := arg_predictPerformance o |}
  | FPredictPerformance =>
      {| arg_command := arg_command o; arg_validateSafety := arg_validateSafety o;
         arg_prepareResources := arg_prepareResources o;
         arg_checkDependencies := arg_checkDependencies o;
         arg_suggestOptimizations := arg_suggestOptimizations o;
         arg_predictPerformance := b |}
  end.

(** The loop [for (let i = 0; i < args.length; i++) switch (args[i])]:
    a recognised option consumes the next argument as its value. *)
Fixpoint parseCommandArgs (o : CommandArgs) (args : list string) : CommandArgs :=
  match args with
  | [] => o
  | a :: rest =>
      match commandFlag a with
      | Some f =>
          match rest with
          | v :: rest' => parseCommandArgs (assignCommandFlag f (Some v) o) rest'
          | [] => assignCommandFlag f None o
          end
      | None => parseCommandArgs o rest
      end
  end.

(** The destructuring of [execute] with its defaults; a missing command
    is the empty string of [PreCommand.Options]. *)
Definition commandOptions (o : CommandArgs) : PreCommand.Options :=
  {| PreCommand.command := default "" (arg_command o);
     PreCommand.validateSafety := default true (arg_validateSafety o);
     PreCommand.prepareResources := default true (arg_prepareResources o);
     PreCommand.checkDependencies := default true (arg_checkDependencies o);
     PreCommand.suggestOptimizations := default true (arg_suggestOptimizations o);
     PreCommand.predictPerformance := default true (arg_predictPerformance o) |}.

Definition boolText (b : bool) : string := if b then "true" else "false".

(** A command line that spells out every option. *)
Definition commandLine (o : PreCommand.Options) : list string :=
  [ "--command"; PreCommand.command o;
    "--validate-safety"; boolText (PreCommand.validateSafety o);
    "--prepare-resources"; boolText (PreCommand.prepareResources o);
    "--check-dependencies"; boolText (PreCommand.checkDependencies o);
    "--suggest-optimizations"; boolText (PreCommand.suggestOptimizations o);
    "--predict-performance"; boolText (PreCommand.predictPerformance o) ].

(** [process.exit(result.continue ? 0 : 1)] *)
Definition exitCode {Performance Resources Optimization : Type}
    (out : PreCommand.Outcome Performance Resources Optimization) : nat :=
  match out with
  | PreCommand.CommandRequired _ _ _ => 1
  | PreCommand.Checked _ _ _ r => if PreCommand.continue _ _ _ r then 0 else 1
  end.

(** The guard of the command-line block,
    [import.meta.url === `file://${process.argv[1]}`]; [argv1] is the text
    the template gives for [process.argv[1]]. *)
Definition isMain (importMetaUrl argv1 : string) : bool :=
  bool_decide (importMetaUrl = "file://" +:+ argv1).

Section CommandLineBlock.

Variables Performance Resources Optimization : Type.
Variable checkCommandDependencies : string -> Completion PreCommand.Dependencies.
Variable predictCommandPerformance : string -> Performance.
Variable prepareCommandResources : string -> list string -> Completion Resources.
Variable suggestCommandOptimizations : string -> option Performance -> list Optimization.
Variable home : option string.
Variable logCommandIntent :
  string -> PreCommand.Results Performance Resources Optimization -> Completion unit.

(** The command-line block of the pre-command hook: the status it hands
    to [process.exit], or [None] when the guard keeps it from running, in
    which case it parses nothing, runs no hook and sets no status. *)
Definition commandLineBlock (importMetaUrl argv1 : string) (args : list string)
  : option nat :=
  if isMain importMetaUrl argv1 then
    Some (exitCode
            (fst (PreCommand.execute Performance Resources Optimization
                    checkCommandDependencies predictCommandPerformance
                    prepareCommandResources suggestCommandOptimizations home
                    logCommandIntent
                    (commandOptions (parseCommandArgs noCommandArgs args)))))
  else None.

End CommandLineBlock.

(** *** pre-task part of pre-command.js *)

Record TaskArgs : Type := {
  arg_description : option string;
  arg_autoSpawnAgents : option bool;
  arg_loadMemory : option bool;
  arg_optimizeTopology : option bool;
  arg_estimateComplexity : option bool;
  arg_useGithubIntegration : option bool;
  arg_parallelExecution : option bool
}.

Definition noTaskArgs : TaskArgs :=
  {| arg_description := None; arg_autoSpawnAgents := None; arg_loadMemory := None;
     arg_optimizeTopology := None; arg_estimateComplexity := None;
     arg_useGithubIntegration := None; arg_parallelExecution := None |}.

(** The cases that assign [true] and consume nothing. *)
Definition setTaskSwitch (a : string) (o : TaskArgs) : option TaskArgs :=
  if bool_decide (a = "--load-memory") then
    Some {| arg_description := arg_description o;
            arg_autoSpawnAgents := arg_autoSpawnAgents o; arg_loadMemory := Some true;
            arg_optimizeTopology := arg_optimizeTopology o;
            arg_estimateComplexity := arg_estimateComplexity o;
            arg_useGithubIntegration := arg_useGithubIntegration o;
            arg_parallelExecution := arg_parallelExecution o |}
  else if bool_decide (a = "--optimize-topology") then
    Some {| arg_description := arg_description o;
            arg_autoSpawnAgents := arg_autoSpawnAgents o;
            arg_loadMemory := arg_loadMemory o; arg_optimizeTopology := Some true;
            arg_estimateComplexity := arg_estimateComplexity o;
            arg_useGithubIntegration := arg_useGithubIntegration o;
            arg_parallelExecution := arg_parallelExecution o |}
  else if bool_decide (a = "--estimate-complexity") then
    Some {| arg_description := arg_description o;
            arg_autoSpawnAgents := arg_autoSpawnAgents o;
            arg_loadMemory := arg_loadMemory o;
            arg_optimizeTopology := arg_optimizeTopology o;
            arg_estimateComplexity := Some true;
            arg_useGithubIntegration := arg_useGithubIntegration o;
            arg_parallelExecution := arg_parallelExecution o |}
  else if bool_decide (a = "--github-integration") then
    Some {| arg_description := arg_description o;
            arg_autoSpawnAgents := arg_autoSpawnAgents o;
            arg_loadMemory := arg_loadMemory o;
            arg_optimizeTopology := arg_optimizeTopology o;
            arg_estimateComplexity := arg_estimateComplexity o;
            arg_useGithubIntegration := Some true;
            arg_parallelExecution := arg_parallelExecution o |}
  else if bool_decide (a = "--parallel") then
    Some {| arg_description := arg_description o;
            arg_autoSpawnAgents := arg_autoSpawnAgents o;
            arg_loadMemory := arg_loadMemory o;
            arg_optimizeTopology := arg_optimizeTopology o;
            arg_estimateComplexity := arg_estimateComplexity o;
            arg_useGithubIntegration := arg_useGithubIntegration o;
            arg_parallelExecution := Some true |}
  else None.

Definition setDescription (v : option string) (o : TaskArgs) : TaskArgs :=
  {| arg_description := v; arg_autoSpawnAgents := arg_autoSpawnAgents o;
     arg_loadMemory := arg_loadMemory o; arg_optimizeTopology := arg_optimizeTopology o;
     arg_estimateComplexity := arg_estimateComplexity o;
     arg_useGithubIntegration := arg_useGithubIntegration o;
     arg_parallelExecution := arg_parallelExecution o |}.

Definition setAutoSpawn (v : option string) (o : TaskArgs) : TaskArgs :=
  {| arg_description := arg_description o;
     arg_autoSpawnAgents := Some (from_option notFalse true v);
     arg_loadMemory := arg_loadMemory o; arg_optimizeTopology := arg_optimizeTopology o;
     arg_estimateComplexity := arg_estimateComplexity o;
     arg_useGithubIntegration := arg_useGithubIntegration o;
     arg_parallelExecution := arg_parallelExecution o |}.

(** The argument loop of the pre-task hook. *)
Fixpoint parseTaskArgs (o : TaskArgs) (args : list string) : TaskArgs :=
  match args with
  | [] => o
  | a :: rest =>
      if bool_decide (a = "--description") || bool_decide (a = "-d") then
        match rest with
        | v :: rest' => parseTaskArgs (setDescription (Some v) o) rest'
        | [] => setDescription None o
        end
      else if bool_decide (a = "--auto-spawn-agents") then
        match rest with
        | v :: rest' => parseTaskArgs (setAutoSpawn (Some v) o) rest'
        | [] => setAutoSpawn None o
        end
      else
        match setTaskSwitch a o with
        | Some o' => parseTaskArgs o' rest
        | None => parseTaskArgs o rest
        end
  end.

(** The options [execute] sees, after its defaults. *)
Definition taskOptions (o : TaskArgs) : PreTask.Options :=
  {| PreTask.description := from_option Str Undefined (arg_description o);
     PreTask.autoSpawn := default true (arg_autoSpawnAgents o);
     PreTask.loadMemory := default true (arg_loadMemory o);
     PreTask.optimizeTopology := default true (arg_optimizeTopology o);
     PreTask.estimateComplexity := default true (arg_estimateComplexity o);
     PreTask.useGithubIntegration := default false (arg_useGithubIntegration o);
     PreTask.parallelExecution := default true (arg_parallelExecution o) |}.

(** *** index.js *)

(** A value of the options object: a string, or [true]. *)
Inductive ArgValue : Type :=
| Given (v : string)
| Present.

(** [name.replace(/-/g, '')] *)
Definition removeDashes (s : string) : string := replaceAll "-" "" s.

(** [arg.substring(2)] *)
Definition dropTwo (s : string) : string :=
  match s with
  | String _ (String _ s') => s'
  | _ => EmptyString
  end.

(** [options[key] = value]; assigning a string or [true] to [__proto__]
    leaves the object as it is. *)
Definition setOption (key : string) (value : ArgValue) (options : gmap string ArgValue)
  : gmap string ArgValue :=
  if bool_decide (key = "__proto__") then options else <[key := value]> options.

(** The loop over [args] from index 1: [--name] takes the next argument
    as value when that is non-empty and does not start with [--]. *)
Fixpoint parseHookArgs (options : gmap string ArgValue) (args : list string)
  : gmap string ArgValue :=
  match args with
  | [] => options
  | a :: rest =>
      if startsWith a "--" then
        let key := removeDashes (dropTwo a) in
        match rest with
        | v :: rest' =>
            if negb (bool_decide (v = "")) && negb (startsWith v "--")
            then parseHookArgs (setOption key (Given v) options) rest'
            else parseHookArgs (setOption key Present options) rest
        | [] => setOption key Present options
        end
      else parseHookArgs options rest
  end.

End CommandLine.


(* ===================================================================== *)
(** ** mcp_tool_mappings_enhanced: prompt triggers                       *)
(* ===================================================================== *)

Module ToolTriggers.
Import JS.

(** [CONTEXT7_TRIGGERS] *)
Definition CONTEXT7_TRIGGERS : list string :=
  [ "library"; "framework"; "package"; "module"; "api"; "sdk"; "documentation";
    "how to"; "how do"; "example"; "tutorial"; "guide"; "reference"; "docs";
    "usage"; "syntax"; "method"; "function"; "class"; "interface"; "hook";
    "component"; "react"; "vue"; "angular"; "express"; "django"; "flask" ].

(** [EXA_TRIGGERS] *)
Definition EXA_TRIGGERS : list string :=
  [ "search"; "find"; "latest"; "current"; "best practice"; "solution";
    "alternative"; "compare"; "vs"; "versus"; "recommend"; "suggestion";
    "how"; "what"; "why"; "when"; "should"; "could"; "would";
    "error"; "bug"; "issue"; "problem"; "fix"; "solve"; "debug"; "help" ].

(** The loop the three [should_use_*] functions share:
    [for trigger in TRIGGERS: if trigger.lower() in prompt_lower: return True]
    and [return False] after it. [str.lower] is [toLowerCase] on ASCII
    text, and [in] on two strings is [includes]. *)
Fixpoint any_trigger (triggers : list string) (prompt_lower : string) : bool :=
  match triggers with
  | [] => false
  | trigger :: rest =>
      if includes prompt_lower (toLowerCase trigger) then true
      else any_trigger rest prompt_lower
  end.

(** [should_use_context7(prompt)] *)
Definition should_use_context7 (prompt : string) : bool :=
  let prompt_lower := toLowerCase prompt in
  any_trigger CONTEXT7_TRIGGERS prompt_lower.

(** [should_use_exa(prompt)] *)
Definition should_use_exa (prompt : string) : bool :=
  let prompt_lower := toLowerCase prompt in
  any_trigger EXA_TRIGGERS prompt_lower.

End ToolTriggers.


(* ===================================================================== *)
(** ** HookManager: registration, parallel runs and sequences            *)
(* ===================================================================== *)

Module HookRuns.
Import JS HookManager.

Section Runs.

Variables Options Result : Type.

(** Truthiness of the [success] property of a hook's result. *)
Variable success : Result -> bool.

(** [{ ...options, previousResult: result }] *)
Variable withPreviousResult : Options -> Outcome Result -> Options.

(** *** registerHook *)

(** [own[name] = value] on the own properties of an object literal: an
    existing property keeps its place, a new one goes last. *)
Fixpoint assign {A} (name : string) (value : A) (own : list (string * A))
  : list (string * A) :=
  match own with
  | [] => [(name, value)]
  | (k, a) :: own' =>
      if bool_decide (k = name) then (k, value) :: own'
      else (k, a) :: assign name value own'
  end.

(** [registerHook(name, HookClass)]: the new table, and whether the
    override warning is printed. With the name [__proto__] the assignment
    replaces the prototype of the table instead of adding a property; the
    table is then no object literal any more and there is no result here. *)
Definition registerHook (hooks : Hooks Options Result) (name : string)
    (cls : HookClass Options Result) : option (Hooks Options Result * bool) :=
  if bool_decide (name = "__proto__") then None
  else
    let warned := match js_get hooks name with Missing => false | _ => true end in
    Some (assign name cls hooks, warned).

(** *** executeParallelHooks *)

(** An element of [hookConfigs], and the part of a step of a sequence
    that names the hook. *)
Record Config : Type := {
  hook : string;
  options : Options
}.

(** [!!result.success] for what [executeHook] resolves to. *)
Definition succeeded (o : Outcome Result) : bool :=
  match o with
  | Passed r => success r
  | Failure _ => false
  end.

(** What [result.reason || result.value?.error] is for a fulfilled
    promise: the message of a failure [executeHook] built, or the [error]
    property of the hook's own result. *)
Inductive Reported : Type :=
| Message (m : string)
| ErrorOf (r : Result).

(** An element of [summary.results]. *)
Inductive Entry : Type :=
| Succeeded (hook : string) (data : Outcome Result)
| Failed (hook : string) (error : Reported).

Record Summary : Type := {
  total : nat;
  successful : nat;
  failed : nat;
  results : list Entry
}.

(** Body of [results.forEach((result, index) => ...)], for promises that
    are fulfilled, as those of [executeHook] are when the hooks resolve or
    throw an [Error]. *)
Definition tally (summary : Summary) (settled : Config * Outcome Result) : Summary :=
  let '(config, value) := settled in
  if succeeded value then
    {| total := total summary;
       successful := S (successful summary);
       failed := failed summary;
       results := results summary ++ [Succeeded (hook config) value] |}
  else
    {| total := total summary;
       successful := successful summary;
       failed := S (failed summary);
       results := results summary
                  ++ [Failed (hook config)
                        match value with
                        | Failure m => Message m
                        | Passed r => ErrorOf r
                        end] |}.

(** [executeParallelHooks(hookConfigs)] *)
Definition executeParallelHooks (hooks : Hooks Options Result)
    (hookConfigs : list Config) : Summary :=
  let promises :=
    map (fun config => fst (executeHook hooks (hook config) (options config)))
        hookConfigs in
  fold_left tally (zip hookConfigs promises)
    {| total := length promises; successful := 0; failed := 0; results := [] |}.

(** *** executeSequence *)

(** A step object. [passDataTo] is an index into the sequence, when
    given. *)
Record Step : Type := {
  config : Config;
  stopOnError : bool;
  passDataTo : option nat
}.

(** The step objects by reference; the array [sequence] holds references,
    so one object can stand at several positions. *)
Definition Objects : Type := nat -> Step.

(** [target.options = { ...target.options, previousResult: result }] *)
Definition passData (objects : Objects) (target : nat) (result : Outcome Result)
  : Objects :=
  fun ref =>
    if bool_decide (ref = target) then
      let step := objects target in
      {| config := {| hook := hook (config step);
                      options := withPreviousResult (options (config step)) result |};
         stopOnError := stopOnError step;
         passDataTo := passDataTo step |}
    else objects ref.

(** [if (step.passDataTo && sequence[step.passDataTo])]: index [0] is
    falsy, an index past the end finds nothing. *)
Definition passTarget (sequence : list nat) (step : Step) : option nat :=
  match passDataTo step with
  | Some (S n) => sequence !! (S n)
  | _ => None
  end.

(** Whether a hook's result has an own enumerable property [hook]. *)
Variable hasOwnHook : Result -> bool.

(** An element of the result list, [{ hook: step.hook, ...result }]. The
    spread copies the own properties of the result over the step's name:
    [named] is that name where it stays, and [None] where the [hook]
    property of the hook's result replaces it. The object
    [{ success: false, error }] that [executeHook] builds has no such
    property. *)
Record SequenceEntry : Type := {
  named : option string;
  settled : Outcome Result
}.

Definition sequenceEntry (name : string) (result : Outcome Result) : SequenceEntry :=
  {| named :=
       match result with
       | Passed r => if hasOwnHook r then None else Some name
       | Failure _ => Some name
       end;
     settled := result |}.

(** [await this.executeHook(step.hook, step.options)]: the promise is
    fulfilled with an outcome or rejected. [executeHook] rejects when the
    hook throws [null] or [undefined]: its [catch] block then throws
    itself, at [error.message]. *)
Variable awaitHook : string -> Options -> Completion (Outcome Result).

(** The loop [for (const step of sequence)], from the position where
    [todo] starts. It is not inside a [try]: a rejected [executeHook]
    rejects [executeSequence]. *)
Fixpoint runSteps (sequence todo : list nat) (objects : Objects)
    (results : list SequenceEntry) : Completion (list SequenceEntry) :=
  match todo with
  | [] => Normal results
  | ref :: todo' =>
      let step := objects ref in
      match awaitHook (hook (config step)) (options (config step)) with
      | Throw m => Throw m
      | Normal result =>
          let results := results ++ [sequenceEntry (hook (config step)) result] in
          if stopOnError step && negb (succeeded result) then Normal results
          else
            let objects :=
              match passTarget sequence step with
              | Some target => passData objects target result
              | None => objects
              end in
            runSteps sequence todo' objects results
      end
  end.

(** [executeSequence(sequence)] *)
Definition executeSequence (sequence : list nat) (objects : Objects)
  : Completion (list SequenceEntry) :=
  runSteps sequence sequence objects [].

(** [this.executeHook] of a manager whose hooks resolve or throw an
    [Error]: the promise is always fulfilled. *)
Definition awaitExecuteHook (hooks : Hooks Options Result)
  : string -> Options -> Completion (Outcome Result) :=
  fun name options => Normal (fst (executeHook hooks name options)).

End Runs.

Arguments hook {Options} c.
Arguments options {Options} c.
Arguments config {Options} s.
Arguments stopOnError {Options} s.
Arguments passDataTo {Options} s.
Arguments Succeeded {Result} hook data.
Arguments Failed {Result} hook error.
Arguments Message {Result} m.
Arguments ErrorOf {Result} r.
Arguments total {Result} s.
Arguments successful {Result} s.
Arguments failed {Result} s.
Arguments results {Result} s.
Arguments succeeded {Result} success o.
Arguments registerHook {Options Result} hooks name cls.
Arguments executeParallelHooks {Options Result} success hooks hookConfigs.
Arguments named {Result} s.
Arguments settled {Result} s.
Arguments sequenceEntry {Result} hasOwnHook name result.
Arguments executeSequence {Options Result} success withPreviousResult hasOwnHook
  awaitHook sequence objects.
Arguments runSteps {Options Result} success withPreviousResult hasOwnHook awaitHook
  sequence todo objects results.
Arguments awaitExecuteHook {Options Result} hooks name options.

End HookRuns.

(* ===================================================================== *)
(** ** PostTaskHook: recommendations and commit message                  *)
(* ===================================================================== *)

Module PostTask.
Import JS Text.

(** *** generateRecommendations *)

(** The two properties of a bottleneck the function reads; [component]
    is the text the template literal gives. *)
Record Bottleneck : Type := {
  type : Value;
  component : string
}.

Record Recommendation : Type := {
  category : string;
  priority : string;
  suggestion : string;
  impact : string
}.

(** The [switch (bottleneck.type)]: the recommendation a case pushes. *)
Definition recommend (bottleneck : Bottleneck) : option Recommendation :=
  match type bottleneck with
  | Str t =>
      if bool_decide (t = "agent-efficiency") then
        Some {| category := "performance"; priority := "high";
                suggestion := "Optimize " +:+ component bottleneck
                  +:+ " agent: Consider reducing task complexity or spawning additional specialized agents";
                impact := "Could improve overall task completion time by 20-30%" |}
      else if bool_decide (t = "coordination-latency") then
        Some {| category := "architecture"; priority := "medium";
                suggestion := "High coordination latency detected: Consider switching to a more efficient topology (e.g., from mesh to hierarchical)";
                impact := "Could reduce message passing overhead by 40%" |}
      else if bool_decide (t = "sync-rate") then
        Some {| category := "coordination"; priority := "medium";
                suggestion := "Low synchronization rate: Implement more frequent checkpoints or use event-driven coordination";
                impact := "Could improve agent coordination efficiency by 25%" |}
      else if bool_decide (t = "memory-usage") then
        Some {| category := "resource"; priority := "low";
                suggestion := "High memory usage detected: Implement periodic memory cleanup or use more efficient data structures";
                impact := "Could reduce memory footprint by 30-40%" |}
      else None
  | _ => None
  end.

(** The recommendation added when the list is still empty. *)
Definition generalRecommendation : Recommendation :=
  {| category := "general"; priority := "low";
     suggestion := "Task completed efficiently. Consider documenting successful patterns for future reuse.";
     impact := "Could improve future task execution by 10-15%" |}.

(** Body of [bottlenecks.forEach]. *)
Definition pushRecommendation (recommendations : list Recommendation)
    (bottleneck : Bottleneck) : list Recommendation :=
  match recommend bottleneck with
  | Some r => recommendations ++ [r]
  | None => recommendations
  end.

(** [generateRecommendations(bottlenecks)] *)
Definition generateRecommendations (bottlenecks : list Bottleneck)
  : list Recommendation :=
  let recommendations := fold_left pushRecommendation bottlenecks [] in
  if (length recommendations =? 0)%nat then recommendations ++ [generalRecommendation]
  else recommendations.

(** *** generateCommitMessage *)

(** The properties of a task summary the function reads: the
    description, a string, and [filesModified], which may be missing. *)
Record Summary : Type := {
  description : string;
  filesModified : option (list string)
}.

Section CommitMessage.

(** [this.sessionId] and [path.dirname]. *)
Variable sessionId : string.
Variable dirname : string -> string.





End CommitMessage.

End PostTask.

(* ===================================================================== *)
(** * Properties                                                         *)
(* ===================================================================== *)

(** ** Strings *)

Lemma app_cons (a : ascii) (s t : string) : String a s +:+ t = String a (s +:+ t).
Proof. reflexivity. Qed.

Lemma app_empty_l (s : string) : "" +:+ s = s.
Proof. reflexivity. Qed.

Lemma startsWith_spec (s p : string) :
  JS.startsWith s p = true <-> exists post, s = p +:+ post.
Proof.
  revert s. induction p as [|a p IH]; intros s; simpl.
  - split; [intros _; exists s; reflexivity | reflexivity].
  - destruct s as [|b s].
    + split; [discriminate | intros [post H]; discriminate].
    + rewrite andb_true_iff, bool_decide_eq_true, IH. split.
      * intros [-> [post ->]]. exists post. reflexivity.
      * intros [post H]. rewrite app_cons in H. injection H as -> ->. eauto.
Qed.

Lemma includes_spec (s sub : string) :
  JS.includes s sub = true <-> JS.substring_of sub s.
Proof.
  unfold JS.substring_of. induction s as [|c s IH]; simpl.
  - rewrite orb_false_r, startsWith_spec. split.
    + intros [post H]. exists "", post. exact H.
    + intros [[|a pre] [post H]].
      * exists post. exact H.
      * discriminate.
  - rewrite orb_true_iff, startsWith_spec, IH. split.
    + intros [[post H] | [pre [post H]]].
      * exists "", post. exact H.
      * exists (String c pre), post. rewrite app_cons. congruence.
    + intros [[|a pre] [post H]].
      * left. exists post. exact H.
      * right. rewrite app_cons in H. injection H as -> ->. eauto.
Qed.

Lemma includes_ci (w s : string) :
  JS.toLowerCase w = w ->
  JS.includes (JS.toLowerCase s) w = true <-> JS.ci_substring_of w s.
Proof. intros Hw. unfold JS.ci_substring_of. rewrite Hw. apply includes_spec. Qed.

Lemma includes_false_ci (w s : string) :
  JS.toLowerCase w = w ->
  JS.includes (JS.toLowerCase s) w = false <-> ~ JS.ci_substring_of w s.
Proof.
  intros Hw. rewrite <- (includes_ci w s Hw).
  destruct (JS.includes (JS.toLowerCase s) w); split; congruence.
Qed.

(** ** The complexity estimator *)

Section Estimator.
Import JS PreTask.

(** The patterns gathered by the loop are the matched keywords of the
    entries, in catalog order. *)
Lemma scan_patterns_fold (d : string) (catalog : list (string * list string)) (st : Scan) :
  scan_patterns (fold_left (scanEntry d) catalog st)
  = scan_patterns st ++ flat_map (fun e => matchedKeywords d (snd e)) catalog.
Proof.
  revert st. induction catalog as [|[name kws] catalog IH]; intros st;
    cbn [fold_left flat_map snd].
  - rewrite app_nil_r. reflexivity.
  - rewrite IH. unfold scanEntry.
    destruct (qualifies d kws) eqn:Hq; cbn [scan_patterns].
    + rewrite <- app_assoc. reflexivity.
    + assert (matchedKeywords d kws = []) as ->; [|reflexivity].
      unfold qualifies in Hq. unfold matchedKeywords.
      induction kws as [|k kws IHk]; simpl in *; [reflexivity|].
      apply orb_false_iff in Hq as [-> Hq]. auto.
Qed.

Lemma estimate_patterns (catalog : list (string * list string)) (d : string) :
  patterns (estimateWith catalog d)
  = flat_map (fun e => matchedKeywords d (snd e)) catalog.
Proof. unfold estimateWith, scanIndicators. simpl. apply scan_patterns_fold. Qed.

Lemma qualifies_spec (d : string) (keywords : list string) :
  qualifies d keywords = true
  <-> exists k, k ∈ keywords /\ includes (toLowerCase d) k = true.
Proof.
  unfold qualifies. rewrite existsb_exists. split.
  - intros [k [Hin Hk]]. exists k. split; [apply list_elem_of_In|]; assumption.
  - intros [k [Hin Hk]]. exists k. split; [apply list_elem_of_In|]; assumption.
Qed.

(** Every keyword of the catalog is written in lower case. *)
Lemma catalog_keywords_lowercase (name : string) (keywords : list string) (k : string) :
  (name, keywords) ∈ complexityIndicators -> k ∈ keywords -> toLowerCase k = k.
Proof.
  intros He Hk. unfold complexityIndicators in He.
  repeat (apply elem_of_cons in He as [He | He];
          [ injection He as -> ->;
            repeat (apply elem_of_cons in Hk as [-> | Hk]; [reflexivity|]);
            apply elem_of_nil in Hk; contradiction | ]).
  apply elem_of_nil in He. contradiction.
Qed.

(** With more than two components the level is [complex], whatever the
    indicator loop established. *)
Lemma multi_component_level (catalog : list (string * list string)) (d : string) :
  (2 < length (components (estimateWith catalog d)))%nat ->
  level (estimateWith catalog d) = "complex".
Proof.
  unfold estimateWith; simpl. intros H.
  apply Nat.ltb_lt in H. rewrite H. reflexivity.
Qed.

End Estimator.

(** C6: an indicator entry is taken as matched exactly when one of its
    keywords, in lower case, occurs in the lower-cased prompt, and the
    returned pattern list holds exactly the catalog keywords that occur in
    the lower-cased prompt. *)
Theorem matched_patterns_exact (d : string) :
  (forall name keywords, (name, keywords) ∈ PreTask.complexityIndicators ->
     PreTask.qualifies d keywords = true
     <-> exists k, k ∈ keywords /\ JS.ci_substring_of k d)
  /\ (forall k,
        k ∈ PreTask.patterns (PreTask.estimate d)
        <-> (exists name keywords,
               (name, keywords) ∈ PreTask.complexityIndicators /\ k ∈ keywords)
            /\ JS.ci_substring_of k d).
Proof.
  split.
  - intros name keywords He. rewrite qualifies_spec. split.
    + intros [k [Hk Hi]]. exists k. split; [assumption|].
      apply includes_ci; [eapply catalog_keywords_lowercase; eassumption | assumption].
    + intros [k [Hk Hi]]. exists k. split; [assumption|].
      apply includes_ci; [eapply catalog_keywords_lowercase; eassumption | assumption].
  - intros k. unfold PreTask.estimate. rewrite estimate_patterns.
    rewrite list_elem_of_In, in_flat_map. split.
    + intros [[name keywords] [He Hk]]. simpl in Hk.
      unfold PreTask.matchedKeywords in Hk. apply filter_In in Hk as [Hk Hi].
      apply list_elem_of_In in He, Hk. split; [eauto|].
      apply includes_ci; [eapply catalog_keywords_lowercase; eassumption | assumption].
    + intros [[name [keywords [He Hk]]] Hi].
      exists (name, keywords). split; [apply list_elem_of_In; assumption|].
      simpl. unfold PreTask.matchedKeywords. apply filter_In.
      split; [apply list_elem_of_In; assumption|].
      apply includes_ci; [eapply catalog_keywords_lowercase; eassumption | assumption].
Qed.

(** C1, at the failing input: a prompt with a critical keyword and three
    component keywords. The indicator loop alone establishes [critical];
    the component check then assigns [complex], one rank lower, while the
    estimate keeps the 240 minutes of [critical]. *)
Theorem multi_component_lowers_critical :
  let alone := PreTask.estimate "security review" in
  let multi := PreTask.estimate "security review of the frontend, backend and database" in
  PreTask.level alone = "critical"
  /\ length (PreTask.components multi) = 3
  /\ PreTask.level multi = "complex"
  /\ PreTask.estimatedMinutes multi = 240
  /\ PreTask.rank_of_name (PreTask.level multi) = Some 2
  /\ PreTask.rank_of_name (PreTask.level alone) = Some 3.
Proof. vm_compute. repeat split. Qed.

(** C4: over the level-to-agents table, a higher level never gets fewer
    agents: for levels [l1 < l2] the spawn count of [l2] is at least that
    of [l1]. *)
Theorem agent_count_monotone (l1 l2 : PreTask.Level) :
  (PreTask.level_rank l1 < PreTask.level_rank l2)%nat ->
  exists n1 c1 n2 c2,
    PreTask.autoSpawnAgents (PreTask.level_name l1) = JS.Normal (n1, c1)
    /\ PreTask.autoSpawnAgents (PreTask.level_name l2) = JS.Normal (n2, c2)
    /\ (n1 <= n2)%nat.
Proof.
  intros H.
  destruct l1, l2; simpl in H; try lia;
    (eexists _, _, _, _; split; [reflexivity | split; [reflexivity | simpl; lia]]).
Qed.

Lemma agent_count_monotone_witness :
  exists n1 c1 n2 c2,
    PreTask.autoSpawnAgents "simple" = JS.Normal (n1, c1)
    /\ PreTask.autoSpawnAgents "critical" = JS.Normal (n2, c2)
    /\ (n1 <= n2)%nat.
Proof.
  apply (agent_count_monotone PreTask.Simple PreTask.Critical). simpl. lia.
Defined.

(** C10: a description that mentions [api] or [service] in any letter case
    gets the [hierarchical] topology, whatever the suitability scores are;
    one that mentions neither but mentions [test] or [validate] gets
    [ring]. *)
Theorem topology_keyword_override (d : string) :
  exists t,
    PreTask.selectOptimalTopology (JS.Str d) = JS.Normal t
    /\ (JS.ci_substring_of "api" d \/ JS.ci_substring_of "service" d ->
        PreTask.type t = "hierarchical")
    /\ (~ JS.ci_substring_of "api" d -> ~ JS.ci_substring_of "service" d ->
        JS.ci_substring_of "test" d \/ JS.ci_substring_of "validate" d ->
        PreTask.type t = "ring").
Proof.
  exists (PreTask.selectTopology d). split; [reflexivity|].
  unfold PreTask.selectTopology.
  destruct (PreTask.scoreTopologies d) as [scored maxScore]. simpl.
  split.
  - intros H.
    assert (JS.includes (JS.toLowerCase d) "api"
            || JS.includes (JS.toLowerCase d) "service" = true) as ->; [|reflexivity].
    apply orb_true_iff.
    destruct H as [H | H]; [left | right]; apply includes_ci; auto.
  - intros Ha Hs H.
    apply includes_false_ci in Ha; [|reflexivity].
    apply includes_false_ci in Hs; [|reflexivity].
    rewrite Ha, Hs. simpl.
    assert (JS.includes (JS.toLowerCase d) "test"
            || JS.includes (JS.toLowerCase d) "validate" = true) as ->; [|reflexivity].
    apply orb_true_iff.
    destruct H as [H | H]; [left | right]; apply includes_ci; auto.
Qed.

Lemma topology_keyword_override_witness :
  fst (PreTask.scoreTopologies "Collaborative research on the API service") = "mesh"
  /\ exists t,
       PreTask.selectOptimalTopology (JS.Str "Collaborative research on the API service")
       = JS.Normal t
       /\ PreTask.type t = "hierarchical".
Proof.
  split; [reflexivity|].
  destruct (topology_keyword_override "Collaborative research on the API service")
    as [t [Ht [Hapi _]]].
  exists t. split; [exact Ht|].
  apply Hapi. left. apply includes_spec. vm_compute. reflexivity.
Defined.

(** ** The required-tool resolver *)

Section ResolverFacts.
Import ToolMappings.

Variable PT : gmap string PatternTools.
Variable CT : gmap Z (list string).
Variable AT : gmap string (list string).

Lemma fold_addPattern_unknown (ps : list Pattern) (t : gset string) :
  Forall (fun p => PT !! pattern_name p = None) ps ->
  fold_left (addPattern PT) ps t = t.
Proof.
  intros H. revert t. induction H as [|p ps Hp Hps IH]; intros t; simpl; [done|].
  unfold addPattern at 2. rewrite Hp. apply IH.
Qed.

Lemma fold_addRole_unknown (rs : list string) (t : gset string) :
  Forall (fun r => AT !! r = None) rs ->
  fold_left (addRole AT) rs t = t.
Proof.
  intros H. revert t. induction H as [|r rs Hr Hrs IH]; intros t; simpl; [done|].
  unfold addRole at 2. rewrite Hr. apply IH.
Qed.

(** Where each required tool comes from: the always-on list, the entry of
    a pattern, of the level or of a role that its table holds, or the code
    tools. *)
Lemma update_spec (t : gset string) (l : list string) (x : string) :
  x ∈ update t l <-> x ∈ t \/ x ∈ l.
Proof. unfold update. rewrite elem_of_union, elem_of_list_to_set. reflexivity. Qed.

Lemma fold_addPattern_spec (ps : list Pattern) (t : gset string) (x : string) :
  x ∈ fold_left (addPattern PT) ps t
  <-> x ∈ t \/ exists p e, p ∈ ps /\ PT !! pattern_name p = Some e /\ x ∈ required e.
Proof.
  revert t. induction ps as [|p ps IH]; intros t; simpl.
  - split; [auto|]. intros [H | (p & e & Hp & _)]; [exact H|].
    apply elem_of_nil in Hp. contradiction.
  - rewrite IH. unfold addPattern. split.
    + intros [H | (q & e & Hq & He & Hx)].
      * destruct (PT !! pattern_name p) as [e|] eqn:Hp; [|auto].
        apply update_spec in H as [H | H]; [auto|].
        right. exists p, e. split; [apply elem_of_cons; auto | auto].
      * right. exists q, e. split; [apply elem_of_cons; auto | auto].
    + intros [H | (q & e & Hq & He & Hx)].
      * left. destruct (PT !! pattern_name p); [apply update_spec|]; auto.
      * apply elem_of_cons in Hq as [-> | Hq].
        -- left. rewrite He. apply update_spec. auto.
        -- right. exists q, e. auto.
Qed.

Lemma fold_addRole_spec (rs : list string) (t : gset string) (x : string) :
  x ∈ fold_left (addRole AT) rs t
  <-> x ∈ t \/ exists r l, r ∈ rs /\ AT !! r = Some l /\ x ∈ l.
Proof.
  revert t. induction rs as [|r rs IH]; intros t; simpl.
  - split; [auto|]. intros [H | (r & l & Hr & _)]; [exact H|].
    apply elem_of_nil in Hr. contradiction.
  - rewrite IH. unfold addRole. split.
    + intros [H | (q & l & Hq & Hl & Hx)].
      * destruct (AT !! r) as [l|] eqn:Hr; [|auto].
        apply update_spec in H as [H | H]; [auto|].
        right. exists r, l. split; [apply elem_of_cons; auto | auto].
      * right. exists q, l. split; [apply elem_of_cons; auto | auto].
    + intros [H | (q & l & Hq & Hl & Hx)].
      * left. destruct (AT !! r); [apply update_spec|]; auto.
      * apply elem_of_cons in Hq as [-> | Hq].
        -- left. rewrite Hl. apply update_spec. auto.
        -- right. exists q, l. auto.
Qed.

Lemma addComplexity_spec (t : gset string) (c : Z) (x : string) :
  x ∈ addComplexity CT t c <-> x ∈ t \/ exists l, CT !! c = Some l /\ x ∈ l.
Proof.
  unfold addComplexity. destruct (CT !! c) as [l|].
  - rewrite update_spec. split.
    + intros [H | H]; [auto | right; eauto].
    + intros [H | (l' & Hl & Hx)]; [auto | right; congruence].
  - split; [auto|]. intros [H | (l & Hl & _)]; [exact H | discriminate].
Qed.

Lemma requiredSet_spec (ps : list Pattern) (c : Z) (rs : list string) (x : string) :
  x ∈ requiredSet PT CT AT ps c rs
  <-> x ∈ alwaysOnTools
      \/ (exists p e, p ∈ ps /\ PT !! pattern_name p = Some e /\ x ∈ required e)
      \/ (exists l, CT !! c = Some l /\ x ∈ l)
      \/ (exists r l, r ∈ rs /\ AT !! r = Some l /\ x ∈ l)
      \/ (hasCodePattern ps = true /\ x ∈ codeTools).
Proof.
  unfold requiredSet.
  assert (x ∈ fold_left (addRole AT) rs
                (addComplexity CT
                   (fold_left (addPattern PT) ps (update ∅ alwaysOnTools)) c)
          <-> x ∈ alwaysOnTools
              \/ (exists p e, p ∈ ps /\ PT !! pattern_name p = Some e /\ x ∈ required e)
              \/ (exists l, CT !! c = Some l /\ x ∈ l)
              \/ (exists r l, r ∈ rs /\ AT !! r = Some l /\ x ∈ l)) as H.
  { rewrite fold_addRole_spec, addComplexity_spec, fold_addPattern_spec, update_spec.
    rewrite elem_of_empty. tauto. }
  destruct (hasCodePattern ps).
  - rewrite update_spec, H. tauto.
  - rewrite H. split; [tauto|].
    intros [?|[?|[?|[?|[? _]]]]]; try tauto. discriminate.
Qed.
Lemma always_on_in_set (ps : list Pattern) (c : Z) (rs : list string) :
  list_to_set alwaysOnTools ⊆ requiredSet PT CT AT ps c rs.
Proof.
  intros x Hx. apply requiredSet_spec. left.
  apply elem_of_list_to_set in Hx. exact Hx.
Qed.


(** When no key is found in its table, the set holds the always-on tool
    and, for a code pattern, the two code tools. *)
Lemma requiredSet_unknown (ps : list Pattern) (c : Z) (rs : list string) :
  Forall (fun p => PT !! pattern_name p = None) ps ->
  CT !! c = None ->
  Forall (fun r => AT !! r = None) rs ->
  requiredSet PT CT AT ps c rs
  = if hasCodePattern ps then update (update ∅ alwaysOnTools) codeTools
    else update ∅ alwaysOnTools.
Proof.
  intros Hp Hc Hr. unfold requiredSet.
  rewrite (fold_addPattern_unknown ps _ Hp).
  unfold addComplexity. rewrite Hc.
  rewrite (fold_addRole_unknown rs _ Hr). reflexivity.
Qed.

End ResolverFacts.

Lemma resolver_unknown_keys
    (PT : gmap string ToolMappings.PatternTools)
    (CT : gmap Z (list string)) (AT : gmap string (list string))
    (ps : list ToolMappings.Pattern) (c : Z) (rs : list string) :
  Forall (fun p => PT !! ToolMappings.pattern_name p = None) ps ->
  CT !! c = None ->
  Forall (fun r => AT !! r = None) rs ->
  ToolMappings.get_enhanced_required_tools PT CT AT ps c rs
  = if ToolMappings.hasCodePattern ps
    then [ "mcp__context7__get-library-docs"; "mcp__context7__resolve-library-id";
           "mcp__exa__web_search_exa" ]
    else ToolMappings.alwaysOnTools.
Proof.
  intros Hp Hc Hr. unfold ToolMappings.get_enhanced_required_tools.
  rewrite (requiredSet_unknown PT CT AT ps c rs Hp Hc Hr).
  destruct (ToolMappings.hasCodePattern ps); vm_compute; reflexivity.
Qed.



(** A description that is no string never gets through [execute]: with
    the estimate or the topology selection on, that operation throws; with
    both off, nothing fills the [topology] variable and reading its [type]
    throws. *)
Lemma execute_rejects_non_string
    (env : PreTask.Env) (this : PreTask.Hook) (opts : PreTask.Options) :
  JS.is_string (PreTask.defaultDescription (PreTask.description opts)) = false ->
  exists message, PreTask.execute env this opts = PreTask.Failed message.
Proof.
  intros Hd. unfold PreTask.execute, PreTask.executeBody.
  destruct (PreTask.mkdir_error env) as [m|]; [exists m; reflexivity|].
  remember (PreTask.defaultDescription (PreTask.description opts)) as d eqn:Ed.
  clear Ed. cbv zeta. unfold PreTask.operations.
  assert (PreTask.estimateTaskComplexity d = JS.Throw (PreTask.toLowerCase_error d)) as He.
  { destruct d; try reflexivity. discriminate Hd. }
  assert (PreTask.selectOptimalTopology d = JS.Throw (PreTask.toLowerCase_error d)) as Ht.
  { destruct d; try reflexivity. discriminate Hd. }
  assert (PreTask.loadRelevantMemory env d = None) as Hm.
  { destruct d; try reflexivity. discriminate Hd. }
  rewrite He, Ht, Hm. clear He Ht Hm.
  destruct (PreTask.estimateComplexity opts); [eexists; reflexivity|].
  destruct (PreTask.optimizeTopology opts).
  { destruct (PreTask.loadMemory opts); eexists; reflexivity. }
  destruct (PreTask.loadMemory opts).
  { destruct (PreTask.useGithubIntegration opts); eexists; reflexivity. }
  destruct (PreTask.useGithubIntegration opts); [|eexists; reflexivity].
  cbn [app JS.settleAll JS.bind lookup list_lookup].
  destruct (PreTask.initializeGithubContext env) as [g|];
    [|cbn; eexists; reflexivity].
  cbn [PreTask.orNull]. destruct (PreTask.autoSpawn opts); [|cbn; eexists; reflexivity].
  destruct (PreTask.spawnAgents env (PreTask.OGithub g)) as [n|m];
    cbn; eexists; reflexivity.
Qed.

(** C2, the claim as stated fails: a number as prompt makes the estimator
    throw instead of returning a minimal result, and the minimal required
    tool list is not empty. *)
Lemma non_string_prompt_no_minimal_result :
  ~ (exists r, PreTask.estimateTaskComplexity (JS.Number 5) = JS.Normal r)
  /\ ToolMappings.get_enhanced_required_tools ∅ ∅ ∅ [] 1 [] <> [].
Proof.
  split.
  - intros [r H]. discriminate H.
  - vm_compute. discriminate.
Qed.

(** C2, amended: the empty prompt is analysed without an exception and
    gives the minimal result, that is the lowest level ([simple]), no
    matched pattern and no component, and for it the resolver (no pattern,
    no role, a level without table entry) returns the always-on tool alone.
    A prompt that is not a string makes the estimator throw a [TypeError];
    [execute] catches it and returns [{ continue: false, error }]. *)
Theorem empty_prompt_minimal_non_string_rejected
    (v : JS.Value) (env : PreTask.Env) (this : PreTask.Hook) (opts : PreTask.Options)
    (PT : gmap string ToolMappings.PatternTools)
    (CT : gmap Z (list string)) (AT : gmap string (list string)) (c : Z) :
  JS.is_string v = false ->
  JS.is_string (PreTask.defaultDescription (PreTask.description opts)) = false ->
  CT !! c = None ->
  PreTask.estimateTaskComplexity (JS.Str "")
    = JS.Normal {| PreTask.level := "simple"; PreTask.estimatedMinutes := 15;
                   PreTask.patterns := []; PreTask.components := [];
                   PreTask.requiresCoordination := false |}
  /\ PreTask.rank_of_name "simple" = Some 0%nat
  /\ ToolMappings.get_enhanced_required_tools PT CT AT [] c [] = ToolMappings.alwaysOnTools
  /\ PreTask.estimateTaskComplexity v = JS.Throw (PreTask.toLowerCase_error v)
  /\ exists message, PreTask.execute env this opts = PreTask.Failed message.
Proof.
  intros Hv Hd Hc.
  split; [reflexivity|]. split; [reflexivity|].
  split; [apply (resolver_unknown_keys PT CT AT [] c []); auto|].
  split.
  - destruct v; try reflexivity. discriminate Hv.
  - apply execute_rejects_non_string. exact Hd.
Qed.

Lemma empty_prompt_minimal_non_string_rejected_witness :
  PreTask.estimateTaskComplexity JS.Null
    = JS.Throw "Cannot read properties of null (reading 'toLowerCase')"
  /\ exists message,
       PreTask.execute
         {| PreTask.mkdir_error := None;
            PreTask.executeCommand :=
              fun _ => JS.Normal {| PreTask.success := true; PreTask.output := "" |};
            PreTask.now := "2025-01-01T00:00:00.000Z" |}
         {| PreTask.swarmPath := ".swarm"; PreTask.memoryDb := ".swarm/memory.db";
            PreTask.sessionId := "session-1" |}
         {| PreTask.description := JS.Number 5; PreTask.autoSpawn := true;
            PreTask.loadMemory := true; PreTask.optimizeTopology := true;
            PreTask.estimateComplexity := true;
            PreTask.useGithubIntegration := false; PreTask.parallelExecution := true |}
       = PreTask.Failed message.
Proof.
  destruct (empty_prompt_minimal_non_string_rejected JS.Null
              {| PreTask.mkdir_error := None;
                 PreTask.executeCommand :=
                   fun _ => JS.Normal {| PreTask.success := true; PreTask.output := "" |};
                 PreTask.now := "2025-01-01T00:00:00.000Z" |}
              {| PreTask.swarmPath := ".swarm"; PreTask.memoryDb := ".swarm/memory.db";
                 PreTask.sessionId := "session-1" |}
              {| PreTask.description := JS.Number 5; PreTask.autoSpawn := true;
                 PreTask.loadMemory := true; PreTask.optimizeTopology := true;
                 PreTask.estimateComplexity := true;
                 PreTask.useGithubIntegration := false; PreTask.parallelExecution := true |}
              ∅ ∅ ∅ 1%Z)
    as (_ & _ & _ & Hthrow & Hexec); [reflexivity | reflexivity | reflexivity | ].
  split; [exact Hthrow | exact Hexec].
Defined.




(** ** Command safety *)

Section Safety.
Import JS PreCommand.

Lemma checkDangerous_fold_safe (command : string) (l : list string) (r : Safety) :
  safe (fold_left (checkDangerous command) l r)
  = safe r && negb (existsb (includes command) l).
Proof.
  revert r. induction l as [|d l IH]; intros r; simpl.
  - rewrite andb_true_r. reflexivity.
  - rewrite IH. unfold checkDangerous.
    destruct (includes command d); simpl; [|reflexivity].
    rewrite andb_false_r. reflexivity.
Qed.

Lemma when_safe (b : bool) (f : Safety -> Safety) (r : Safety) :
  (forall r', safe (f r') = safe r') -> safe (when b f r) = safe r.
Proof. intros H. unfold when. destruct b; auto. Qed.

Lemma warn_safe (w l : string) (r : Safety) : safe (warn w l r) = safe r.
Proof. reflexivity. Qed.

Lemma warnMedium_safe (w : string) (r : Safety) : safe (warnMedium w r) = safe r.
Proof. reflexivity. Qed.

(** A command is reported safe exactly when it contains no entry of the
    dangerous-command list. *)
Lemma validate_safe_iff (home : option string) (command : string) :
  safe (validateCommandSafety home command)
  = negb (existsb (includes command) dangerousCommands).
Proof.
  unfold validateCommandSafety.
  rewrite !when_safe by (intros; reflexivity).
  rewrite checkDangerous_fold_safe. reflexivity.
Qed.

Lemma dangerous_command_unsafe (home : option string) (command dangerous : string) :
  dangerous ∈ dangerousCommands ->
  substring_of dangerous command ->
  safe (validateCommandSafety home command) = false.
Proof.
  intros Hd Hs. rewrite validate_safe_iff. apply negb_false_iff.
  apply existsb_exists. exists dangerous.
  split; [apply list_elem_of_In; assumption | apply includes_spec; assumption].
Qed.

Lemma checkDangerous_fold_risk (command : string) (l : list string) (r : Safety) :
  riskLevel (fold_left (checkDangerous command) l r)
  = if existsb (includes command) l then "critical" else riskLevel r.
Proof.
  revert r. induction l as [|d l IH]; intros r; simpl; [reflexivity|].
  rewrite IH. unfold checkDangerous.
  destruct (includes command d); simpl; [|reflexivity].
  destruct (existsb (includes command) l); reflexivity.
Qed.

(** The later checks leave a [critical] or [high] level at one of the two. *)
Lemma when_keeps_high (b : bool) (f : Safety -> Safety) (r : Safety) :
  (forall r', riskLevel r' = "critical" \/ riskLevel r' = "high" ->
              riskLevel (f r') = "critical" \/ riskLevel (f r') = "high") ->
  riskLevel r = "critical" \/ riskLevel r = "high" ->
  riskLevel (when b f r) = "critical" \/ riskLevel (when b f r) = "high".
Proof. intros Hf Hr. unfold when. destruct b; auto. Qed.

Lemma warnMedium_keeps_high (w : string) (r : Safety) :
  riskLevel r = "critical" \/ riskLevel r = "high" ->
  riskLevel (warnMedium w r) = "critical" \/ riskLevel (warnMedium w r) = "high".
Proof. intros [H | H]; unfold warnMedium; rewrite H; simpl; auto. Qed.

(** What validation does establish for a dangerous command: the risk
    level ends at [critical] or at [high]. *)
Lemma dangerous_command_risk (home : option string) (command dangerous : string) :
  dangerous ∈ dangerousCommands ->
  substring_of dangerous command ->
  riskLevel (validateCommandSafety home command) = "critical"
  \/ riskLevel (validateCommandSafety home command) = "high".
Proof.
  intros Hd Hs. unfold validateCommandSafety.
  apply when_keeps_high; [intros; simpl; auto|].
  apply when_keeps_high; [intros; simpl; auto|].
  apply when_keeps_high; [intros; apply warnMedium_keeps_high; assumption|].
  apply when_keeps_high; [intros; apply warnMedium_keeps_high; assumption|].
  apply when_keeps_high; [intros; simpl; auto|].
  left. rewrite checkDangerous_fold_risk.
  assert (existsb (includes command) dangerousCommands = true) as ->; [|reflexivity].
  apply existsb_exists. exists dangerous.
  split; [apply list_elem_of_In; assumption | apply includes_spec; assumption].
Qed.

End Safety.

(** With safety validation on, a command that contains a dangerous entry
    does not continue, and [execute] performs neither resource
    preparation, nor optimization suggestions, nor intent logging: it is
    blocked with [safe: false], unless the dependency check is rejected
    first, in which case [execute] returns that error. *)
Lemma dangerous_command_blocked
    (Performance Resources Optimization : Type)
    (checkCommandDependencies : string -> JS.Completion PreCommand.Dependencies)
    (predictCommandPerformance : string -> Performance)
    (prepareCommandResources : string -> list string -> JS.Completion Resources)
    (suggestCommandOptimizations : string -> option Performance -> list Optimization)
    (home : option string)
    (logCommandIntent :
       string -> PreCommand.Results Performance Resources Optimization
       -> JS.Completion unit)
    (o : PreCommand.Options) (dangerous : string) :
  PreCommand.validateSafety o = true ->
  dangerous ∈ PreCommand.dangerousCommands ->
  JS.substring_of dangerous (PreCommand.command o) ->
  exists r,
    PreCommand.execute Performance Resources Optimization checkCommandDependencies
      predictCommandPerformance prepareCommandResources suggestCommandOptimizations
      home logCommandIntent o
    = (PreCommand.Checked Performance Resources Optimization r, [])
    /\ PreCommand.continue _ _ _ r = false
    /\ (PreCommand.res_safe _ _ _ r = false
        \/ (PreCommand.checkDependencies o = true
            /\ exists message,
                 checkCommandDependencies (PreCommand.command o) = JS.Throw message
                 /\ PreCommand.error _ _ _ r = Some message)).
Proof.
  intros Hv Hd Hs. unfold PreCommand.execute.
  assert (PreCommand.command o <> "") as Hne.
  { intros He. rewrite He in Hs. destruct Hs as [pre [post Hs]].
    destruct pre; [|discriminate Hs].
    rewrite app_empty_l in Hs.
    unfold PreCommand.dangerousCommands in Hd.
    repeat (apply elem_of_cons in Hd as [-> | Hd]; [discriminate Hs|]).
    apply elem_of_nil in Hd. contradiction. }
  rewrite bool_decide_eq_false_2 by exact Hne.
  unfold PreCommand.operations. rewrite Hv.
  destruct (PreCommand.checkDependencies o) eqn:Hdep;
    [destruct (checkCommandDependencies (PreCommand.command o)) as [deps|m] eqn:Hcheck|];
    destruct (PreCommand.predictPerformance o); cbn;
    rewrite ?(dangerous_command_unsafe home _ dangerous Hd Hs); cbn;
    (eexists; split; [reflexivity|]; split; [reflexivity|]);
    first [ left; reflexivity
          | right; split; [reflexivity|]; eexists; split; reflexivity ].
Qed.

(** C8, at the failing input: [curl | bash] is itself an entry of the
    dangerous-command list; validation marks it unsafe and sets the risk
    level to [critical], and the later check for a pipe into an interpreter
    overwrites that with [high]. The same happens to a dangerous command
    run under [sudo]. *)
Theorem dangerous_command_risk_downgraded (home : option string) :
  "curl | bash" ∈ PreCommand.dangerousCommands
  /\ PreCommand.safe (PreCommand.validateCommandSafety home "curl | bash") = false
  /\ PreCommand.riskLevel (PreCommand.validateCommandSafety home "curl | bash") = "high"
  /\ PreCommand.riskLevel (PreCommand.validateCommandSafety home "sudo rm -rf /") = "high"
  /\ PreCommand.riskLevel (PreCommand.validateCommandSafety home "mkfs /dev/sdb") = "critical".
Proof.
  split; [unfold PreCommand.dangerousCommands; set_solver|].
  repeat split; vm_compute; reflexivity.
Qed.

(** ** The hook manager *)

(** A name that is no property of the hook table is reported as an
    unknown hook. *)
Lemma executeHook_unknown {Options Result : Type}
    (hooks : HookManager.Hooks Options Result) (name : string) (o : Options) :
  JS.js_get hooks name = JS.Missing ->
  HookManager.executeHook hooks name o
  = (HookManager.Failure ("Unknown hook: " +:+ name), []).
Proof. intros H. unfold HookManager.executeHook. rewrite H. reflexivity. Qed.

(** An exception of a registered hook becomes [{ success: false, error }]. *)
Lemma executeHook_catches {Options Result : Type}
    (hooks : HookManager.Hooks Options Result) (name : string) (o : Options)
    (cls : HookManager.HookClass Options Result) (message : string) :
  JS.assoc name hooks = Some cls ->
  cls o = JS.Throw message ->
  fst (HookManager.executeHook hooks name o) = HookManager.Failure message.
Proof.
  intros Hc Ht. unfold HookManager.executeHook, JS.js_get.
  rewrite Hc, Ht. reflexivity.
Qed.

(** C9, at the failing input: [constructor] is not registered, yet the
    table lookup finds [Object] on the prototype; the manager instantiates
    it, fails on [hook.execute] and reports that [TypeError] instead of
    naming the unknown hook. *)
Theorem inherited_name_not_reported_unknown {Options Result : Type}
    (PreTaskHook PostTaskHook PreCommandHook PostEditHook SessionEndHook
       : HookManager.HookClass Options Result) (o : Options) :
  let hooks := HookManager.initialHooks PreTaskHook PostTaskHook PreCommandHook
                 PostEditHook SessionEndHook in
  JS.assoc "constructor" hooks = None
  /\ HookManager.executeHook hooks "constructor" o
     = (HookManager.Failure "hook.execute is not a function",
        [HookManager.LogError "constructor" "hook.execute is not a function"])
  /\ fst (HookManager.executeHook hooks "constructor" o)
     <> HookManager.Failure "Unknown hook: constructor"
  /\ HookManager.executeHook hooks "no-such-hook" o
     = (HookManager.Failure "Unknown hook: no-such-hook", []).
Proof.
  simpl. repeat split. vm_compute. discriminate.
Qed.

(* ===================================================================== *)
(** * Further properties                                                 *)
(* ===================================================================== *)

(** ** More facts on strings *)

Lemma includes_false_spec (s sub : string) :
  JS.includes s sub = false <-> ~ JS.substring_of sub s.
Proof.
  rewrite <- includes_spec. destruct (JS.includes s sub); split; congruence.
Qed.

Lemma string_app_assoc (a b c : string) : (a +:+ b) +:+ c = a +:+ (b +:+ c).
Proof.
  induction a as [|x a IH]; [reflexivity|]. rewrite !app_cons, IH. reflexivity.
Qed.

Lemma substring_of_trans (a b c : string) :
  JS.substring_of a b -> JS.substring_of b c -> JS.substring_of a c.
Proof.
  intros (p1 & q1 & ->) (p2 & q2 & ->). exists (p2 +:+ p1), (q1 +:+ q2).
  rewrite !string_app_assoc. reflexivity.
Qed.

(** ** More on the complexity estimator *)

Section EstimatorMore.
Import JS PreTask.



End EstimatorMore.

(** X1: with at most two components in the prompt, the level is the
    highest tier one of whose keywords occurs ([critical] before [complex]
    before [medium]), [simple] when none occurs, and the estimated minutes
    are those of that level. *)
Theorem highest_tier_wins (d : string) :
  (length (PreTask.components (PreTask.estimate d)) <= 2)%nat ->
  PreTask.level (PreTask.estimate d)
  = (if PreTask.qualifies d (default [] (JS.assoc "critical" PreTask.complexityIndicators))
     then "critical"
     else if PreTask.qualifies d (default [] (JS.assoc "complex" PreTask.complexityIndicators))
     then "complex"
     else if PreTask.qualifies d (default [] (JS.assoc "medium" PreTask.complexityIndicators))
     then "medium"
     else "simple")
  /\ PreTask.estimatedMinutes (PreTask.estimate d)
     = PreTask.minutesFor (PreTask.level (PreTask.estimate d)) 15.
Proof.
  intros H. unfold PreTask.estimate, PreTask.estimateWith in *.
  cbn [PreTask.components PreTask.level PreTask.estimatedMinutes] in *.
  apply Nat.ltb_ge in H. rewrite H.
  change (default [] (JS.assoc "critical" PreTask.complexityIndicators))
    with ["security"; "performance"; "scale"; "distributed"; "real-time"].
  change (default [] (JS.assoc "complex" PreTask.complexityIndicators))
    with ["refactor"; "optimize"; "architect"; "redesign"; "migrate"].
  change (default [] (JS.assoc "medium" PreTask.complexityIndicators))
    with ["implement"; "create"; "build"; "develop"; "integrate"].
  unfold PreTask.scanIndicators, PreTask.complexityIndicators.
  cbn [fold_left]. unfold PreTask.scanEntry.
  destruct (PreTask.qualifies d ["fix"; "update"; "change"; "modify"; "add"]);
    destruct (PreTask.qualifies d ["implement"; "create"; "build"; "develop"; "integrate"]);
    destruct (PreTask.qualifies d ["refactor"; "optimize"; "architect"; "redesign"; "migrate"]);
    destruct (PreTask.qualifies d ["security"; "performance"; "scale"; "distributed"; "real-time"]);
    split; reflexivity.
Qed.

Lemma highest_tier_wins_witness :
  PreTask.level (PreTask.estimate "Fix the build and add a security check") = "critical"
  /\ PreTask.estimatedMinutes (PreTask.estimate "Fix the build and add a security check")
     = 240%nat.
Proof.
  destruct (highest_tier_wins "Fix the build and add a security check") as [Hl Hm].
  - vm_compute. lia.
  - split.
    + rewrite Hl. vm_compute. reflexivity.
    + rewrite Hm, Hl. vm_compute. reflexivity.
Defined.

(** X2: the estimated minutes are one of 15, 45, 90, 120 and 240, and at
    least 90 when more than two components are detected. *)
Theorem estimated_minutes_range (d : string) :
  PreTask.estimatedMinutes (PreTask.estimate d) ∈ [15; 45; 90; 120; 240]%nat
  /\ ((2 < length (PreTask.components (PreTask.estimate d)))%nat ->
      (90 <= PreTask.estimatedMinutes (PreTask.estimate d))%nat).
Proof.
  unfold PreTask.estimate, PreTask.estimateWith.
  cbn [PreTask.components PreTask.estimatedMinutes].
  unfold PreTask.scanIndicators, PreTask.complexityIndicators.
  cbn [fold_left]. unfold PreTask.scanEntry.
  destruct (PreTask.qualifies d ["fix"; "update"; "change"; "modify"; "add"]);
    destruct (PreTask.qualifies d ["implement"; "create"; "build"; "develop"; "integrate"]);
    destruct (PreTask.qualifies d ["refactor"; "optimize"; "architect"; "redesign"; "migrate"]);
    destruct (PreTask.qualifies d ["security"; "performance"; "scale"; "distributed"; "real-time"]);
    cbn [PreTask.scan_minutes PreTask.minutesFor bool_decide];
    (destruct (2 <? _)%nat eqn:Hm;
     [ split; [repeat (apply elem_of_cons; first [left; reflexivity | right])
              | intros _; vm_compute; lia]
     | split; [repeat (apply elem_of_cons; first [left; reflexivity | right])
              | intros Hlt; apply Nat.ltb_lt in Hlt; congruence] ]).
Qed.

(** ** More on topology selection *)

Section TopologyMore.
Import JS PreTask.

Lemma count_fold (p : string -> bool) (l : list string) (acc : nat) :
  fold_left (fun acc k => acc + (if p k then 1 else 0))%nat l acc
  = (acc + length (List.filter p l))%nat.
Proof.
  revert acc. induction l as [|k l IH]; intros acc; simpl; [lia|].
  rewrite IH. destruct (p k); simpl; lia.
Qed.

Lemma suitabilityScore_count (d : string) (cfg : TopologyConfig) :
  suitabilityScore d cfg
  = length (List.filter (fun k => includes (toLowerCase d) k) (suitable cfg)).
Proof. unfold suitabilityScore. rewrite count_fold. reflexivity. Qed.

Lemma suitabilityScore_pos (d : string) (cfg : TopologyConfig) :
  (0 < suitabilityScore d cfg)%nat
  <-> exists k, k ∈ suitable cfg /\ includes (toLowerCase d) k = true.
Proof.
  rewrite suitabilityScore_count. split.
  - intros H.
    destruct (List.filter _ (suitable cfg)) as [|k l] eqn:Hf; [simpl in H; lia|].
    assert (In k (List.filter (fun k => includes (toLowerCase d) k) (suitable cfg))) as Hin
      by (rewrite Hf; left; reflexivity).
    apply filter_In in Hin as [Hin Hk]. exists k. split; [apply list_elem_of_In|]; assumption.
  - intros [k [Hin Hk]].
    assert (In k (List.filter (fun k => includes (toLowerCase d) k) (suitable cfg))) as H
      by (apply filter_In; split; [apply list_elem_of_In|]; assumption).
    destruct (List.filter _ (suitable cfg)); [contradiction | simpl; lia].
Qed.

(** The scoring loop returns the first table entry with the highest
    score, and that score. *)
Lemma scoreTopologies_spec (d : string) :
  exists before cfg after,
    topologies = before ++ (fst (scoreTopologies d), cfg) :: after
    /\ assoc (fst (scoreTopologies d)) topologies = Some cfg
    /\ suitabilityScore d cfg = snd (scoreTopologies d)
    /\ (forall e, e ∈ before -> (suitabilityScore d (snd e) < snd (scoreTopologies d))%nat)
    /\ (forall e, e ∈ after -> (suitabilityScore d (snd e) <= snd (scoreTopologies d))%nat).
Proof.
  unfold scoreTopologies, topologies. cbn [fold_left fst snd].
  set (mesh := {| suitable := ["collaborative"; "research"; "exploration"; "brainstorm"];
                  maxAgents := 6; coordination := "distributed" |}).
  set (hier := {| suitable := ["complex"; "multi-layer"; "structured"; "organized"];
                  maxAgents := 10; coordination := "centralized" |}).
  set (ring := {| suitable := ["sequential"; "pipeline"; "workflow"; "process"];
                  maxAgents := 8; coordination := "circular" |}).
  set (star := {| suitable := ["centralized"; "focused"; "single-goal"; "simple"];
                  maxAgents := 5; coordination := "hub-spoke" |}).
  remember (suitabilityScore d mesh) as a eqn:Ea.
  remember (suitabilityScore d hier) as b eqn:Eb.
  remember (suitabilityScore d ring) as c eqn:Ec.
  remember (suitabilityScore d star) as e eqn:Ee.
  destruct (0 <? a)%nat eqn:Ha; cbn [fst snd];
    destruct (_ <? b)%nat eqn:Hb; cbn [fst snd];
    destruct (_ <? c)%nat eqn:Hc; cbn [fst snd];
    destruct (_ <? e)%nat eqn:He; cbn [fst snd];
    repeat match goal with
           | H : (_ <? _)%nat = true |- _ => apply Nat.ltb_lt in H
           | H : (_ <? _)%nat = false |- _ => apply Nat.ltb_ge in H
           end;
    first
      [ exists [], mesh, [("hierarchical", hier); ("ring", ring); ("star", star)];
        split; [reflexivity|split; [reflexivity|]]
      | exists [("mesh", mesh)], hier, [("ring", ring); ("star", star)];
        split; [reflexivity|split; [reflexivity|]]
      | exists [("mesh", mesh); ("hierarchical", hier)], ring, [("star", star)];
        split; [reflexivity|split; [reflexivity|]]
      | exists [("mesh", mesh); ("hierarchical", hier); ("ring", ring)], star, [];
        split; [reflexivity|split; [reflexivity|]] ];
    (split; [rewrite <- ?Ea, <- ?Eb, <- ?Ec, <- ?Ee; lia|]);
    (split; intros x Hx;
     repeat (apply elem_of_cons in Hx as [-> | Hx];
             [cbn [snd]; rewrite <- ?Ea, <- ?Eb, <- ?Ec, <- ?Ee; lia|]);
     apply elem_of_nil in Hx; contradiction).
Qed.

End TopologyMore.

(** X4: when the description mentions none of [api], [service], [test]
    and [validate], the selected topology is the first entry of the
    topology table with the highest suitability score (so [mesh] when no
    suitability keyword occurs): entries before it score strictly less,
    entries after it score at most as much. *)
Theorem topology_first_maximum (d : string) :
  ~ JS.ci_substring_of "api" d -> ~ JS.ci_substring_of "service" d ->
  ~ JS.ci_substring_of "test" d -> ~ JS.ci_substring_of "validate" d ->
  exists before cfg after,
    PreTask.topologies
    = before ++ (PreTask.type (PreTask.selectTopology d), cfg) :: after
    /\ PreTask.config (PreTask.selectTopology d) = Some cfg
    /\ (forall e, e ∈ before ->
          (PreTask.suitabilityScore d (snd e) < PreTask.suitabilityScore d cfg)%nat)
    /\ (forall e, e ∈ after ->
          (PreTask.suitabilityScore d (snd e) <= PreTask.suitabilityScore d cfg)%nat).
Proof.
  intros Ha Hs Ht Hv.
  apply includes_false_ci in Ha; [|reflexivity].
  apply includes_false_ci in Hs; [|reflexivity].
  apply includes_false_ci in Ht; [|reflexivity].
  apply includes_false_ci in Hv; [|reflexivity].
  destruct (scoreTopologies_spec d)
    as (before & cfg & after & Heq & Hcfg & Hm & Hb & Hafter).
  unfold PreTask.selectTopology.
  destruct (PreTask.scoreTopologies d) as [scored maxScore].
  cbn [fst snd] in *. rewrite Ha, Hs, Ht, Hv. cbn [orb PreTask.type PreTask.config].
  exists before, cfg, after. rewrite Hm.
  split; [exact Heq|]. split; [exact Hcfg|]. split; assumption.
Qed.

Lemma topology_first_maximum_witness :
  exists before cfg after,
    PreTask.topologies
    = before ++ (PreTask.type (PreTask.selectTopology
                                 "An organized, structured data pipeline"), cfg) :: after
    /\ PreTask.config (PreTask.selectTopology "An organized, structured data pipeline")
       = Some cfg
    /\ (forall e, e ∈ before ->
          (PreTask.suitabilityScore "An organized, structured data pipeline" (snd e)
           < PreTask.suitabilityScore "An organized, structured data pipeline" cfg)%nat)
    /\ (forall e, e ∈ after ->
          (PreTask.suitabilityScore "An organized, structured data pipeline" (snd e)
           <= PreTask.suitabilityScore "An organized, structured data pipeline" cfg)%nat).
Proof.
  apply (topology_first_maximum "An organized, structured data pipeline");
    (intros H; apply includes_spec in H; vm_compute in H; discriminate H).
Defined.

(** X5: the selected topology is always an entry of the topology table,
    so its [config] (and [maxAgents]) is defined; the confidence is
    [high] exactly when a suitability keyword of some topology occurs in
    the description in any letter case, and [medium] otherwise, also when
    the type was fixed by [api], [service], [test] or [validate]. *)
Theorem topology_well_formed (d : string) :
  (exists cfg,
     PreTask.config (PreTask.selectTopology d) = Some cfg
     /\ (PreTask.type (PreTask.selectTopology d), cfg) ∈ PreTask.topologies)
  /\ (PreTask.confidence (PreTask.selectTopology d) = "high"
      <-> exists name cfg k,
            (name, cfg) ∈ PreTask.topologies /\ k ∈ PreTask.suitable cfg
            /\ JS.ci_substring_of k d)
  /\ (PreTask.confidence (PreTask.selectTopology d) = "high"
      \/ PreTask.confidence (PreTask.selectTopology d) = "medium").
Proof.
  destruct (scoreTopologies_spec d)
    as (before & cfg & after & Heq & Hcfg & Hm & Hb & Hafter).
  unfold PreTask.selectTopology.
  destruct (PreTask.scoreTopologies d) as [scored maxScore].
  cbn [fst snd] in *.
  assert (forall k name c, (name, c) ∈ PreTask.topologies -> k ∈ PreTask.suitable c ->
                           JS.toLowerCase k = k) as Hlow.
  { intros k name c He Hk. unfold PreTask.topologies in He.
    repeat (apply elem_of_cons in He as [He | He];
            [ injection He as -> ->; cbn [PreTask.suitable] in Hk;
              repeat (apply elem_of_cons in Hk as [-> | Hk]; [reflexivity|]);
              apply elem_of_nil in Hk; contradiction | ]).
    apply elem_of_nil in He. contradiction. }
  split; [|split].
  - destruct (JS.includes (JS.toLowerCase d) "api" || JS.includes (JS.toLowerCase d) "service").
    + eexists. split; [reflexivity|]. unfold PreTask.topologies.
      apply elem_of_cons. right. apply elem_of_cons. left. reflexivity.
    + destruct (JS.includes (JS.toLowerCase d) "test"
                || JS.includes (JS.toLowerCase d) "validate").
      * eexists. split; [reflexivity|]. unfold PreTask.topologies.
        apply elem_of_cons. right. apply elem_of_cons. right.
        apply elem_of_cons. left. reflexivity.
      * exists cfg. cbn [PreTask.config PreTask.type]. split; [exact Hcfg|].
        rewrite Heq. apply elem_of_app. right. apply elem_of_cons. left. reflexivity.
  - cbn [PreTask.confidence]. split.
    + intros Hc. destruct (0 <? maxScore)%nat eqn:Hpos; [|discriminate Hc].
      apply Nat.ltb_lt in Hpos. rewrite <- Hm in Hpos.
      apply suitabilityScore_pos in Hpos as [k [Hk Hi]].
      assert ((scored, cfg) ∈ PreTask.topologies) as Hin.
      { rewrite Heq. apply elem_of_app. right. apply elem_of_cons. left. reflexivity. }
      exists scored, cfg, k. split; [exact Hin|]. split; [exact Hk|].
      apply includes_ci; [eapply Hlow; eassumption | exact Hi].
    + intros (name & c & k & He & Hk & Hi).
      assert (0 < PreTask.suitabilityScore d c)%nat as Hpos.
      { apply suitabilityScore_pos. exists k. split; [exact Hk|].
        apply includes_ci; [eapply Hlow; eassumption | exact Hi]. }
      assert (PreTask.suitabilityScore d c <= maxScore)%nat as Hle.
      { rewrite Heq in He. apply elem_of_app in He as [He | He].
        - specialize (Hb _ He). cbn [snd] in Hb. lia.
        - apply elem_of_cons in He as [He | He].
          + injection He as -> ->. lia.
          + specialize (Hafter _ He). cbn [snd] in Hafter. lia. }
      assert ((0 <? maxScore)%nat = true) as -> by (apply Nat.ltb_lt; lia).
      reflexivity.
  - cbn [PreTask.confidence]. destruct (0 <? maxScore)%nat; auto.
Qed.

(** ** The entry point of the pre-task hook *)

Section ExecuteFacts.
Import JS PreTask.






End ExecuteFacts.



(** ** More on command validation *)

Section SafetyMore.
Import JS PreCommand CommandAnalysis.

Lemma checkDangerous_fold_warnings (command : string) (l : list string) (r : Safety) :
  warnings (fold_left (checkDangerous command) l r)
  = warnings r
    ++ map (String.app "Dangerous command pattern detected: ")
         (List.filter (includes command) l).
Proof.
  revert r. induction l as [|d l IH]; intros r; simpl.
  - rewrite app_nil_r. reflexivity.
  - rewrite IH. unfold checkDangerous.
    destruct (includes command d); simpl; [|reflexivity].
    rewrite <- app_assoc. reflexivity.
Qed.

Lemma existsb_filter_nil {A} (p : A -> bool) (l : list A) :
  existsb p l = false <-> List.filter p l = [].
Proof.
  induction l as [|a l IH]; simpl; [tauto|].
  destruct (p a); simpl; [split; discriminate | exact IH].
Qed.

(** The report after the dangerous-command loop. *)
Lemma dangerous_loop_report (command : string) :
  fold_left (checkDangerous command) dangerousCommands
    {| safe := true; warnings := []; riskLevel := "low" |}
  = {| safe := negb (existsb (includes command) dangerousCommands);
       warnings := map (String.app "Dangerous command pattern detected: ")
                     (List.filter (includes command) dangerousCommands);
       riskLevel := if existsb (includes command) dangerousCommands
                    then "critical" else "low" |}.
Proof.
  pose proof (checkDangerous_fold_safe command dangerousCommands
                {| safe := true; warnings := []; riskLevel := "low" |}) as Hs.
  pose proof (checkDangerous_fold_risk command dangerousCommands
                {| safe := true; warnings := []; riskLevel := "low" |}) as Hr.
  pose proof (checkDangerous_fold_warnings command dangerousCommands
                {| safe := true; warnings := []; riskLevel := "low" |}) as Hw.
  destruct (fold_left _ _ _) as [s w l]. cbn in Hs, Hr, Hw. subst. reflexivity.
Qed.

(** The report is the loop's report passed through five optional steps. *)
Lemma validate_steps (home : option string) (command : string) :
  exists b2 b3 b4 b5 b6 : bool,
    validateCommandSafety home command
    = when b6 (warn "Command accesses system directories" "high")
        (when b5 (warn "Command pipes to script interpreter" "high")
           (when b4 (warnMedium "Command performs network operations")
              (when b3 (warnMedium "Command performs file system operations")
                 (when b2 (warn "Command requires elevated privileges" "high")
                    {| safe := negb (existsb (includes command) dangerousCommands);
                       warnings :=
                         map (String.app "Dangerous command pattern detected: ")
                           (List.filter (includes command) dangerousCommands);
                       riskLevel := if existsb (includes command) dangerousCommands
                                    then "critical" else "low" |})))).
Proof.
  unfold validateCommandSafety. rewrite dangerous_loop_report.
  eexists _, _, _, _, _. reflexivity.
Qed.

(** The warnings are those of the loop followed by later warnings. *)
Lemma validate_warnings (home : option string) (command : string) :
  exists later,
    warnings (validateCommandSafety home command)
    = map (String.app "Dangerous command pattern detected: ")
        (List.filter (includes command) dangerousCommands) ++ later
    /\ later ⊆ laterWarnings.
Proof.
  destruct (validate_steps home command) as (b2 & b3 & b4 & b5 & b6 & ->).
  generalize (map (String.app "Dangerous command pattern detected: ")
                (List.filter (includes command) dangerousCommands)).
  intros ws.
  exists ((if b2 then ["Command requires elevated privileges"] else [])
          ++ (if b3 then ["Command performs file system operations"] else [])
          ++ (if b4 then ["Command performs network operations"] else [])
          ++ (if b5 then ["Command pipes to script interpreter"] else [])
          ++ (if b6 then ["Command accesses system directories"] else [])).
  split.
  - destruct b2, b3, b4, b5, b6; cbn [when warn warnMedium warnings app];
      rewrite <- ?app_assoc, ?app_nil_r; reflexivity.
  - intros x Hx. unfold laterWarnings.
    destruct b2, b3, b4, b5, b6; cbn [app] in Hx;
      repeat (apply elem_of_cons in Hx as [-> | Hx]);
      try (apply elem_of_nil in Hx; contradiction);
      repeat first [ apply elem_of_list_here_eq | apply elem_of_cons; (left; reflexivity) || right ].
Qed.

End SafetyMore.

(** X6: the report of [validateCommandSafety] is consistent. The risk
    level is one of [low], [medium], [high], [critical]; it is [low]
    exactly when there is no warning; [critical] is only reported for a
    command marked unsafe; a dangerous-pattern warning is present for a
    list entry exactly when the command contains that entry; and every
    warning is such a dangerous-pattern warning or one of the five later
    warnings. *)
Theorem safety_report_consistent (home : option string) (command : string) :
  let r := PreCommand.validateCommandSafety home command in
  PreCommand.riskLevel r ∈ ["low"; "medium"; "high"; "critical"]
  /\ (PreCommand.riskLevel r = "low" <-> PreCommand.warnings r = [])
  /\ (PreCommand.riskLevel r = "critical" -> PreCommand.safe r = false)
  /\ (forall d, d ∈ PreCommand.dangerousCommands ->
        JS.substring_of d command
        <-> ("Dangerous command pattern detected: " +:+ d) ∈ PreCommand.warnings r)
  /\ (forall w, w ∈ PreCommand.warnings r ->
        (exists d, d ∈ PreCommand.dangerousCommands /\ JS.substring_of d command
                   /\ w = "Dangerous command pattern detected: " +:+ d)
        \/ w ∈ CommandAnalysis.laterWarnings).
Proof.
  cbv zeta.
  pose proof (validate_warnings home command) as [later [Hw Hlater]].
  assert (forall d, d ∈ List.filter (JS.includes command) PreCommand.dangerousCommands
                    <-> d ∈ PreCommand.dangerousCommands /\ JS.substring_of d command) as Hf.
  { intros d. rewrite !list_elem_of_In, filter_In, includes_spec. reflexivity. }
  split; [|split; [|split; [|split]]].
  - destruct (validate_steps home command) as (b2 & b3 & b4 & b5 & b6 & ->).
    destruct (existsb (JS.includes command) PreCommand.dangerousCommands);
      destruct b2, b3, b4, b5, b6; vm_compute;
      repeat first [ apply elem_of_cons; (left; reflexivity) || right ].
  - destruct (validate_steps home command) as (b2 & b3 & b4 & b5 & b6 & ->).
    destruct (existsb (JS.includes command) PreCommand.dangerousCommands) eqn:He.
    + assert (List.filter (JS.includes command) PreCommand.dangerousCommands <> []) as Hne.
      { intros Hn. apply existsb_filter_nil in Hn. congruence. }
      destruct (List.filter (JS.includes command) PreCommand.dangerousCommands)
        as [|d0 l0]; [contradiction|].
      destruct b2, b3, b4, b5, b6; vm_compute; split; discriminate.
    + apply existsb_filter_nil in He. rewrite He.
      destruct b2, b3, b4, b5, b6; vm_compute; split; congruence.
  - destruct (validate_steps home command) as (b2 & b3 & b4 & b5 & b6 & ->).
    destruct (existsb (JS.includes command) PreCommand.dangerousCommands);
      destruct b2, b3, b4, b5, b6; vm_compute; congruence.
  - intros d Hd. rewrite Hw, elem_of_app, list_elem_of_fmap. split.
    + intros Hs. left. exists d. split; [reflexivity|]. apply Hf. auto.
    + intros [(d' & Heq & Hd') | Hl].
      * apply (inj (String.app _)) in Heq. subst d'. apply Hf in Hd'. tauto.
      * apply Hlater in Hl. unfold CommandAnalysis.laterWarnings in Hl.
        repeat (apply elem_of_cons in Hl as [Hl | Hl]; [discriminate Hl|]).
        apply elem_of_nil in Hl. contradiction.
  - intros w. rewrite Hw, elem_of_app, list_elem_of_fmap.
    intros [(d & -> & Hd) | Hl].
    + left. exists d. apply Hf in Hd. tauto.
    + right. apply Hlater, Hl.
Qed.

(** ** More on the pre-command entry point *)

(** X7: with safety validation switched off while the dependency check or
    the performance prediction stays on, no command continues, and
    nothing is prepared, suggested or logged. Either the dependency check
    is rejected and [execute] returns its error, with [safe] untouched; or
    the result of the other operation lands in the [safety] slot of the
    destructuring: it has no [safe] property, so the command is treated as
    unsafe, and [execute] returns [safe: false] with the [TypeError] of
    spreading the missing warnings. *)
Theorem validation_off_rejects_every_command
    (Performance Resources Optimization : Type)
    (checkCommandDependencies : string -> JS.Completion PreCommand.Dependencies)
    (predictCommandPerformance : string -> Performance)
    (prepareCommandResources : string -> list string -> JS.Completion Resources)
    (suggestCommandOptimizations : string -> option Performance -> list Optimization)
    (home : option string)
    (logCommandIntent :
       string -> PreCommand.Results Performance Resources Optimization
       -> JS.Completion unit)
    (o : PreCommand.Options) :
  PreCommand.command o <> "" ->
  PreCommand.validateSafety o = false ->
  PreCommand.checkDependencies o = true \/ PreCommand.predictPerformance o = true ->
  exists r,
    PreCommand.execute Performance Resources Optimization checkCommandDependencies
      predictCommandPerformance prepareCommandResources suggestCommandOptimizations
      home logCommandIntent o
    = (PreCommand.Checked Performance Resources Optimization r, [])
    /\ PreCommand.continue _ _ _ r = false
    /\ ((exists message,
           PreCommand.checkDependencies o = true
           /\ checkCommandDependencies (PreCommand.command o) = JS.Throw message
           /\ PreCommand.error _ _ _ r = Some message
           /\ PreCommand.res_safe _ _ _ r = true)
        \/ ((PreCommand.checkDependencies o = false
             \/ exists deps,
                  checkCommandDependencies (PreCommand.command o) = JS.Normal deps)
            /\ PreCommand.res_safe _ _ _ r = false
            /\ PreCommand.error _ _ _ r = Some PreCommand.spread_error)).
Proof.
  intros Hc Hv Hother. unfold PreCommand.execute.
  rewrite bool_decide_eq_false_2 by exact Hc.
  unfold PreCommand.operations. rewrite Hv.
  destruct (PreCommand.checkDependencies o) eqn:Hd.
  - destruct (checkCommandDependencies (PreCommand.command o)) as [deps|m] eqn:Hcheck.
    + destruct (PreCommand.predictPerformance o); cbn;
        (eexists; split; [reflexivity|]; split; [reflexivity|]);
        right; (split; [right; exists deps; reflexivity|]); split; reflexivity.
    + destruct (PreCommand.predictPerformance o); cbn;
        (eexists; split; [reflexivity|]; split; [reflexivity|]);
        left; exists m; repeat split.
  - destruct Hother as [Hother | Hp]; [discriminate Hother|].
    rewrite Hp. cbn. eexists. split; [reflexivity|]. split; [reflexivity|].
    right. split; [left; reflexivity|]. split; reflexivity.
Qed.

Lemma validation_off_rejects_every_command_witness :
  exists r,
    PreCommand.execute unit unit unit
      (fun _ => JS.Normal {| PreCommand.available := true; PreCommand.missing := [];
                             PreCommand.requirements := [] |})
      (fun _ => tt) (fun _ _ => JS.Normal tt) (fun _ _ => []) None
      (fun _ _ => JS.Normal tt)
      {| PreCommand.command := "ls -la"; PreCommand.validateSafety := false;
         PreCommand.prepareResources := true; PreCommand.checkDependencies := true;
         PreCommand.suggestOptimizations := true; PreCommand.predictPerformance := true |}
    = (PreCommand.Checked unit unit unit r, [])
    /\ PreCommand.continue _ _ _ r = false
    /\ PreCommand.res_safe _ _ _ r = false
    /\ PreCommand.error _ _ _ r = Some PreCommand.spread_error.
Proof.
  destruct (validation_off_rejects_every_command unit unit unit
              (fun _ => JS.Normal {| PreCommand.available := true;
                                     PreCommand.missing := [];
                                     PreCommand.requirements := [] |})
              (fun _ => tt) (fun _ _ => JS.Normal tt) (fun _ _ => []) None
              (fun _ _ => JS.Normal tt)
              {| PreCommand.command := "ls -la"; PreCommand.validateSafety := false;
                 PreCommand.prepareResources := true;
                 PreCommand.checkDependencies := true;
                 PreCommand.suggestOptimizations := true;
                 PreCommand.predictPerformance := true |})
    as (r & He & Hc & [(m & _ & Hm & _) | (_ & Hs & Herr)]);
    [discriminate | reflexivity | left; reflexivity | discriminate Hm | ].
  exists r. repeat split; assumption.
Defined.



(** ** Performance prediction *)

Section PredictionFacts.
Import JS Text CommandAnalysis.

Lemma no_intensive_iff (command : string) :
  (forall i, i ∈ resourceIntensive -> ~ substring_of i command)
  <-> existsb (includes command) resourceIntensive = false.
Proof.
  split.
  - intros H. destruct (existsb _ _) eqn:He; [|reflexivity].
    apply existsb_exists in He as [i [Hi Hinc]].
    exfalso. apply (H i); [apply list_elem_of_In, Hi | apply includes_spec, Hinc].
  - intros He i Hi Hs.
    assert (existsb (includes command) resourceIntensive = true) as Ht.
    { apply existsb_exists. exists i.
      split; [apply list_elem_of_In, Hi | apply includes_spec, Hs]. }
    congruence.
Qed.

(** The loop over a list of resource-intensive entries, field by field. *)
Lemma checkIntensive_fold (command : string) (l : list string) (p : Prediction) :
  let hit (f : string -> bool) := existsb (fun i => includes command i && f i) l in
  let scan i := includes i "find" || includes i "grep" in
  let fetch i := includes i "install" || includes i "build" in
  fold_left (checkIntensive command) l p
  = {| estimatedDuration :=
         if hit (fun _ => true) then "slow" else estimatedDuration p;
       cpuIntensive := cpuIntensive p || hit scan;
       memoryIntensive := memoryIntensive p;
       diskIntensive := diskIntensive p || hit (fun i => scan i || fetch i);
       networkIntensive := networkIntensive p || hit fetch;
       recommendations := recommendations p |}.
Proof.
  cbv zeta. revert p. induction l as [|i l IH]; intros p; cbn [fold_left existsb].
  - destruct p. cbn. rewrite !orb_false_r. reflexivity.
  - rewrite IH. unfold checkIntensive.
    destruct (includes command i); cbn [andb orb estimatedDuration cpuIntensive
      memoryIntensive diskIntensive networkIntensive recommendations].
    + destruct (existsb (fun i0 => includes command i0 && true) l);
        f_equal; rewrite <- ?orb_assoc; reflexivity.
    + reflexivity.
Qed.

(** The prediction after the loop over the resource-intensive list. *)
Lemma intensive_loop_prediction (command : string) :
  let scan := includes command "find /" || includes command "grep -r /" in
  let inst := includes command "npm install" || includes command "yarn install" in
  let dock := includes command "docker build" in
  let make := includes command "make -j" in
  let comp := includes command "cargo build" || includes command "go build" in
  fold_left (checkIntensive command) resourceIntensive
    {| estimatedDuration := "fast"; cpuIntensive := false; memoryIntensive := false;
       diskIntensive := false; networkIntensive := false; recommendations := [] |}
  = {| estimatedDuration :=
         if scan || inst || dock || make || comp then "slow" else "fast";
       cpuIntensive := scan; memoryIntensive := false;
       diskIntensive := scan || inst || dock || comp;
       networkIntensive := inst || dock || comp; recommendations := [] |}
  /\ existsb (includes command) resourceIntensive
     = scan || inst || dock || make || comp.
Proof.
  cbv zeta. rewrite checkIntensive_fold.
  unfold resourceIntensive. cbn [existsb estimatedDuration cpuIntensive memoryIntensive
    diskIntensive networkIntensive recommendations].
  generalize (includes command "find /") (includes command "grep -r /")
             (includes command "npm install") (includes command "yarn install")
             (includes command "docker build") (includes command "make -j")
             (includes command "cargo build") (includes command "go build").
  intros b1 b2 b3 b4 b5 b6 b7 b8.
  destruct b1, b2, b3, b4, b5, b6, b7, b8; vm_compute; split; reflexivity.
Qed.

Lemma checkIntensive_fold_memory (command : string) (l : list string) (p : Prediction) :
  memoryIntensive (fold_left (checkIntensive command) l p) = memoryIntensive p.
Proof.
  revert p. induction l as [|i l IH]; intros p; cbn [fold_left]; [reflexivity|].
  rewrite IH. unfold checkIntensive. destruct (includes command i); reflexivity.
Qed.

Lemma whenP_memory (b : bool) (f : Prediction -> Prediction) (p : Prediction) :
  (forall q, memoryIntensive (f q) = memoryIntensive q) ->
  memoryIntensive (whenP b f p) = memoryIntensive p.
Proof. intros H. unfold whenP. destruct b; [apply H | reflexivity]. Qed.

Lemma prediction_memory_never (command : string) :
  memoryIntensive (predictCommandPerformance command) = false.
Proof.
  unfold predictCommandPerformance. cbv zeta.
  change (memoryIntensive (estimateDuration ?p)) with (memoryIntensive p).
  rewrite !whenP_memory by (intros; reflexivity).
  apply checkIntensive_fold_memory.
Qed.

End PredictionFacts.

(** X9: the performance prediction never marks a command as memory
    intensive. The duration is [fast] exactly when the command contains no
    entry of the resource-intensive list, does not match
    [find ... -name] and does not contain [grep -r]; a [fast] prediction
    has no flag and no recommendation. The duration is [very slow]
    exactly when the CPU, disk and network flags are all set. *)
Theorem prediction_duration (command : string) :
  let p := CommandAnalysis.predictCommandPerformance command in
  CommandAnalysis.memoryIntensive p = false
  /\ (CommandAnalysis.estimatedDuration p = "fast"
      <-> (forall i, i ∈ CommandAnalysis.resourceIntensive -> ~ JS.substring_of i command)
          /\ CommandAnalysis.findNameRegex_test command = false
          /\ ~ JS.substring_of "grep -r" command)
  /\ (CommandAnalysis.estimatedDuration p = "fast" ->
      CommandAnalysis.recommendations p = []
      /\ CommandAnalysis.cpuIntensive p = false
      /\ CommandAnalysis.diskIntensive p = false
      /\ CommandAnalysis.networkIntensive p = false)
  /\ (CommandAnalysis.estimatedDuration p = "very slow"
      <-> CommandAnalysis.cpuIntensive p = true
          /\ CommandAnalysis.diskIntensive p = true
          /\ CommandAnalysis.networkIntensive p = true)
  /\ CommandAnalysis.estimatedDuration p ∈ ["fast"; "moderate"; "slow"; "very slow"].
Proof.
  cbv zeta. rewrite no_intensive_iff, <- includes_false_spec.
  unfold CommandAnalysis.predictCommandPerformance.
  destruct (intensive_loop_prediction command) as [-> ->].
  generalize (JS.includes command "find /" || JS.includes command "grep -r /").
  generalize (JS.includes command "npm install" || JS.includes command "yarn install").
  generalize (JS.includes command "docker build").
  generalize (JS.includes command "make -j").
  generalize (JS.includes command "cargo build" || JS.includes command "go build").
  generalize (CommandAnalysis.findNameRegex_test command).
  generalize (JS.includes command "grep -r").
  intros g r c m k n s.
  destruct g, r, c, m, k, n, s;
    vm_compute;
    (split; [reflexivity|]);
    (split; [split; [intros H; try discriminate H; repeat split
                    | intros (H1 & H2 & H3); try discriminate; reflexivity]|]);
    (split; [intros H; try discriminate H; repeat split|]);
    (split; [split; [intros H; try discriminate H; repeat split
                    | intros (H1 & H2 & H3); try discriminate; reflexivity]|]);
    repeat (apply elem_of_cons; first [left; reflexivity | right]).
Qed.

(** ** Optimization suggestions and dependencies *)

Section SuggestionFacts.
Import JS Text CommandAnalysis.

Lemma identifyFrom_sublist (deps : list string) (commands : list string) :
  sublist (identifyFrom deps commands) commands.
Proof.
  revert deps. induction commands as [|cmd rest IH]; intros deps; cbn [identifyFrom].
  - constructor.
  - destruct (negb (includes cmd ">") || negb (existsb (includes cmd) deps)); cbn [app].
    + constructor. apply IH.
    + constructor. apply IH.
Qed.

Lemma identifyFrom_keeps_plain (deps : list string) (commands : list string) (c : string) :
  c ∈ commands -> includes c ">" = false -> c ∈ identifyFrom deps commands.
Proof.
  revert deps. induction commands as [|cmd rest IH]; intros deps Hin Hc;
    cbn [identifyFrom].
  - apply elem_of_nil in Hin. contradiction.
  - apply elem_of_cons in Hin as [<- | Hin].
    + rewrite Hc. cbn [negb orb app]. apply elem_of_cons. left. reflexivity.
    + apply elem_of_app. right. apply IH; assumption.
Qed.

Lemma identifyFrom_all_plain (deps : list string) (commands : list string) :
  Forall (fun c => includes c ">" = false) commands ->
  identifyFrom deps commands = commands.
Proof.
  intros H. revert deps. induction H as [|cmd rest Hc Hrest IH]; intros deps;
    cbn [identifyFrom]; [reflexivity|].
  rewrite Hc. cbn [negb orb app]. rewrite IH. reflexivity.
Qed.

Lemma takeToken_no_space (s : string) :
  trimStart (takeToken s) = takeToken s /\ takeToken (takeToken s) = takeToken s
  /\ forall rest, strip_prefix "sudo" (takeToken s) = Some rest -> trimStart rest = rest.
Proof.
  assert (forall t, takeToken (takeToken t) = takeToken t) as Hidem.
  { induction t as [|c t IH]; cbn [takeToken]; [reflexivity|].
    destruct (Ascii.is_space c) eqn:Hc; [reflexivity|].
    cbn [takeToken]. rewrite Hc, IH. reflexivity. }
  assert (forall t, takeToken t = t -> trimStart t = t) as Htrim.
  { intros [|c t]; cbn [takeToken trimStart]; [reflexivity|].
    destruct (Ascii.is_space c); [discriminate | reflexivity]. }
  assert (forall t p rest, takeToken t = t -> strip_prefix p t = Some rest ->
                           takeToken rest = rest) as Hstrip.
  { intros t p. revert t. induction p as [|a p IH]; intros t rest Ht Hs.
    - cbn in Hs. injection Hs as <-. exact Ht.
    - destruct t as [|b t]; [discriminate Hs|]. cbn [strip_prefix] in Hs.
      destruct (bool_decide (a = b)); [|discriminate Hs].
      cbn [takeToken] in Ht. destruct (Ascii.is_space b); [discriminate Ht|].
      injection Ht as Ht. exact (IH t rest Ht Hs). }
  split; [apply Htrim, Hidem|]. split; [apply Hidem|].
  intros rest Hs. apply Htrim. exact (Hstrip _ _ _ (Hidem s) Hs).
Qed.

End SuggestionFacts.

(** X10: [identifyParallelizable] returns a sublist of the commands in
    their order; it keeps every command without a redirection [>], and
    the first command in any case; when no command redirects, all
    commands are returned. *)
Theorem parallelizable_sublist (commands : list string) :
  sublist (CommandAnalysis.identifyParallelizable commands) commands
  /\ (forall c, c ∈ commands -> JS.includes c ">" = false ->
                c ∈ CommandAnalysis.identifyParallelizable commands)
  /\ (forall c rest, commands = c :: rest ->
        exists rest', CommandAnalysis.identifyParallelizable commands = c :: rest')
  /\ (Forall (fun c => JS.includes c ">" = false) commands ->
      CommandAnalysis.identifyParallelizable commands = commands).
Proof.
  unfold CommandAnalysis.identifyParallelizable.
  split; [apply identifyFrom_sublist|].
  split; [intros c; apply identifyFrom_keeps_plain|].
  split; [|apply identifyFrom_all_plain].
  intros c rest ->. cbn [CommandAnalysis.identifyFrom existsb].
  rewrite orb_true_r. eexists. reflexivity.
Qed.

(** X11: the command looked up by the dependency check is the first
    white-space delimited token of the command line; the removal of a
    leading [sudo] never applies to it, so for a command run under [sudo]
    the check looks up [sudo] itself, and reports it as missing when it is
    not found. *)
Theorem primary_command_is_first_token (sh : CommandAnalysis.Shell) (command rest : string) :
  CommandAnalysis.primaryCommand command = Text.takeToken command
  /\ CommandAnalysis.primaryCommand ("sudo " +:+ rest) = "sudo"
  /\ PreCommand.available (CommandAnalysis.checkCommandDependencies sh ("sudo " +:+ rest))
     = CommandAnalysis.which_found sh "sudo".
Proof.
  assert (forall c, CommandAnalysis.primaryCommand c = Text.takeToken c) as H.
  { intros c. unfold CommandAnalysis.primaryCommand, CommandAnalysis.stripSudo.
    destruct (takeToken_no_space c) as (_ & _ & Hs).
    destruct (JS.strip_prefix "sudo" (Text.takeToken c)) as [r|] eqn:Hr; [|reflexivity].
    rewrite (Hs r eq_refl). rewrite bool_decide_eq_true_2 by reflexivity. reflexivity. }
  split; [apply H|].
  assert (CommandAnalysis.primaryCommand ("sudo " +:+ rest) = "sudo") as Hsudo.
  { rewrite H. reflexivity. }
  split; [exact Hsudo|].
  unfold CommandAnalysis.checkCommandDependencies. cbn [PreCommand.available].
  rewrite Hsudo. reflexivity.
Qed.

(** X12: for the prediction of the same command, every recommendation of
    the prediction is passed on as a [performance] suggestion, the
    memory suggestion is never made, and a command without [&&] gets no
    [parallel] suggestion. *)
Theorem suggestions_from_prediction (command : string) :
  let suggestions :=
    CommandAnalysis.suggestCommandOptimizations command
      (Some (CommandAnalysis.predictCommandPerformance command)) in
  (forall rec, rec ∈ CommandAnalysis.recommendations
                       (CommandAnalysis.predictCommandPerformance command)
               <-> CommandAnalysis.Hint rec ∈ suggestions)
  /\ (forall impact,
        CommandAnalysis.Resource "Monitor memory usage and consider using ulimit" impact
        ∉ suggestions)
  /\ (~ JS.substring_of "&&" command ->
      forall commands, CommandAnalysis.Parallel commands ∉ suggestions).
Proof.
  cbv zeta. unfold CommandAnalysis.suggestCommandOptimizations.
  rewrite prediction_memory_never.
  set (recs := CommandAnalysis.recommendations _).
  set (parallel := if JS.includes command "&&" then _ else _).
  set (alts := List.filter _ CommandAnalysis.alternatives).
  assert (forall x, x ∈ parallel -> exists cs, x = CommandAnalysis.Parallel cs) as Hpar.
  { intros x Hx. subst parallel.
    destruct (JS.includes command "&&"); [|apply elem_of_nil in Hx; contradiction].
    destruct (1 <? _)%nat; [|apply elem_of_nil in Hx; contradiction].
    apply elem_of_cons in Hx as [-> | Hx]; [eauto|].
    apply elem_of_nil in Hx. contradiction. }
  assert (forall x, x ∈ map (fun e => CommandAnalysis.Alternative (fst e) (snd e)) alts ->
                    exists p sg, x = CommandAnalysis.Alternative p sg) as Halt.
  { intros x Hx. apply list_elem_of_fmap in Hx as (e & -> & _). eauto. }
  assert (forall x, x ∈ (if CommandAnalysis.cpuIntensive
                              (CommandAnalysis.predictCommandPerformance command)
                         then [CommandAnalysis.Resource
                                 "Consider limiting CPU usage with nice or cpulimit"
                                 "Prevents system slowdown during execution"]
                         else []) ->
                    x = CommandAnalysis.Resource
                          "Consider limiting CPU usage with nice or cpulimit"
                          "Prevents system slowdown during execution") as Hcpu.
  { intros x Hx. destruct (CommandAnalysis.cpuIntensive _);
      [apply elem_of_cons in Hx as [Hx | Hx]; [exact Hx|]|];
      apply elem_of_nil in Hx; contradiction. }
  split; [|split].
  - intros rec. rewrite !elem_of_app. split.
    + intros Hr. right. right. right. right. apply list_elem_of_fmap. eauto.
    + intros [Hx | [Hx | [Hx | [Hx | Hx]]]].
      * apply Hpar in Hx as [cs Hx]. discriminate Hx.
      * apply Halt in Hx as (p & sg & Hx). discriminate Hx.
      * apply Hcpu in Hx. discriminate Hx.
      * apply elem_of_nil in Hx. contradiction.
      * apply list_elem_of_fmap in Hx as (r & Hr & Hin). injection Hr as ->. exact Hin.
  - intros impact. rewrite !elem_of_app. intros [Hx | [Hx | [Hx | [Hx | Hx]]]].
    + apply Hpar in Hx as [cs Hx]. discriminate Hx.
    + apply Halt in Hx as (p & sg & Hx). discriminate Hx.
    + apply Hcpu in Hx. discriminate Hx.
    + apply elem_of_nil in Hx. contradiction.
    + apply list_elem_of_fmap in Hx as (r & Hr & _). discriminate Hr.
  - intros Hno commands. apply includes_false_spec in Hno.
    subst parallel. rewrite Hno. rewrite !elem_of_app.
    intros [Hx | [Hx | [Hx | [Hx | Hx]]]].
    + apply elem_of_nil in Hx. contradiction.
    + apply Halt in Hx as (p & sg & Hx). discriminate Hx.
    + apply Hcpu in Hx. discriminate Hx.
    + apply elem_of_nil in Hx. contradiction.
    + apply list_elem_of_fmap in Hx as (r & Hr & _). discriminate Hr.
Qed.

Lemma suggestions_from_prediction_witness :
  ~ JS.substring_of "&&" "npm install express"
  /\ forall commands,
       CommandAnalysis.Parallel commands
       ∉ CommandAnalysis.suggestCommandOptimizations "npm install express"
           (Some (CommandAnalysis.predictCommandPerformance "npm install express")).
Proof.
  assert (~ JS.substring_of "&&" "npm install express") as Hno.
  { intros Hs. apply includes_spec in Hs. vm_compute in Hs. discriminate Hs. }
  split; [exact Hno|].
  destruct (suggestions_from_prediction "npm install express") as (_ & _ & H).
  apply H. exact Hno.
Defined.

(** ** Command lines *)

Section CommandLineFacts.
Import JS CommandLine.

Lemma parseTaskArgs_switches (args : list string) (o : TaskArgs) :
  let ok (v : option bool) := v <> Some false in
  ok (arg_loadMemory o) -> ok (arg_optimizeTopology o) -> ok (arg_estimateComplexity o) ->
  ok (arg_useGithubIntegration o) -> ok (arg_parallelExecution o) ->
  ok (arg_loadMemory (parseTaskArgs o args))
  /\ ok (arg_optimizeTopology (parseTaskArgs o args))
  /\ ok (arg_estimateComplexity (parseTaskArgs o args))
  /\ ok (arg_useGithubIntegration (parseTaskArgs o args))
  /\ ok (arg_parallelExecution (parseTaskArgs o args)).
Proof.
  cbv zeta. remember (length args) as n eqn:Hn.
  assert (Hlen : length args <= n) by lia. clear Hn.
  revert args o Hlen.
  induction n as [|n IH]; intros [|a rest] o Hlen H1 H2 H3 H4 H5;
    cbn [parseTaskArgs]; try tauto; cbn [length] in Hlen; try lia.
  destruct (bool_decide (a = "--description") || bool_decide (a = "-d")).
  { destruct rest as [|v rest']; [cbn; tauto|].
    cbn [length] in Hlen. apply IH; [lia | assumption ..]. }
  destruct (bool_decide (a = "--auto-spawn-agents")).
  { destruct rest as [|v rest']; [cbn; tauto|].
    cbn [length] in Hlen. apply IH; [lia | assumption ..]. }
  unfold setTaskSwitch.
  destruct (bool_decide (a = "--load-memory"));
    [apply IH; [lia | cbn; auto; discriminate ..]|].
  destruct (bool_decide (a = "--optimize-topology"));
    [apply IH; [lia | cbn; auto; discriminate ..]|].
  destruct (bool_decide (a = "--estimate-complexity"));
    [apply IH; [lia | cbn; auto; discriminate ..]|].
  destruct (bool_decide (a = "--github-integration"));
    [apply IH; [lia | cbn; auto; discriminate ..]|].
  destruct (bool_decide (a = "--parallel"));
    [apply IH; [lia | cbn; auto; discriminate ..]|].
  apply IH; [lia | assumption ..].
Qed.

Lemma removeDashes_no_dash (s : string) : includes (removeDashes s) "-" = false.
Proof.
  unfold removeDashes. induction s as [|c s IH]; [reflexivity|]. cbn [replaceAll].
  destruct (bool_decide (c = "-"%char)) eqn:Hc; [rewrite app_empty_l; exact IH|].
  cbn [includes startsWith]. rewrite IH.
  rewrite bool_decide_eq_false_2; [reflexivity|].
  apply bool_decide_eq_false in Hc. congruence.
Qed.

End CommandLineFacts.

(** X13: the pre-command command line round-trips: parsing the line that
    spells out every option of an options object gives that object back;
    the command text is taken as it is, even when it looks like an
    option. *)
Theorem command_line_round_trip (o : PreCommand.Options) :
  CommandLine.commandOptions
    (CommandLine.parseCommandArgs CommandLine.noCommandArgs (CommandLine.commandLine o))
  = o.
Proof.
  destruct o as [c v p d s f]. unfold CommandLine.commandLine.
  cbn [PreCommand.command PreCommand.validateSafety PreCommand.prepareResources
       PreCommand.checkDependencies PreCommand.suggestOptimizations
       PreCommand.predictPerformance].
  destruct v, p, d, s, f; reflexivity.
Qed.

(** X14: the command-line block of the pre-command hook runs only when
    the guard [import.meta.url === `file://${process.argv[1]}`] holds;
    otherwise it sets no exit status at all.  When it runs, whatever the
    arguments and the environment, the status is 0 or 1, and it is 0 only
    for a non-empty command that either passed safety validation without
    containing a dangerous entry, or ran with validation, dependency
    check and performance prediction all switched off. *)
Theorem exit_zero_only_if_validated
    (Performance Resources Optimization : Type)
    (checkCommandDependencies : string -> JS.Completion PreCommand.Dependencies)
    (predictCommandPerformance : string -> Performance)
    (prepareCommandResources : string -> list string -> JS.Completion Resources)
    (suggestCommandOptimizations : string -> option Performance -> list Optimization)
    (home : option string)
    (logCommandIntent :
       string -> PreCommand.Results Performance Resources Optimization
       -> JS.Completion unit)
    (importMetaUrl argv1 : string) (args : list string) :
  let o := CommandLine.commandOptions
             (CommandLine.parseCommandArgs CommandLine.noCommandArgs args) in
  let status :=
    CommandLine.commandLineBlock Performance Resources Optimization
      checkCommandDependencies predictCommandPerformance prepareCommandResources
      suggestCommandOptimizations home logCommandIntent importMetaUrl argv1 args in
  (status = None <-> importMetaUrl <> "file://" +:+ argv1)
  /\ (forall n, status = Some n -> n = 0%nat \/ n = 1%nat)
  /\ (status = Some 0%nat ->
      PreCommand.command o <> ""
      /\ ((PreCommand.validateSafety o = true
           /\ forall d, d ∈ PreCommand.dangerousCommands ->
                        ~ JS.substring_of d (PreCommand.command o))
          \/ (PreCommand.validateSafety o = false
              /\ PreCommand.checkDependencies o = false
              /\ PreCommand.predictPerformance o = false))).
Proof.
  cbv zeta. unfold CommandLine.commandLineBlock, CommandLine.isMain.
  generalize (CommandLine.commandOptions
                (CommandLine.parseCommandArgs CommandLine.noCommandArgs args)).
  intros o.
  destruct (decide (importMetaUrl = "file://" +:+ argv1)) as [Hmain | Hmain].
  2: { rewrite bool_decide_eq_false_2 by exact Hmain.
       split; [split; [intros _; exact Hmain | reflexivity]|].
       split; [intros n Hn; discriminate Hn | intros Hn; discriminate Hn]. }
  rewrite bool_decide_eq_true_2 by exact Hmain.
  split; [split; [intros Hn; discriminate Hn | intros Hn; contradiction]|].
  split.
  { intros n Hn. injection Hn as <-. unfold CommandLine.exitCode.
    destruct (fst _) as [|r]; [right; reflexivity|].
    destruct (PreCommand.continue _ _ _ r); [left | right]; reflexivity. }
  intros Hexit. injection Hexit as Hexit.
  destruct (decide (PreCommand.command o = "")) as [He | Hne].
  { unfold PreCommand.execute in Hexit. rewrite bool_decide_eq_true_2 in Hexit by exact He.
    discriminate Hexit. }
  split; [exact Hne|].
  destruct (PreCommand.validateSafety o) eqn:Hv.
  - left. split; [reflexivity|]. intros d Hd Hs.
    destruct (dangerous_command_blocked Performance Resources Optimization
                checkCommandDependencies predictCommandPerformance
                prepareCommandResources suggestCommandOptimizations home
                logCommandIntent o d Hv Hd Hs)
      as (r & Hr & Hc & _).
    rewrite Hr in Hexit. cbn in Hexit. rewrite Hc in Hexit. discriminate Hexit.
  - right. split; [reflexivity|].
    unfold PreCommand.execute in Hexit.
    rewrite bool_decide_eq_false_2 in Hexit by exact Hne.
    unfold PreCommand.operations in Hexit. rewrite Hv in Hexit.
    destruct (PreCommand.checkDependencies o);
      [destruct (checkCommandDependencies (PreCommand.command o));
       destruct (PreCommand.predictPerformance o);
       cbn in Hexit; discriminate Hexit|].
    destruct (PreCommand.predictPerformance o); [cbn in Hexit; discriminate Hexit|].
    split; reflexivity.
Qed.

Lemma exit_zero_only_if_validated_witness :
  let run :=
    CommandLine.commandLineBlock unit unit unit
      (fun _ => JS.Normal {| PreCommand.available := true; PreCommand.missing := [];
                             PreCommand.requirements := [] |})
      (fun _ => tt) (fun _ _ => JS.Normal tt) (fun _ _ => []) None
      (fun _ _ => JS.Normal tt) in
  run "file:///hooks/pre-command.js" "/hooks/pre-command.js" ["-c"; "ls -la"]
  = Some 0%nat
  /\ run "file:///hooks/index.js" "/hooks/pre-command.js" ["-c"; "ls -la"] = None
  /\ run "file:///hooks/pre-command.js" "/hooks/pre-command.js" ["-c"; "rm -rf /"]
     = Some 1%nat
  /\ (PreCommand.validateSafety
        (CommandLine.commandOptions
           (CommandLine.parseCommandArgs CommandLine.noCommandArgs ["-c"; "ls -la"]))
      = true
      \/ PreCommand.validateSafety
           (CommandLine.commandOptions
              (CommandLine.parseCommandArgs CommandLine.noCommandArgs ["-c"; "ls -la"]))
         = false).
Proof.
  cbv zeta.
  split; [vm_compute; reflexivity|].
  split; [vm_compute; reflexivity|].
  split; [vm_compute; reflexivity|].
  destruct (exit_zero_only_if_validated unit unit unit
              (fun _ => JS.Normal {| PreCommand.available := true;
                                     PreCommand.missing := [];
                                     PreCommand.requirements := [] |})
              (fun _ => tt) (fun _ _ => JS.Normal tt) (fun _ _ => []) None
              (fun _ _ => JS.Normal tt)
              "file:///hooks/pre-command.js" "/hooks/pre-command.js" ["-c"; "ls -la"])
    as (_ & _ & Hzero).
  destruct (Hzero ltac:(vm_compute; reflexivity)) as (_ & [[Hv _] | [Hv _]]).
  - left. exact Hv.
  - right. exact Hv.
Defined.

(** X15: the pre-task command line can only switch its five switches on:
    whatever the arguments, [loadMemory], [optimizeTopology],
    [estimateComplexity], [useGithubIntegration] and [parallelExecution]
    are never set to [false], so a hook started from the command line
    always estimates the complexity, loads memory and selects a
    topology. *)
Theorem task_switches_never_off (args : list string) :
  let o := CommandLine.parseTaskArgs CommandLine.noTaskArgs args in
  CommandLine.arg_loadMemory o <> Some false
  /\ CommandLine.arg_optimizeTopology o <> Some false
  /\ CommandLine.arg_estimateComplexity o <> Some false
  /\ CommandLine.arg_useGithubIntegration o <> Some false
  /\ CommandLine.arg_parallelExecution o <> Some false.
Proof. apply parseTaskArgs_switches; discriminate. Qed.

(** X16: every option the hook manager's command line produces has a key
    without [-], and a value that is [true] or a non-empty argument that
    does not start with [--]. *)
Theorem hook_option_keys_have_no_dash (args : list string) (key : string)
    (value : CommandLine.ArgValue) :
  CommandLine.parseHookArgs ∅ args !! key = Some value ->
  ~ JS.substring_of "-" key
  /\ (value = CommandLine.Present
      \/ exists v, value = CommandLine.Given v /\ v <> ""
                   /\ JS.startsWith v "--" = false).
Proof.
  assert (forall args (options : gmap string CommandLine.ArgValue),
            (forall k x, options !! k = Some x ->
               ~ JS.substring_of "-" k
               /\ (x = CommandLine.Present
                   \/ exists v, x = CommandLine.Given v /\ v <> ""
                                /\ JS.startsWith v "--" = false)) ->
            forall k x, CommandLine.parseHookArgs options args !! k = Some x ->
               ~ JS.substring_of "-" k
               /\ (x = CommandLine.Present
                   \/ exists v, x = CommandLine.Given v /\ v <> ""
                                /\ JS.startsWith v "--" = false)) as H.
  { clear. intros args. remember (length args) as n eqn:Hn.
    assert (Hlen : length args <= n) by lia. clear Hn. revert args Hlen.
    induction n as [|n IH]; intros [|a rest] Hlen options Hinv;
      cbn [CommandLine.parseHookArgs]; try exact Hinv; cbn [length] in Hlen; try lia.
    assert (forall val,
              (val = CommandLine.Present
               \/ exists v, val = CommandLine.Given v /\ v <> ""
                            /\ JS.startsWith v "--" = false) ->
              forall k x,
                CommandLine.setOption (CommandLine.removeDashes (CommandLine.dropTwo a))
                  val options !! k = Some x ->
                ~ JS.substring_of "-" k
                /\ (x = CommandLine.Present
                    \/ exists v, x = CommandLine.Given v /\ v <> ""
                                 /\ JS.startsWith v "--" = false)) as Hset.
    { intros val Hval k' x'. unfold CommandLine.setOption.
      destruct (bool_decide _); [apply Hinv|].
      destruct (decide (CommandLine.removeDashes (CommandLine.dropTwo a) = k')) as [<- | Hne].
      - rewrite lookup_insert_eq. intros [= <-]. split; [|exact Hval].
        apply includes_false_spec. apply removeDashes_no_dash.
      - rewrite lookup_insert_ne by exact Hne. apply Hinv. }
    destruct (JS.startsWith a "--"); [|apply IH; [lia | exact Hinv]].
    destruct rest as [|v rest'].
    - apply Hset. left. reflexivity.
    - cbn [length] in Hlen.
      destruct (negb (bool_decide (v = "")) && negb (JS.startsWith v "--")) eqn:Hv.
      + apply IH; [lia|]. apply Hset. right. exists v.
        apply andb_true_iff in Hv as [Hv1 Hv2].
        apply negb_true_iff in Hv1, Hv2. apply bool_decide_eq_false in Hv1. auto.
      + apply IH; [cbn [length]; lia|]. apply Hset. left. reflexivity. }
  apply H. intros k x Hk. rewrite lookup_empty in Hk. discriminate Hk.
Qed.

Lemma hook_option_keys_have_no_dash_witness :
  ~ JS.substring_of "-" "generatereport"
  /\ (CommandLine.Present = CommandLine.Present
      \/ exists v, CommandLine.Present = CommandLine.Given v /\ v <> ""
                   /\ JS.startsWith v "--" = false).
Proof.
  apply (hook_option_keys_have_no_dash ["--generate-report"; "--format"; "json"]
           "generatereport" CommandLine.Present).
  vm_compute. reflexivity.
Defined.

(** ** The required tools as a sorted set *)

Section ResolverOrder.
Import ToolMappings.

Variable PT : gmap string PatternTools.
Variable CT : gmap Z (list string).
Variable AT : gmap string (list string).



End ResolverOrder.

(** X17: the resolved tool list is sorted in ascending order and holds no
    tool twice, whatever the tables and the arguments. *)
Theorem resolved_tools_sorted_without_duplicates
    (PT : gmap string ToolMappings.PatternTools)
    (CT : gmap Z (list string)) (AT : gmap string (list string))
    (patterns : list ToolMappings.Pattern) (complexity : Z)
    (agent_roles : list string) :
  let tools :=
    ToolMappings.get_enhanced_required_tools PT CT AT patterns complexity agent_roles in
  StronglySorted String.le tools /\ NoDup tools.
Proof.
  cbv zeta. unfold ToolMappings.get_enhanced_required_tools. split.
  - apply Sorted_StronglySorted; [apply _|]. apply Sorted_merge_sort. apply _.
  - rewrite merge_sort_Permutation. apply NoDup_elements.
Qed.





(** ** Prompt triggers *)

Section TriggerFacts.
Import JS ToolTriggers.

Lemma any_trigger_spec (triggers : list string) (prompt : string) :
  any_trigger triggers (toLowerCase prompt) = true
  <-> exists t, t ∈ triggers /\ ci_substring_of t prompt.
Proof.
  induction triggers as [|t ts IH]; cbn [any_trigger].
  - split; [discriminate|]. intros (t & Ht & _). apply elem_of_nil in Ht. contradiction.
  - destruct (includes (toLowerCase prompt) (toLowerCase t)) eqn:Hi.
    + split; [intros _|reflexivity]. exists t. split; [apply elem_of_cons; auto|].
      apply includes_spec in Hi. exact Hi.
    + rewrite IH. split.
      * intros (u & Hu & Hc). exists u. split; [apply elem_of_cons; auto | exact Hc].
      * intros (u & Hu & Hc). apply elem_of_cons in Hu as [-> | Hu].
        -- apply includes_spec in Hc. unfold ci_substring_of in Hc.
           congruence.
        -- exists u. auto.
Qed.

End TriggerFacts.

(** X20: [should_use_context7] and [should_use_exa] answer [True] exactly
    when one of their triggers occurs in the prompt, letter case ignored
    and also inside a longer word; so a prompt that occurs in another one
    (again up to letter case) passes its answer [True] on to it. *)
Theorem triggers_fire_on_occurrence (prompt : string) :
  (ToolTriggers.should_use_context7 prompt = true
   <-> exists t, t ∈ ToolTriggers.CONTEXT7_TRIGGERS /\ JS.ci_substring_of t prompt)
  /\ (ToolTriggers.should_use_exa prompt = true
      <-> exists t, t ∈ ToolTriggers.EXA_TRIGGERS /\ JS.ci_substring_of t prompt)
  /\ (forall longer, JS.ci_substring_of prompt longer ->
        (ToolTriggers.should_use_context7 prompt = true ->
         ToolTriggers.should_use_context7 longer = true)
        /\ (ToolTriggers.should_use_exa prompt = true ->
            ToolTriggers.should_use_exa longer = true)).
Proof.
  unfold ToolTriggers.should_use_context7, ToolTriggers.should_use_exa. cbv zeta.
  split; [apply any_trigger_spec|]. split; [apply any_trigger_spec|].
  intros longer Hl. rewrite !any_trigger_spec.
  split; intros (t & Ht & Hc); exists t; (split; [exact Ht|]);
    unfold JS.ci_substring_of in *; eapply substring_of_trans; eassumption.
Qed.

(** ** Registration, parallel runs and sequences of hooks *)

Section HookRunFacts.
Import JS HookManager HookRuns.

Context {Options Result : Type}.
Variable success : Result -> bool.
Variable withPreviousResult : Options -> Outcome Result -> Options.
Variable hasOwnHook : Result -> bool.
Variable awaitHook : string -> Options -> Completion (Outcome Result).

Lemma assoc_assign {A} (name k : string) (v : A) (own : list (string * A)) :
  assoc k (assign name v own) = if bool_decide (k = name) then Some v else assoc k own.
Proof.
  induction own as [|[k' a] own IH]; cbn [assign assoc].
  - destruct (decide (k = name)) as [-> | Hne].
    + rewrite !bool_decide_eq_true_2 by reflexivity. reflexivity.
    + rewrite !bool_decide_eq_false_2 by congruence. reflexivity.
  - destruct (decide (k' = name)) as [-> | Hne].
    + rewrite (bool_decide_eq_true_2 (name = name)) by reflexivity. cbn [assoc].
      destruct (decide (k = name)) as [-> | Hk].
      * rewrite !bool_decide_eq_true_2 by reflexivity. reflexivity.
      * rewrite !bool_decide_eq_false_2 by congruence. reflexivity.
    + rewrite (bool_decide_eq_false_2 (k' = name)) by exact Hne. cbn [assoc].
      rewrite IH. destruct (decide (k' = k)) as [-> | Hk].
      * rewrite (bool_decide_eq_true_2 (k = k)) by reflexivity.
        rewrite bool_decide_eq_false_2 by exact Hne. reflexivity.
      * rewrite (bool_decide_eq_false_2 (k' = k)) by exact Hk. reflexivity.
Qed.

Lemma tally_fold (settled : list (Config Options * Outcome Result)) (s : Summary Result) :
  let s' := fold_left (tally Options Result success) settled s in
  total s' = total s
  /\ successful s'
     = (successful s + length (filter (fun p => succeeded success (snd p) = true) settled))%nat
  /\ (successful s' + failed s' = successful s + failed s + length settled)%nat
  /\ exists added,
       results s' = results s ++ added
       /\ Forall2 (fun p entry =>
            match entry with
            | Succeeded h data =>
                h = hook (fst p) /\ data = snd p /\ succeeded success (snd p) = true
            | Failed h err =>
                h = hook (fst p) /\ succeeded success (snd p) = false
                /\ forall m, snd p = Failure m -> err = Message m
            end) settled added.
Proof.
  cbv zeta. revert s. induction settled as [|[c o] rest IH]; intros s; cbn [fold_left].
  - cbn. repeat split; try lia. exists []. rewrite app_nil_r. split; [reflexivity|].
    constructor.
  - destruct (IH (tally Options Result success s (c, o)))
      as (Ht & Hs & Hsum & added & Hr & Hall).
    clear IH. rewrite filter_cons. cbn [snd length].
    remember (fold_left (tally Options Result success) rest
                (tally Options Result success s (c, o))) as s' eqn:Es'.
    clear Es'. unfold tally in Ht, Hs, Hsum, Hr.
    destruct (succeeded success o) eqn:Ho;
      cbn [total successful failed results] in Ht, Hs, Hsum, Hr.
    + rewrite decide_True by reflexivity. cbn [length].
      split; [exact Ht|]. split; [lia|]. split; [lia|].
      eexists. rewrite Hr, <- app_assoc. split; [reflexivity|].
      constructor; [|exact Hall]. cbn. auto.
    + rewrite decide_False by discriminate.
      split; [exact Ht|]. split; [lia|]. split; [lia|].
      eexists. rewrite Hr, <- app_assoc. split; [reflexivity|].
      constructor; [|exact Hall]. cbn. repeat split; try assumption.
      intros m ->. reflexivity.
Qed.

(** The loop of [executeSequence] from any position on, for step objects
    whose hook names and [stopOnError] flags are those of [objects0]. *)
Lemma runSteps_spec (objects0 : Objects Options) (sequence todo : list nat) :
  forall (objects : Objects Options) (results : list (SequenceEntry Result)),
  (forall ref, hook (config (objects ref)) = hook (config (objects0 ref))
               /\ stopOnError (objects ref) = stopOnError (objects0 ref)) ->
  match runSteps success withPreviousResult hasOwnHook awaitHook sequence todo
          objects results with
  | Normal final =>
      exists added,
        final = results ++ added
        /\ Forall2 (fun ref entry =>
             entry = sequenceEntry hasOwnHook (hook (config (objects0 ref)))
                       (settled entry)
             /\ exists options,
                  awaitHook (hook (config (objects0 ref))) options
                  = Normal (settled entry))
             (take (length added) todo) added
        /\ (length added <= length todo)%nat
        /\ (todo <> [] -> added <> [])
        /\ ((length added < length todo)%nat ->
            exists init entry ref,
              added = init ++ [entry] /\ todo !! length init = Some ref
              /\ stopOnError (objects0 ref) = true
              /\ succeeded success (settled entry) = false)
        /\ (forall i entry ref,
              added !! i = Some entry -> (S i < length added)%nat ->
              todo !! i = Some ref -> stopOnError (objects0 ref) = true ->
              succeeded success (settled entry) = true)
  | Throw message =>
      exists i ref options,
        todo !! i = Some ref
        /\ awaitHook (hook (config (objects0 ref))) options = Throw message
  end.
Proof.
  induction todo as [|ref todo IH]; intros objects results Hshape; cbn [runSteps].
  - exists []. rewrite app_nil_r. cbn.
    split; [reflexivity|]. split; [constructor|]. split; [lia|].
    split; [congruence|]. split; [lia|]. intros i entry ref Hi. discriminate Hi.
  - cbv zeta.
    set (step := objects ref).
    destruct (Hshape ref) as [Hh Hs]. fold step in Hh, Hs.
    destruct (awaitHook (hook (config step)) (options (config step)))
      as [result | message] eqn:Hawait.
    2: { exists 0%nat, ref, (options (config step)). rewrite <- Hh.
         split; [reflexivity | exact Hawait]. }
    assert (Hentry :
      sequenceEntry hasOwnHook (hook (config step)) result
      = sequenceEntry hasOwnHook (hook (config (objects0 ref)))
          (settled (sequenceEntry hasOwnHook (hook (config step)) result))
      /\ exists options,
           awaitHook (hook (config (objects0 ref))) options
           = Normal (settled (sequenceEntry hasOwnHook (hook (config step)) result))).
    { cbn [settled sequenceEntry]. rewrite <- Hh. split; [reflexivity|].
      exists (options (config step)). exact Hawait. }
    destruct (stopOnError step && negb (succeeded success result)) eqn:Hstop.
    + exists [sequenceEntry hasOwnHook (hook (config step)) result].
      apply andb_true_iff in Hstop as [Hst Hsu]. apply negb_true_iff in Hsu.
      split; [reflexivity|].
      split; [cbn [length take]; constructor; [exact Hentry | constructor]|].
      split; [cbn; lia|]. split; [discriminate|]. split.
      * intros _. exists [], (sequenceEntry hasOwnHook (hook (config step)) result), ref.
        cbn. split; [reflexivity|]. split; [reflexivity|].
        split; [congruence | exact Hsu].
      * intros i entry r _ Hi. cbn in Hi. lia.
    + specialize (IH (match passTarget Options sequence step with
                      | Some target =>
                          passData Options Result withPreviousResult objects target result
                      | None => objects
                      end)
                     (results ++ [sequenceEntry hasOwnHook (hook (config step)) result])).
      destruct (runSteps success withPreviousResult hasOwnHook awaitHook sequence todo _ _)
        as [final | message].
      * destruct IH as (added & Hrun & Hall & Hlen & Hne & Hshort & Hearly).
        { intros r. destruct (passTarget Options sequence step) as [target|];
            [|apply Hshape].
          unfold passData. destruct (bool_decide (r = target)) eqn:Hr; [|apply Hshape].
          apply bool_decide_eq_true in Hr. subst r. cbn. apply Hshape. }
        exists (sequenceEntry hasOwnHook (hook (config step)) result :: added).
        split; [rewrite Hrun, <- app_assoc; reflexivity|].
        split; [cbn [length take]; constructor; [exact Hentry | exact Hall]|].
        split; [cbn; lia|]. split; [discriminate|]. split.
        -- intros Hlt. cbn in Hlt.
           destruct Hshort as (init & entry & r & -> & Hr & Hst & Hsu); [lia|].
           exists (sequenceEntry hasOwnHook (hook (config step)) result :: init), entry, r.
           cbn. split; [reflexivity|]. split; [exact Hr|]. split; assumption.
        -- intros [|i] entry r Hi Hlt Hr Hst.
           ++ cbn in Hi, Hr. injection Hi as <-. injection Hr as <-.
              rewrite <- Hs in Hst. rewrite Hst in Hstop. cbn in Hstop.
              apply negb_false_iff in Hstop. exact Hstop.
           ++ cbn in Hi, Hr, Hlt. apply (Hearly i entry r Hi); [lia | exact Hr | exact Hst].
      * destruct IH as (i & r & opts & Hi & Hthrow).
        { intros r. destruct (passTarget Options sequence step) as [target|];
            [|apply Hshape].
          unfold passData. destruct (bool_decide (r = target)) eqn:Hr; [|apply Hshape].
          apply bool_decide_eq_true in Hr. subst r. cbn. apply Hshape. }
        exists (S i), r, opts. split; [exact Hi | exact Hthrow].
Qed.

End HookRunFacts.

(** X21: a hook registered under a name other than [__proto__] is the one
    [executeHook] runs under that name from then on, also when
    [Object.prototype] answered for the name before (as for
    [constructor]); every other name behaves as before, and the override
    warning is printed exactly when the name was not unknown. *)
Theorem registered_hook_is_executed {Options Result : Type}
    (hooks : HookManager.Hooks Options Result) (name : string)
    (cls : HookManager.HookClass Options Result) :
  name <> "__proto__" ->
  exists hooks' warned,
    HookRuns.registerHook hooks name cls = Some (hooks', warned)
    /\ JS.js_get hooks' name = JS.Own cls
    /\ (forall result options, cls options = JS.Normal (Some result) ->
          fst (HookManager.executeHook hooks' name options) = HookManager.Passed result)
    /\ (forall other options, other <> name ->
          HookManager.executeHook hooks' other options
          = HookManager.executeHook hooks other options)
    /\ (warned = false <-> JS.js_get hooks name = JS.Missing).
Proof.
  intros Hname. unfold HookRuns.registerHook.
  rewrite bool_decide_eq_false_2 by exact Hname.
  eexists _, _. split; [reflexivity|].
  assert (JS.js_get (HookRuns.assign name cls hooks) name = JS.Own cls) as Hget.
  { unfold JS.js_get. rewrite assoc_assign.
    rewrite bool_decide_eq_true_2 by reflexivity. reflexivity. }
  split; [exact Hget|]. split; [|split].
  - intros result options Hrun. unfold HookManager.executeHook.
    rewrite Hget, Hrun. reflexivity.
  - intros other options Hne. unfold HookManager.executeHook, JS.js_get.
    rewrite assoc_assign. rewrite bool_decide_eq_false_2 by exact Hne. reflexivity.
  - destruct (JS.js_get hooks name); split; intros H; try reflexivity; discriminate H.
Qed.

Lemma registered_hook_is_executed_witness :
  let hooks :=
    HookManager.initialHooks (fun _ : unit => JS.Throw "a") (fun _ => JS.Throw "b")
      (fun _ => JS.Throw "c") (fun _ => JS.Throw "d") (fun _ => JS.Throw "e") in
  let cls : HookManager.HookClass unit nat := fun _ => JS.Normal (Some 7%nat) in
  exists hooks' warned,
    HookRuns.registerHook hooks "constructor" cls = Some (hooks', warned)
    /\ JS.js_get hooks' "constructor" = JS.Own cls
    /\ (forall result options, cls options = JS.Normal (Some result) ->
          fst (HookManager.executeHook hooks' "constructor" options)
          = HookManager.Passed result)
    /\ (forall other options, other <> "constructor" ->
          HookManager.executeHook hooks' other options
          = HookManager.executeHook hooks other options)
    /\ (warned = false <-> JS.js_get hooks "constructor" = JS.Missing).
Proof.
  apply (registered_hook_is_executed
           (HookManager.initialHooks (fun _ : unit => JS.Throw "a")
              (fun _ => JS.Throw "b") (fun _ => JS.Throw "c")
              (fun _ => JS.Throw "d") (fun _ => JS.Throw "e"))
           "constructor" (fun _ => JS.Normal (Some 7%nat))).
  discriminate.
Defined.

(** X22: the summary of a parallel run is consistent with its input: [total]
    is the number of configurations, [successful] the number of hooks whose
    result has a truthy [success], [successful + failed = total], and
    [results] holds one entry per configuration in the order given, each
    with the configuration's hook name; a hook that ended in an error
    [executeHook] caught is reported with that error's message. *)
Theorem parallel_summary_consistent {Options Result : Type}
    (success : Result -> bool) (hooks : HookManager.Hooks Options Result)
    (hookConfigs : list (HookRuns.Config Options)) :
  let run (c : HookRuns.Config Options) :=
    fst (HookManager.executeHook hooks (HookRuns.hook c) (HookRuns.options c)) in
  let summary := HookRuns.executeParallelHooks success hooks hookConfigs in
  HookRuns.total summary = length hookConfigs
  /\ HookRuns.successful summary
     = length (filter (fun c => HookRuns.succeeded success (run c) = true) hookConfigs)
  /\ (HookRuns.successful summary + HookRuns.failed summary)%nat = HookRuns.total summary
  /\ Forall2 (fun c entry =>
        match entry with
        | HookRuns.Succeeded h data =>
            h = HookRuns.hook c /\ data = run c
            /\ HookRuns.succeeded success (run c) = true
        | HookRuns.Failed h err =>
            h = HookRuns.hook c /\ HookRuns.succeeded success (run c) = false
            /\ forall m, run c = HookManager.Failure m -> err = HookRuns.Message m
        end) hookConfigs (HookRuns.results summary).
Proof.
  cbv zeta. unfold HookRuns.executeParallelHooks. cbv zeta.
  set (run := fun c : HookRuns.Config Options =>
                fst (HookManager.executeHook hooks (HookRuns.hook c) (HookRuns.options c))).
  assert (Hzip : zip hookConfigs (map run hookConfigs)
                 = map (fun c => (c, run c)) hookConfigs).
  { clear. induction hookConfigs as [|c cs IH]; [reflexivity|]. cbn. rewrite IH. reflexivity. }
  rewrite Hzip. clear Hzip.
  assert (Hcount : forall cs : list (HookRuns.Config Options),
            length (filter (fun p : HookRuns.Config Options * HookManager.Outcome Result =>
                              HookRuns.succeeded success (snd p) = true)
                      (map (fun c => (c, run c)) cs))
            = length (filter (fun c => HookRuns.succeeded success (run c) = true) cs)).
  { clear. induction cs as [|c cs IH]; [reflexivity|]. cbn [map].
    rewrite !filter_cons. cbn [snd].
    destruct (decide (HookRuns.succeeded success (run c) = true)); cbn [length];
      rewrite IH; reflexivity. }
  destruct (tally_fold success (map (fun c => (c, run c)) hookConfigs)
              {| HookRuns.total := length (map run hookConfigs);
                 HookRuns.successful := 0; HookRuns.failed := 0;
                 HookRuns.results := [] |})
    as (Ht & Hs & Hsum & added & Hr & Hall).
  remember (fold_left (HookRuns.tally Options Result success)
              (map (fun c => (c, run c)) hookConfigs) _) as summary eqn:Es.
  clear Es.
  cbn [HookRuns.total HookRuns.successful HookRuns.failed HookRuns.results] in *.
  rewrite Hcount in Hs. rewrite !length_map in *.
  cbn [Nat.add] in Hs, Hsum.
  split; [exact Ht|]. split; [exact Hs|]. split; [lia|].
  rewrite Hr. cbn [app]. clear - Hall. revert added Hall.
  induction hookConfigs as [|c cs IH]; intros added Hall; cbn [map] in Hall.
  - inversion Hall. constructor.
  - inversion Hall as [|p e ps es Hp Hps]; subst. constructor; [exact Hp | apply IH, Hps].
Qed.

(** X23: a sequence runs its steps in order and stops only after a step
    with [stopOnError] whose result has no truthy [success], or when
    [executeHook] is rejected, which rejects the sequence with the same
    error. When the sequence is fulfilled, each entry of the results is
    what [executeHook] settled with for the hook name of the step at its
    position, spread over that name: the entry keeps the name unless the
    hook's result has a [hook] property of its own, and always keeps it
    for a failure that [executeHook] reports; the results are not empty for a
    non-empty sequence, are shorter than the sequence only when the last
    of them is such a failed step with [stopOnError], and every earlier
    step with [stopOnError] succeeded. This holds whatever data is passed
    between the steps and also when one step object stands at several
    positions. *)
Theorem sequence_stops_at_first_error {Options Result : Type}
    (success : Result -> bool)
    (withPreviousResult : Options -> HookManager.Outcome Result -> Options)
    (hasOwnHook : Result -> bool)
    (awaitHook : string -> Options -> JS.Completion (HookManager.Outcome Result))
    (sequence : list nat) (objects : HookRuns.Objects Options) :
  match HookRuns.executeSequence success withPreviousResult hasOwnHook awaitHook
          sequence objects with
  | JS.Normal results =>
      Forall2 (fun ref entry =>
           HookRuns.named entry
           = match HookRuns.settled entry with
             | HookManager.Passed r =>
                 if hasOwnHook r then None
                 else Some (HookRuns.hook (HookRuns.config (objects ref)))
             | HookManager.Failure _ =>
                 Some (HookRuns.hook (HookRuns.config (objects ref)))
             end
           /\ exists options,
                awaitHook (HookRuns.hook (HookRuns.config (objects ref))) options
                = JS.Normal (HookRuns.settled entry))
        (take (length results) sequence) results
      /\ (length results <= length sequence)%nat
      /\ (sequence <> [] -> results <> [])
      /\ ((length results < length sequence)%nat ->
          exists init entry ref,
            results = init ++ [entry] /\ sequence !! length init = Some ref
            /\ HookRuns.stopOnError (objects ref) = true
            /\ HookRuns.succeeded success (HookRuns.settled entry) = false)
      /\ (forall i entry ref,
            results !! i = Some entry -> (S i < length results)%nat ->
            sequence !! i = Some ref -> HookRuns.stopOnError (objects ref) = true ->
            HookRuns.succeeded success (HookRuns.settled entry) = true)
  | JS.Throw message =>
      exists i ref options,
        sequence !! i = Some ref
        /\ awaitHook (HookRuns.hook (HookRuns.config (objects ref))) options
           = JS.Throw message
  end.
Proof.
  unfold HookRuns.executeSequence.
  pose proof (runSteps_spec success withPreviousResult hasOwnHook awaitHook objects
                sequence sequence objects [] (fun ref => conj eq_refl eq_refl)) as H.
  destruct (HookRuns.runSteps success withPreviousResult hasOwnHook awaitHook
              sequence sequence objects []) as [final | message].
  - destruct H as (added & -> & Hall & H). cbn [app]. split; [|exact H].
    eapply Forall2_impl; [exact Hall|].
    intros ref entry [Hentry Hsettled]. split; [|exact Hsettled].
    rewrite Hentry. reflexivity.
  - exact H.
Qed.

(** ** Recommendations and commit message of the post-task hook *)

Section PostTaskFacts.
Import JS Text PostTask.

Lemma pushRecommendation_fold (bs : list Bottleneck) (acc : list Recommendation) :
  fold_left pushRecommendation bs acc = acc ++ omap recommend bs.
Proof.
  revert acc. induction bs as [|b bs IH]; intros acc; cbn [fold_left]; simpl omap.
  - rewrite app_nil_r. reflexivity.
  - rewrite IH. unfold pushRecommendation.
    destruct (recommend b) as [r|]; [|reflexivity].
    rewrite <- app_assoc. reflexivity.
Qed.

Lemma recommend_known (b : Bottleneck) :
  recommend b = None
  <-> type b ∉ [ Str "agent-efficiency"; Str "coordination-latency";
                 Str "sync-rate"; Str "memory-usage" ].
Proof.
  unfold recommend. rewrite !not_elem_of_cons.
  destruct (type b) as [| |x|n|t];
    try (split; [intros _; repeat split; try discriminate; apply not_elem_of_nil
                | reflexivity]).
  destruct (decide (t = "agent-efficiency")) as [-> | H1];
    [split; [discriminate | intros (H & _); congruence]|].
  rewrite (bool_decide_eq_false_2 _ H1).
  destruct (decide (t = "coordination-latency")) as [-> | H2];
    [split; [discriminate | intros (_ & H & _); congruence]|].
  rewrite (bool_decide_eq_false_2 _ H2).
  destruct (decide (t = "sync-rate")) as [-> | H3];
    [split; [discriminate | intros (_ & _ & H & _); congruence]|].
  rewrite (bool_decide_eq_false_2 _ H3).
  destruct (decide (t = "memory-usage")) as [-> | H4];
    [split; [discriminate | intros (_ & _ & _ & H & _); congruence]|].
  rewrite (bool_decide_eq_false_2 _ H4).
  split; [intros _ | reflexivity].
  repeat split; try congruence. apply not_elem_of_nil.
Qed.

Lemma recommend_general (b : Bottleneck) (r : Recommendation) :
  recommend b = Some r ->
  category r <> "general" /\ (priority r = "high" -> category r = "performance").
Proof.
  unfold recommend. destruct (type b) as [| |x|n|t]; try discriminate.
  repeat (destruct (bool_decide (t = _));
          [intros [= <-]; cbn; split; [discriminate | first [reflexivity | discriminate]]|]).
  discriminate.
Qed.







End PostTaskFacts.

(** X24: the recommendation list is never empty: it holds one
    recommendation for each bottleneck of a known type, in order, and the
    general recommendation alone exactly when no bottleneck has a known
    type. Only an [agent-efficiency] bottleneck gives a recommendation of
    priority [high], and that recommendation names the bottleneck's
    component. *)
Theorem recommendations_cover_bottlenecks (bottlenecks : list PostTask.Bottleneck) :
  let recommendations := PostTask.generateRecommendations bottlenecks in
  recommendations <> []
  /\ length recommendations
     = Nat.max 1 (length (omap PostTask.recommend bottlenecks))
  /\ (PostTask.generalRecommendation ∈ recommendations
      <-> forall b, b ∈ bottlenecks ->
            PostTask.type b ∉ [ JS.Str "agent-efficiency"; JS.Str "coordination-latency";
                                JS.Str "sync-rate"; JS.Str "memory-usage" ])
  /\ (forall b, b ∈ bottlenecks -> PostTask.type b = JS.Str "agent-efficiency" ->
        exists r, r ∈ recommendations /\ PostTask.priority r = "high"
                  /\ JS.substring_of (PostTask.component b) (PostTask.suggestion r))
  /\ (forall r, r ∈ recommendations -> PostTask.priority r = "high" ->
        PostTask.category r = "performance").
Proof.
  cbv zeta. unfold PostTask.generateRecommendations. cbv zeta.
  rewrite pushRecommendation_fold. cbn [app].
  assert (Hnone : omap PostTask.recommend bottlenecks = []
                  <-> forall b, b ∈ bottlenecks -> PostTask.recommend b = None).
  { induction bottlenecks as [|b bs IH]; simpl omap.
    - split; [|reflexivity]. intros _ b Hb. apply elem_of_nil in Hb. contradiction.
    - destruct (PostTask.recommend b) as [r|] eqn:Hb.
      + split; [intros H; discriminate H|]. intros H.
        specialize (H b (proj2 (elem_of_cons _ _ _) (or_introl eq_refl))). congruence.
      + rewrite IH. split.
        * intros H x Hx. apply elem_of_cons in Hx as [-> | Hx]; auto.
        * intros H x Hx. apply H. apply elem_of_cons. auto. }
  assert (Hin : forall r, r ∈ omap PostTask.recommend bottlenecks
                  <-> exists b, b ∈ bottlenecks /\ PostTask.recommend b = Some r).
  { intros r. apply list_elem_of_omap. }
  destruct (omap PostTask.recommend bottlenecks) as [|r0 rs] eqn:Hrecs;
    cbn [length Nat.eqb app].
  - split; [discriminate|]. split; [reflexivity|]. split; [|split].
    + split.
      * intros _ b Hb. apply recommend_known. apply Hnone; [reflexivity | exact Hb].
      * intros _. apply elem_of_cons. left. reflexivity.
    + intros b Hb Ht. assert (PostTask.recommend b = None) as Hn
        by (apply Hnone; [reflexivity | exact Hb]).
      unfold PostTask.recommend in Hn. rewrite Ht in Hn. discriminate Hn.
    + intros r Hr. apply elem_of_cons in Hr as [-> | Hr];
        [discriminate | apply elem_of_nil in Hr; contradiction].
  - split; [discriminate|]. split; [lia|]. split; [|split].
    + split.
      * intros Hg. apply Hin in Hg as (b & _ & Hb).
        apply recommend_general in Hb as [Hb _]. contradiction Hb. reflexivity.
      * intros H. assert (r0 :: rs = []) as Hnil; [|discriminate Hnil].
        apply Hnone. intros b Hb. apply recommend_known. apply H, Hb.
    + intros b Hb Ht. eexists. split; [apply Hin; exists b; split; [exact Hb|]|].
      * unfold PostTask.recommend. rewrite Ht. reflexivity.
      * cbn. split; [reflexivity|]. exists "Optimize ". eexists. reflexivity.
    + intros r Hr. apply Hin in Hr as (b & _ & Hb).
      apply recommend_general in Hb as [_ Hb]. exact Hb.
Qed.

